(** * word-learner: the SM-2 scheduler, word selection and the learning session

    A shallow embedding of [src/learn.js] (the scheduler and [LearningSession]),
    of the learning part of [src/api.js] ([Notebook]) and of the progress part
    of [src/cet.js] (the CET category store), with the properties the
    specification states about them; then of the notebook's other methods,
    the command parser of [src/commands.js], the search history, the merging
    of examples and the part of the REPL of [src/repl.js] that runs a
    learning session, with further properties of theirs.

    Conventions of the embedding:
    - JavaScript numbers that take part in floating-point arithmetic
      ([easeFactor], [interval], time values, percentages) are IEEE-754
      binary64 values, Rocq's primitive [float]; the arithmetic of the claims
      is read in binary64 too.  Counters that are only ever incremented by one
      ([reviewCount], [correctCount], array lengths, [maxNewWords]) are kept
      as [Z] or [nat]: below 2^53 the increment of a whole number is exact in
      binary64 ([JS.isSafeInteger]), and a statement about a counter of an
      arbitrary state carries that bound.
    - The clock reading [new Date()] is an argument [now]: its time value in
      milliseconds.  An ISO string is kept as the time value it denotes
      ([toISOString] and [new Date(string)] are inverse on valid dates).
    - A call either returns or raises: [JS.result].
    - Methods that write to their object return the object after the call. *)

From Stdlib Require Import ZArith List Bool Lia String Floats.
From stdpp Require Import base gmap strings.
Import ListNotations.
Local Open Scope Z_scope.
Set Warnings "-inexact-float".

(** ** JavaScript numbers *)

Module JS.

(** What a call raises instead of returning. *)
Inductive error := RangeError | TypeError.

Inductive result (A : Type) :=
| Ok (a : A)
| Throws (e : error).
Arguments Ok {A} a.
Arguments Throws {A} e.

Definition bind {A B} (r : result A) (k : A -> result B) : result B :=
  match r with
  | Ok a => k a
  | Throws e => Throws e
  end.

(** The double nearest to an integer (exact when [|z| <= 2^53]). *)
Definition Number (z : Z) : float := SF2Prim (binary_normalize prec emax z 0 false).


(** [Math.max(a, b)]: NaN if either is NaN, the larger otherwise, [+0] over [-0]. *)
Definition Math_max (a b : float) : float :=
  if is_nan a || is_nan b then nan
  else if (a <? b)%float then b
  else if (b <? a)%float then a
  else if get_sign a then b else a.

(** [Math.round(x)]: the integer nearest to [x], ties towards +infinity; NaN,
    the infinities and the zeros are returned unchanged, and a result of zero
    keeps the sign of [x].  For a finite [x = (-1)^s * m * 2^e] with [e < 0] the
    integer is [floor (x + 1/2) = floor ((2 * (+-m) + 2^-e) / 2^(1-e))]. *)
Definition Math_round (x : float) : float :=
  match Prim2SF x with
  | S754_finite s m e =>
      if 0 <=? e then x
      else
        let n := Z.shiftr (2 * cond_Zopp s (Zpos m) + 2 ^ (- e)) (1 - e) in
        if n =? 0 then (if s then neg_zero else zero) else Number n
  | _ => x
  end.

(** [ToIntegerOrInfinity] on a finite number: truncation towards zero; the
    zeros (and anything that truncates to zero) give [+0]. *)
Definition truncate (x : float) : float :=
  match Prim2SF x with
  | S754_finite s m e =>
      if 0 <=? e then x
      else Number (cond_Zopp s (Z.shiftr (Zpos m) (- e)))
  | S754_zero _ => zero
  | _ => x
  end.

(** [TimeClip]: the time value of [new Date(t)].  NaN (an invalid date) when
    [t] is not finite or beyond 8.64e15 ms from the epoch. *)
Definition TimeClip (t : float) : float :=
  if is_finite t && (abs t <=? 8.64e15)%float then truncate t else nan.

(** [Date.prototype.toISOString] raises [RangeError] on an invalid date.  An
    ISO string is identified with the time value it denotes. *)
Definition toISOString (tv : float) : result float :=
  if is_nan tv then Throws RangeError else Ok tv.

(** The binary64 mantissas of the scheduler's constants: [1.3] (times
    2^-52), [0.15] and [0.2] (times 2^-55). *)
Definition floor_mantissa : positive := 5854679515581645.
Definition bonus_mantissa : positive := 5404319552844595.
Definition penalty_mantissa : positive := 7205759403792794.

(** The time value of a valid [Date]: what [TimeClip] leaves unchanged.  The
    clock reading [new Date()] always is one. *)
Definition validTime (t : float) : Prop :=
  is_nan t = false /\ TimeClip t = t.

End JS.

(** ** The scheduler ([src/learn.js]) *)

(** A complete learning state.  [lastReviewedAt] and [nextReviewAt] are [null]
    ([None]) or an ISO string, kept as the time value it denotes. *)
Record LearningState := {
  level : nat;
  easeFactor : float;
  interval : float;
  lastReviewedAt : option float;
  nextReviewAt : option float;
  reviewCount : Z;
  correctCount : Z
}.

Definition DEFAULT_LEARNING : LearningState := {|
  level := 0;
  easeFactor := 2.5;
  interval := 0;
  lastReviewedAt := None;
  nextReviewAt := None;
  reviewCount := 0;
  correctCount := 0
|}.

Record Threshold := {
  minInterval : float;
  threshold_level : nat;
  threshold_name : string
}.

Definition LEVEL_THRESHOLDS : list Threshold := [
  {| minInterval := 21; threshold_level := 5; threshold_name := "Mastered" |};
  {| minInterval := 14; threshold_level := 4; threshold_name := "Confident" |};
  {| minInterval := 7; threshold_level := 3; threshold_name := "Familiar" |};
  {| minInterval := 1; threshold_level := 2; threshold_name := "Reviewing" |};
  {| minInterval := 0; threshold_level := 1; threshold_name := "Learning" |}
].

Definition LEVEL_NAMES : list string :=
  ["New"; "Learning"; "Reviewing"; "Familiar"; "Confident"; "Mastered"]%string.

Module GRADES.
Definition FORGOT : Z := 1.
Definition HARD : Z := 2.
Definition GOOD : Z := 3.
Definition EASY : Z := 4.
End GRADES.

(** The loop of [calculateLevel]: the first threshold the interval reaches. *)
Fixpoint firstThreshold (thresholds : list Threshold) (interval : float) : nat :=
  match thresholds with
  | [] => 0%nat
  | threshold :: rest =>
      if (minInterval threshold <=? interval)%float then threshold_level threshold
      else firstThreshold rest interval
  end.

Definition calculateLevel (interval : float) : nat :=
  firstThreshold LEVEL_THRESHOLDS interval.

(** [calculateNextReview(learning, grade)], with the clock reading
    [now = new Date()] passed in as its time value.  The two calls of
    [toISOString] are the only places where it can raise. *)
Definition calculateNextReview (now : float) (learning : LearningState) (grade : Z)
  : JS.result LearningState :=
  let easeFactor := easeFactor learning in
  let interval := interval learning in
  let reviewCount := reviewCount learning in
  let correctCount := correctCount learning in
  let reviewCount := reviewCount + 1 in
  let '(interval, easeFactor, correctCount) :=
    if grade =? GRADES.FORGOT then
      (0%float, JS.Math_max 1.3 (easeFactor - 0.2), correctCount)
    else
      let correctCount := correctCount + 1 in
      let interval' :=
        if (interval =? 0)%float then 1%float
        else if (interval =? 1)%float then 6%float
        else JS.Math_round (interval * easeFactor) in
      let easeFactor' :=
        if grade =? GRADES.HARD then JS.Math_max 1.3 (easeFactor - 0.15)
        else if grade =? GRADES.EASY then (easeFactor + 0.15)%float
        else easeFactor in
      (interval', easeFactor', correctCount) in
  let level := calculateLevel interval in
  JS.bind (JS.toISOString (JS.TimeClip (now + interval * 24 * 60 * 60 * 1000)))
    (fun nextReviewAt =>
  JS.bind (JS.toISOString now) (fun lastReviewedAt =>
  JS.Ok {|
    level := level;
    easeFactor := easeFactor;
    interval := interval;
    lastReviewedAt := Some lastReviewedAt;
    nextReviewAt := Some nextReviewAt;
    reviewCount := reviewCount;
    correctCount := correctCount
  |})).


(** ** Stored words

    What the JSON files hold.  A stored learning object may lack any of its
    seven properties ([None]: the property is missing and reads as
    [undefined]); a time stamp that is present is [null] or an ISO string,
    and an ease factor or interval that is present is [null] (what JSON
    writes for NaN and the infinities) or a number. *)
Record LearningObject := {
  o_level : option nat;
  o_easeFactor : option (option float);
  o_interval : option (option float);
  o_lastReviewedAt : option (option float);
  o_nextReviewAt : option (option float);
  o_reviewCount : option Z;
  o_correctCount : option Z
}.

(** The object a complete state is stored as. *)
Definition toObject (s : LearningState) : LearningObject := {|
  o_level := Some (level s);
  o_easeFactor := Some (Some (easeFactor s));
  o_interval := Some (Some (interval s));
  o_lastReviewedAt := Some (lastReviewedAt s);
  o_nextReviewAt := Some (nextReviewAt s);
  o_reviewCount := Some (reviewCount s);
  o_correctCount := Some (correctCount s)
|}.

(** An object with none of the seven properties. *)
Definition emptyObject : LearningObject := {|
  o_level := None;
  o_easeFactor := None;
  o_interval := None;
  o_lastReviewedAt := None;
  o_nextReviewAt := None;
  o_reviewCount := None;
  o_correctCount := None
|}.

(** [learning.level === n] *)
Definition levelIs (n : nat) (learning : LearningObject) : bool :=
  match o_level learning with
  | Some k => Nat.eqb k n
  | None => false
  end.

(** [learning.nextReviewAt && new Date(learning.nextReviewAt) <= now] *)
Definition reviewIsDue (now : float) (learning : LearningObject) : bool :=
  match o_nextReviewAt learning with
  | Some (Some nextReview) => (nextReview <=? now)%float
  | _ => false
  end.

(** *** The [byLevel] array

    An element of a JavaScript array of counters: a count, NaN, or a hole. *)
Inductive cell := Count (n : nat) | NotANumber | Hole.

(** [c++] on an element: a hole reads as [undefined], which increments to NaN. *)
Definition increment (c : cell) : cell :=
  match c with
  | Count n => Count (S n)
  | _ => NotANumber
  end.

(** [a[k]++]: past the end the array grows, leaving holes below index [k]. *)
Fixpoint incrementAt (k : nat) (a : list cell) : list cell :=
  match k, a with
  | O, [] => [NotANumber]
  | O, c :: rest => increment c :: rest
  | S k', [] => Hole :: incrementAt k' []
  | S k', c :: rest => c :: incrementAt k' rest
  end.

(** [stats.byLevel[learning.level]++]; a missing level names no element. *)
Definition countLevel (learning : LearningObject) (byLevel : list cell) : list cell :=
  match o_level learning with
  | Some k => incrementAt k byLevel
  | None => byLevel
  end.

Record LearningStats := {
  total : nat;
  byLevel : list cell;
  dueToday : nat;
  newAvailable : nat;
  mastered : option nat    (* [None]: the object has no [mastered] property *)
}.

Definition defaultMaxNewWords : nat := 10.

(** [String.prototype.toLowerCase] on the ASCII letters. *)
Definition lowerAscii (c : Ascii.ascii) : Ascii.ascii :=
  let n := Ascii.nat_of_ascii c in
  if (Nat.leb 65 n && Nat.leb n 90)%bool then Ascii.ascii_of_nat (n + 32) else c.

Fixpoint toLowerCase (s : string) : string :=
  match s with
  | EmptyString => EmptyString
  | String c rest => String (lowerAscii c) (toLowerCase rest)
  end.

(** *** Objects used as maps

    [progress.words] is a plain object: [{}], or what [JSON.parse] built.  A
    lookup [o[key]] finds an own property first and then what every object
    inherits from [Object.prototype].  An assignment [o[key] = v] writes an
    own property, except at [__proto__] when the object has no own property
    of that name ([JSON.parse] can create one): there it calls the inherited
    setter, which replaces the prototype and writes nothing. *)

Module PlainObject.

(** The names of the properties of [Object.prototype]. *)
Definition inherited : list string :=
  ["constructor"; "__defineGetter__"; "__defineSetter__"; "hasOwnProperty";
   "__lookupGetter__"; "__lookupSetter__"; "isPrototypeOf"; "propertyIsEnumerable";
   "toString"; "valueOf"; "__proto__"; "toLocaleString"]%string.

(** What a lookup finds. *)
Inductive Property (A : Type) :=
| Own (a : A)     (* an own property *)
| Inherited       (* a built-in function, or [Object.prototype] at [__proto__] *)
| Undefined.
Arguments Own {A} a.
Arguments Inherited {A}.
Arguments Undefined {A}.

Definition get {A} (o : gmap string A) (key : string) : Property A :=
  match o !! key with
  | Some a => Own a
  | None => if existsb (String.eqb key) inherited then Inherited else Undefined
  end.

(** [o[key] = a], for an object [a]. *)
Definition assign {A} (key : string) (a : A) (o : gmap string A) : gmap string A :=
  match o !! key with
  | Some _ => <[key := a]> o
  | None => if String.eqb key "__proto__" then o else <[key := a]> o
  end.

End PlainObject.

(** *** The notebook ([src/api.js]) *)

Module Notebook.

(** A saved word; [learning = None] when the entry has no [learning] property
    (entries saved before the learning feature).  The pronunciation,
    definitions, source and date of an entry play no part here. *)
Record Entry := {
  word : string;
  learning : option LearningObject
}.

Definition ensureLearningFields (entry : Entry) : Entry :=
  match learning entry with
  | None => {| word := word entry; learning := Some (toObject DEFAULT_LEARNING) |}
  | Some _ => entry
  end.

(** The state of the two arrays the selection loop pushes to. *)
Record Selection := { dueWords : list Entry; newWords : list Entry }.

Definition selectWord (now : float) (acc : Selection) (word : Entry) : Selection :=
  let word := ensureLearningFields word in
  match learning word with
  | None => acc    (* not reached: [ensureLearningFields] gave the entry one *)
  | Some learning =>
      if levelIs 0 learning then
        {| dueWords := dueWords acc; newWords := newWords acc ++ [word] |}
      else if reviewIsDue now learning then
        {| dueWords := dueWords acc ++ [word]; newWords := newWords acc |}
      else acc
  end.

(** [getWordsForLearning(maxNewWords = 10)]: the selected words, and the
    notebook's words after the loop (it repairs the entries in place). *)
Definition getWordsForLearning (maxNewWords : option nat) (now : float)
    (words : list Entry) : list Entry * list Entry :=
  let maxNewWords := default defaultMaxNewWords maxNewWords in
  let sel := fold_left (selectWord now) words {| dueWords := []; newWords := [] |} in
  let selectedNew := firstn maxNewWords (newWords sel) in
  (dueWords sel ++ selectedNew, map ensureLearningFields words).

Definition countWord (now : float) (stats : LearningStats) (word : Entry) : LearningStats :=
  let word := ensureLearningFields word in
  match learning word with
  | None => stats
  | Some learning =>
      let byLevel := countLevel learning (byLevel stats) in
      if levelIs 0 learning then
        {| total := total stats; byLevel := byLevel; dueToday := dueToday stats;
           newAvailable := S (newAvailable stats); mastered := mastered stats |}
      else if reviewIsDue now learning then
        {| total := total stats; byLevel := byLevel; dueToday := S (dueToday stats);
           newAvailable := newAvailable stats; mastered := mastered stats |}
      else
        {| total := total stats; byLevel := byLevel; dueToday := dueToday stats;
           newAvailable := newAvailable stats; mastered := mastered stats |}
  end.

(** [getLearningStats()]: the statistics, and the notebook's words after the
    loop. *)
Definition getLearningStats (now : float) (words : list Entry)
  : LearningStats * list Entry :=
  let stats := {| total := length words;
                  byLevel := repeat (Count 0) 6;
                  dueToday := 0;
                  newAvailable := 0;
                  mastered := None |} in
  (fold_left (countWord now) words stats, map ensureLearningFields words).

End Notebook.

(** *** The CET category store ([src/cet.js]) *)

Module CET.

(** The supported categories; any other name makes every function below
    raise an error before it reads anything. *)
Inductive Category := cet4 | cet6.

(** A word of an extracted list; its pronunciation, definitions and
    dictionary marks play no part here. *)
Record WordEntry := { word : string }.

(** A word with its learning state attached: [{ ...wordEntry, learning }]. *)
Record WordWithLearning := {
  entry : WordEntry;
  learning : LearningObject
}.

(** The data directory: per category, the extracted word list and the
    progress file's [words] object (the map of its own properties, from the
    lower-cased word to its learning object), when the file exists. *)
Record DataDir := {
  wordListFile : Category -> option (list WordEntry);
  progressFile : Category -> option (gmap string LearningObject)
}.

Definition getWordList (data : DataDir) (category : Category) : option (list WordEntry) :=
  wordListFile data category.

(** [getProgress(category).words] *)
Definition getProgress (data : DataDir) (category : Category) : gmap string LearningObject :=
  default ∅ (progressFile data category).

(** [found || { ...DEFAULT_LEARNING }].  A record is an object, hence truthy;
    so is an inherited value, which is kept: it has none of the seven
    properties, and is read as the object without properties. *)
Definition orDefault (found : PlainObject.Property LearningObject) : LearningObject :=
  match found with
  | PlainObject.Own o => o
  | PlainObject.Inherited => emptyObject
  | PlainObject.Undefined => toObject DEFAULT_LEARNING
  end.

(** [progress.words[wordKey] || { ...DEFAULT_LEARNING }] *)
Definition learningOf (progress : gmap string LearningObject) (wordEntry : WordEntry)
  : LearningObject :=
  let wordKey := toLowerCase (word wordEntry) in
  orDefault (PlainObject.get progress wordKey).

Definition getWordLearningState (data : DataDir) (category : Category) (w : string)
  : LearningObject :=
  orDefault (PlainObject.get (getProgress data category) (toLowerCase w)).

Record Selection := {
  dueWords : list WordWithLearning;
  newWords : list WordWithLearning
}.

Definition selectWord (progress : gmap string LearningObject) (now : float)
    (acc : Selection) (wordEntry : WordEntry) : Selection :=
  let learning := learningOf progress wordEntry in
  let wordWithLearning := {| entry := wordEntry; learning := learning |} in
  if levelIs 0 learning then
    {| dueWords := dueWords acc; newWords := newWords acc ++ [wordWithLearning] |}
  else if reviewIsDue now learning then
    {| dueWords := dueWords acc ++ [wordWithLearning]; newWords := newWords acc |}
  else acc.

Definition getWordsForLearning (data : DataDir) (category : Category)
    (maxNewWords : option nat) (now : float) : list WordWithLearning :=
  match getWordList data category with
  | None => []
  | Some words =>
      let maxNewWords := default defaultMaxNewWords maxNewWords in
      let progress := getProgress data category in
      let sel := fold_left (selectWord progress now) words
                   {| dueWords := []; newWords := [] |} in
      let selectedNew := firstn maxNewWords (newWords sel) in
      dueWords sel ++ selectedNew
  end.

Definition countWord (progress : gmap string LearningObject) (now : float)
    (stats : LearningStats) (wordEntry : WordEntry) : LearningStats :=
  let learning := learningOf progress wordEntry in
  let byLevel := countLevel learning (byLevel stats) in
  let newAvailable :=
    if levelIs 0 learning then S (newAvailable stats) else newAvailable stats in
  let mastered :=
    if levelIs 0 learning then mastered stats
    else if levelIs 5 learning then S <$> mastered stats
    else mastered stats in
  let dueToday :=
    if reviewIsDue now learning then S (dueToday stats) else dueToday stats in
  {| total := total stats; byLevel := byLevel; dueToday := dueToday;
     newAvailable := newAvailable; mastered := mastered |}.

Definition getLearningStats (data : DataDir) (category : Category) (now : float)
  : LearningStats :=
  match getWordList data category with
  | None =>
      {| total := 0; byLevel := repeat (Count 0) 6; dueToday := 0;
         newAvailable := 0; mastered := Some 0%nat |}
  | Some words =>
      let progress := getProgress data category in
      let stats := {| total := length words;
                      byLevel := repeat (Count 0) 6;
                      dueToday := 0;
                      newAvailable := 0;
                      mastered := Some 0%nat |} in
      fold_left (countWord progress now) words stats
  end.

End CET.

(** ** The learning session ([LearningSession] in [src/learn.js]) *)

Module Session.
Section WithWords.

(** The session is generic in its words: notebook entries or category words
    with their learning state.  [wordOf w] is [w.word]. *)
Context {Word : Type} (wordOf : Word -> string).

Record Result := {
  result_word : string;
  grade : Z;
  wasRevealed : bool
}.

Record LearningSession := {
  words : list Word;
  currentIndex : nat;
  results : list Result;
  revealed : bool
}.

(** [new LearningSession(words)] *)
Definition create (words : list Word) : LearningSession :=
  {| words := words; currentIndex := 0; results := []; revealed := false |}.

Definition totalWords (s : LearningSession) : nat := length (words s).

(** [this.words[this.currentIndex] || null]; [None] is [null]. *)
Definition currentWord (s : LearningSession) : option Word :=
  nth_error (words s) (currentIndex s).

Definition isComplete (s : LearningSession) : bool :=
  Nat.leb (length (words s)) (currentIndex s).

Definition reveal (s : LearningSession) : LearningSession :=
  {| words := words s; currentIndex := currentIndex s;
     results := results s; revealed := true |}.

(** [recordGrade(grade)]: the outcome of the call and the session after it.
    Reading [this.currentWord.word] raises [TypeError] when [currentWord] is
    [null], before anything is pushed or advanced. *)
Definition recordGrade (grade : Z) (s : LearningSession)
  : JS.result unit * LearningSession :=
  match currentWord s with
  | None => (JS.Throws JS.TypeError, s)
  | Some w =>
      (JS.Ok tt,
       {| words := words s;
          currentIndex := S (currentIndex s);
          results := results s ++ [{| result_word := wordOf w; grade := grade;
                                      wasRevealed := revealed s |}];
          revealed := false |})
  end.

Record Progress := {
  current : nat;
  progress_total : nat;
  progress_reviewed : nat;
  progress_correct : nat
}.

Definition progress (s : LearningSession) : Progress := {|
  current := currentIndex s + 1;
  progress_total := length (words s);
  progress_reviewed := length (results s);
  progress_correct :=
    length (List.filter (fun r => GRADES.GOOD <=? grade r) (results s))
|}.

Record Stats := {
  reviewed : nat;
  correct : nat;
  needPractice : nat;
  percentage : float
}.

Definition getStats (s : LearningSession) : Stats :=
  let correct := length (List.filter (fun r => GRADES.GOOD <=? grade r) (results s)) in
  let needPractice := length (List.filter (fun r => grade r <? GRADES.GOOD) (results s)) in
  {| reviewed := length (results s);
     correct := correct;
     needPractice := needPractice;
     percentage :=
       if Nat.ltb 0 (length (results s)) then
         JS.Math_round
           (JS.Number (Z.of_nat correct) / JS.Number (Z.of_nat (length (results s))) * 100)
       else 0%float |}.

(** Recording a list of grades, one card after the other, stopping at the
    first call that raises. *)
Fixpoint recordGrades (grades : list Z) (s : LearningSession)
  : JS.result unit * LearningSession :=
  match grades with
  | [] => (JS.Ok tt, s)
  | g :: rest =>
      match recordGrade g s with
      | (JS.Ok _, s') => recordGrades rest s'
      | failed => failed
      end
  end.

(** The REPL's states while a session runs ([SelectionState] in
    [src/repl.js]) and [showCurrentFlashcard], which decides between the next
    card and the summary before a card is shown. *)
Inductive SelectionState :=
| NONE | LEARN_MENU | FLASHCARD_FRONT | FLASHCARD_BACK | SESSION_COMPLETE.

Definition showCurrentFlashcard (s : LearningSession) : SelectionState :=
  if isComplete s then SESSION_COMPLETE else FLASHCARD_FRONT.

End WithWords.
End Session.

(** ** Sequences of reviews

    A review is a clock reading and a grade.  [reviews] applies
    [calculateNextReview] along a list of reviews and stops at the first call
    that raises; [trace] lists the states the calls return on the way. *)
Definition review (learning : LearningState) (r : float * Z) : JS.result LearningState :=
  calculateNextReview (fst r) learning (snd r).

Fixpoint reviews (learning : LearningState) (rs : list (float * Z))
  : JS.result LearningState :=
  match rs with
  | [] => JS.Ok learning
  | r :: rest => JS.bind (review learning r) (fun next => reviews next rest)
  end.

Fixpoint trace (learning : LearningState) (rs : list (float * Z)) : list LearningState :=
  match rs with
  | [] => []
  | r :: rest =>
      match review learning r with
      | JS.Ok next => next :: trace next rest
      | JS.Throws _ => []
      end
  end.

(** How many list elements satisfy a test. *)
Fixpoint countIf {A} (p : A -> bool) (l : list A) : nat :=
  match l with
  | [] => 0
  | x :: rest => (if p x then 1 else 0) + countIf p rest
  end.

(** ** The specification's vocabulary *)

(** Whether [now + interval] days is a date [Date] can represent. *)
Definition representable (now interval : float) : bool :=
  negb (is_nan (JS.TimeClip (now + interval * 24 * 60 * 60 * 1000))).



(** "level == 0" *)
Definition isNew (o : LearningObject) : bool := levelIs 0 o.

(** The tests of a notebook entry: on its learning object, when it has one. *)
Definition entryTest (test : LearningObject -> bool) (e : Notebook.Entry) : bool :=
  match Notebook.learning e with
  | Some o => test o
  | None => false
  end.


(** The words of a category with the learning object the store has for them. *)
Definition attach (progress : gmap string LearningObject) (w : CET.WordEntry)
  : CET.WordWithLearning :=
  {| CET.entry := w; CET.learning := CET.learningOf progress w |}.


(** The learning object an entry counts with: its own, or the default one
    when it has none. *)
Definition effective (e : Notebook.Entry) : LearningObject :=
  default (toObject DEFAULT_LEARNING) (Notebook.learning e).


(** The array after counting the levels of a list of learning objects. *)
Definition countLevels (objects : list LearningObject) (a : list cell) : list cell :=
  fold_left (fun a o => countLevel o a) objects a.

(** The data directory with the progress of one category replaced. *)
Definition withProgress (data : CET.DataDir) (category : CET.Category)
    (progress : gmap string LearningObject) : CET.DataDir :=
  {| CET.wordListFile := CET.wordListFile data;
     CET.progressFile := fun c =>
       match c, category with
       | CET.cet4, CET.cet4 | CET.cet6, CET.cet6 => Some progress
       | _, _ => CET.progressFile data c
       end |}.

(** ** Sample data for the examples *)

(** A clock reading used in examples (3 November 2025), and the state of a
    fresh word after twenty reviews graded Good at that reading. *)
Definition sampleNow : float := 1762160000000.

Definition wornState : LearningState := {|
  level := 5;
  easeFactor := 2.5;
  interval := 88692188;
  lastReviewedAt := Some sampleNow;
  nextReviewAt := Some 7664767203200000%float;
  reviewCount := 20;
  correctCount := 20
|}.

Definition dueState : LearningState := {|
  level := 2; easeFactor := 2.5; interval := 1;
  lastReviewedAt := Some 1762000000000%float;
  nextReviewAt := Some 1762086400000%float;
  reviewCount := 1; correctCount := 1
|}.

Definition laterState : LearningState := {|
  level := 4; easeFactor := 2.5; interval := 15;
  lastReviewedAt := Some 1762000000000%float;
  nextReviewAt := Some 1763296000000%float;
  reviewCount := 3; correctCount := 3
|}.

Definition masteredState : LearningState := {|
  level := 5; easeFactor := 2.5; interval := 38;
  lastReviewedAt := Some 1758000000000%float;
  nextReviewAt := Some 1761283200000%float;
  reviewCount := 4; correctCount := 4
|}.


(** [dueState] as stored with its [nextReviewAt] property missing. *)
Definition partialObject : LearningObject := {|
  o_level := Some 2%nat;
  o_easeFactor := Some (Some 2.5%float);
  o_interval := Some (Some 1%float);
  o_lastReviewedAt := Some (Some 1762000000000%float);
  o_nextReviewAt := None;
  o_reviewCount := Some 1;
  o_correctCount := Some 1
|}.

Definition saved (w : string) (s : LearningState) : Notebook.Entry :=
  {| Notebook.word := w; Notebook.learning := Some (toObject s) |}.

Definition unsaved (w : string) : Notebook.Entry :=
  {| Notebook.word := w; Notebook.learning := None |}.

(** Three due words, one word not yet due, and twenty words never reviewed. *)
Definition sampleNotebook : list Notebook.Entry :=
  [saved "apple" dueState; saved "bread" laterState;
   saved "cloud" dueState; saved "dream" masteredState] ++
  map (fun n => unsaved (String (Ascii.ascii_of_nat (97 + n)) "x")) (seq 0 20).

Definition sampleData : CET.DataDir := {|
  CET.wordListFile := fun c =>
    match c with
    | CET.cet4 => Some [{| CET.word := "Able" |}; {| CET.word := "baker" |};
                        {| CET.word := "Cabin" |}; {| CET.word := "dozen" |}]
    | CET.cet6 => None
    end;
  CET.progressFile := fun c =>
    match c with
    | CET.cet4 => Some (<["able" := toObject dueState]>
                        (<["cabin" := toObject laterState]>
                         (<["dozen" := toObject masteredState]> ∅)))
    | CET.cet6 => None
    end
|}.

(** ** What JSON keeps

    What [JSON.parse] reads back from what [JSON.stringify] wrote, for the
    values of the two files.  A number is written as itself when it is
    finite ([-0] as [0]) and as [null] when it is NaN or an infinity; strings
    (the words, the time stamps), [null], whole numbers and missing
    properties are read back as they were. *)

Module JSON.

Definition number (x : float) : option float :=
  if is_nan x || is_infinity x then None
  else if is_zero x then Some zero
  else Some x.

Definition learning (o : LearningObject) : LearningObject := {|
  o_level := o_level o;
  o_easeFactor := (fun x => x ≫= number) <$> o_easeFactor o;
  o_interval := (fun x => x ≫= number) <$> o_interval o;
  o_lastReviewedAt := o_lastReviewedAt o;
  o_nextReviewAt := o_nextReviewAt o;
  o_reviewCount := o_reviewCount o;
  o_correctCount := o_correctCount o
|}.

Definition entry (e : Notebook.Entry) : Notebook.Entry :=
  {| Notebook.word := Notebook.word e;
     Notebook.learning := learning <$> Notebook.learning e |}.

(** A number that JSON writes and reads back as itself, and an entry whose
    numbers are such. *)
Definition exact (x : float) : bool :=
  negb (is_nan x || is_infinity x) && negb (is_zero x && get_sign x).

Definition exactNumber (x : option (option float)) : Prop :=
  match x with
  | Some (Some x) => exact x = true
  | _ => True
  end.

Definition exactEntry (e : Notebook.Entry) : Prop :=
  match Notebook.learning e with
  | Some o => exactNumber (o_easeFactor o) /\ exactNumber (o_interval o)
  | None => True
  end.

End JSON.

(** ** Arrays *)

(** [Array.prototype.findIndex]; [None] is [-1]. *)
Fixpoint findIndex {A} (p : A -> bool) (l : list A) : option nat :=
  match l with
  | [] => None
  | x :: rest => if p x then Some 0%nat else S <$> findIndex p rest
  end.

(** ** The notebook's other methods ([Notebook] in [src/api.js])

    The notebook object and its file.  [words] is [this.words]; [file] is what
    notebook.json holds. *)

Module NotebookStore.

(** [a.toLowerCase() === b.toLowerCase()], the test of every search by word. *)
Definition sameWord (a b : string) : bool :=
  String.eqb (toLowerCase a) (toLowerCase b).

(** The file: missing, [Words ws] when it parses to an object whose [words]
    is the array [ws], and [Unreadable] for any other content (on which
    [load] ends with an empty notebook).  (A file without the property
    [words] loads as [Words []] does.) *)
Inductive File := Missing | Unreadable | Words (ws : list Notebook.Entry).

Record Store := {
  words : list Notebook.Entry;
  file : File
}.

(** [save()]: [writable] tells whether [writeFileSync] succeeds.  When it
    does, the file holds the words as JSON writes them; when it raises, the
    error is caught and [false] is returned, and the file is taken to be as
    it was. *)
Definition save (writable : bool) (nb : Store) : bool * Store :=
  if writable then
    (true, {| words := words nb; file := Words (map JSON.entry (words nb)) |})
  else (false, nb).

(** The loop of [migrateWords]: the words after it and the flag [needsSave]. *)
Fixpoint migrateLoop (ws : list Notebook.Entry) (needsSave : bool)
  : list Notebook.Entry * bool :=
  match ws with
  | [] => ([], needsSave)
  | word :: rest =>
      match Notebook.learning word with
      | None =>
          let '(rest', needsSave) := migrateLoop rest true in
          ({| Notebook.word := Notebook.word word;
              Notebook.learning := Some (toObject DEFAULT_LEARNING) |} :: rest',
           needsSave)
      | Some _ =>
          let '(rest', needsSave) := migrateLoop rest needsSave in
          (word :: rest', needsSave)
      end
  end.

Definition migrateWords (writable : bool) (nb : Store) : Store :=
  let '(ws, needsSave) := migrateLoop (words nb) false in
  let nb := {| words := ws; file := file nb |} in
  if needsSave then snd (save writable nb) else nb.

(** [new Notebook()]: [this.words = []], then [load()]. *)
Definition load (writable : bool) (f : File) : Store :=
  match f with
  | Words ws => migrateWords writable {| words := ws; file := f |}
  | _ => {| words := []; file := f |}
  end.

(** [addWord(wordEntry, source)], for [wordEntry.word = w]: the new entry
    starts from the default learning state, whether it replaces an entry or
    is pushed. *)
Definition addWord (writable : bool) (w : string) (nb : Store) : bool * Store :=
  let existingIndex := findIndex (fun e => sameWord (Notebook.word e) w) (words nb) in
  let entry := {| Notebook.word := w;
                  Notebook.learning := Some (toObject DEFAULT_LEARNING) |} in
  let ws :=
    match existingIndex with
    | Some i => <[i := entry]> (words nb)
    | None => words nb ++ [entry]
    end in
  save writable {| words := ws; file := file nb |}.

Definition removeWord (writable : bool) (w : string) (nb : Store) : bool * Store :=
  let initialLength := length (words nb) in
  let nb' := {| words := List.filter (fun e => negb (sameWord (Notebook.word e) w)) (words nb);
                file := file nb |} in
  if Nat.ltb (length (words nb')) initialLength then save writable nb'
  else (false, nb').

Definition getWords (nb : Store) : list Notebook.Entry := words nb.

Definition hasWord (w : string) (nb : Store) : bool :=
  existsb (fun e => sameWord (Notebook.word e) w) (words nb).

(** [updateWordLearning(wordText, learningState)]: [find] gives the first
    matching entry, which is updated in place. *)
Definition updateWordLearning (writable : bool) (wordText : string)
    (learningState : LearningObject) (nb : Store) : bool * Store :=
  match findIndex (fun e => sameWord (Notebook.word e) wordText) (words nb) with
  | Some i =>
      let setLearning e := {| Notebook.word := Notebook.word e;
                              Notebook.learning := Some learningState |} in
      save writable {| words := alter setLearning i (words nb); file := file nb |}
  | None => (false, nb)
  end.

(** [getWordsForLearning] and [getLearningStats] as methods of the object:
    they repair the entries in memory and do not save. *)
Definition getWordsForLearning (maxNewWords : option nat) (now : float) (nb : Store)
  : list Notebook.Entry * Store :=
  let '(selected, ws) := Notebook.getWordsForLearning maxNewWords now (words nb) in
  (selected, {| words := ws; file := file nb |}).

Definition getLearningStats (now : float) (nb : Store) : LearningStats * Store :=
  let '(stats, ws) := Notebook.getLearningStats now (words nb) in
  (stats, {| words := ws; file := file nb |}).

(** A call of one of the methods that change the notebook, with the outcome
    of the write it may attempt, and a sequence of such calls. *)
Inductive Call :=
| AddWord (w : string)
| RemoveWord (w : string)
| UpdateWordLearning (wordText : string) (learningState : LearningObject)
| GetWordsForLearning (maxNewWords : option nat) (now : float)
| GetLearningStats (now : float).

Definition call (nb : Store) (c : bool * Call) : Store :=
  let '(writable, c) := c in
  match c with
  | AddWord w => snd (addWord writable w nb)
  | RemoveWord w => snd (removeWord writable w nb)
  | UpdateWordLearning w s => snd (updateWordLearning writable w s nb)
  | GetWordsForLearning m now => snd (getWordsForLearning m now nb)
  | GetLearningStats now => snd (getLearningStats now nb)
  end.

Definition calls (cs : list (bool * Call)) (nb : Store) : Store :=
  fold_left call cs nb.

(** No two entries for the same word, compared as the searches compare. *)
Definition distinctWords (ws : list Notebook.Entry) : Prop :=
  NoDup (map (fun e => toLowerCase (Notebook.word e)) ws).

(** Every entry has a learning object. *)
Definition allLearning (ws : list Notebook.Entry) : Prop :=
  Forall (fun e => Notebook.learning e <> None) ws.

End NotebookStore.

(** ** The CET store: writing progress ([src/cet.js]) *)

Module CETStore.

(** What a call that writes the progress file ends with: [writeFileSync] is
    not guarded there, so a failed write raises out of the call. *)
Inductive outcome :=
| Saved (data : CET.DataDir)
| WriteFails.

(** [saveProgress(category, progress)]: the file then holds the records as
    JSON writes them. *)
Definition saveProgress (writable : bool) (data : CET.DataDir) (category : CET.Category)
    (progress : gmap string LearningObject) : outcome :=
  if writable then Saved (withProgress data category (JSON.learning <$> progress))
  else WriteFails.

(** [updateWordLearningState(category, word, state)] *)
Definition updateWordLearningState (writable : bool) (data : CET.DataDir)
    (category : CET.Category) (w : string) (state : LearningObject) : outcome :=
  let progress := CET.getProgress data category in
  saveProgress writable data category
    (PlainObject.assign (toLowerCase w) state progress).

End CETStore.

(** ** A word that was forgotten

    The state that a review graded Forgot returns at a valid clock reading
    [now]. *)
Definition forgotten (now : float) (learning : LearningState) : LearningState :=
  {| level := 1;
     easeFactor := JS.Math_max 1.3 (easeFactor learning - 0.2);
     interval := 0;
     lastReviewedAt := Some now;
     nextReviewAt := Some now;
     reviewCount := reviewCount learning + 1;
     correctCount := correctCount learning |}.

(** ** Input lines

    Input lines are taken to be ASCII text.  On ASCII text the white space
    that [trim] removes and that the pattern [\s] matches is the tab, the line
    feed, the vertical tab, the form feed, the carriage return and the
    space. *)
Definition isWhiteSpace (c : Ascii.ascii) : bool :=
  let n := Ascii.nat_of_ascii c in
  (Nat.leb 9 n && Nat.leb n 13) || Nat.eqb n 32.

Fixpoint isAscii (s : string) : bool :=
  match s with
  | EmptyString => true
  | String c rest => Nat.ltb (Ascii.nat_of_ascii c) 128 && isAscii rest
  end.

Fixpoint trimStart (s : string) : string :=
  match s with
  | EmptyString => EmptyString
  | String c rest => if isWhiteSpace c then trimStart rest else s
  end.

Fixpoint trimEnd (s : string) : string :=
  match s with
  | EmptyString => EmptyString
  | String c rest =>
      match trimEnd rest with
      | EmptyString => if isWhiteSpace c then EmptyString else String c EmptyString
      | rest' => String c rest'
      end
  end.

(** [String.prototype.trim] *)
Definition trim (s : string) : string := trimEnd (trimStart s).

(** [s.startsWith(p)] *)
Definition startsWith (p s : string) : bool := String.prefix p s.

(** [s.slice(start)] for [start >= 0] *)
Fixpoint slice (start : nat) (s : string) : string :=
  match start, s with
  | O, _ => s
  | S n, EmptyString => EmptyString
  | S n, String _ rest => slice n rest
  end.

(** [s.split(/\s+/)]: the pieces between the maximal runs of white space, as
    the first piece and the others (the array is never empty).  A run at the
    start or at the end of [s] leaves an empty piece there. *)
Fixpoint splitWhiteSpace (s : string) : string * list string :=
  match s with
  | EmptyString => (EmptyString, [])
  | String c rest =>
      let '(piece, pieces) := splitWhiteSpace rest in
      if isWhiteSpace c then
        match rest with
        | String c' _ =>
            if isWhiteSpace c' then (piece, pieces) else (EmptyString, piece :: pieces)
        | EmptyString => (EmptyString, piece :: pieces)
        end
      else (String c piece, pieces)
  end.

(** The value of a character as a digit in a radix up to 36. *)
Definition digitValue (radix : Z) (c : Ascii.ascii) : option Z :=
  let n := Z.of_nat (Ascii.nat_of_ascii c) in
  let v :=
    if (48 <=? n) && (n <=? 57) then Some (n - 48)
    else if (97 <=? n) && (n <=? 122) then Some (n - 87)
    else if (65 <=? n) && (n <=? 90) then Some (n - 55)
    else None in
  match v with
  | Some d => if d <? radix then Some d else None
  | None => None
  end.

(** The integer written by the longest prefix of digits of [s], after the
    digits read so far ([acc]); [None] while no digit has been read. *)
Fixpoint parseDigits (radix : Z) (s : string) (acc : option Z) : option Z :=
  match s with
  | EmptyString => acc
  | String c rest =>
      match digitValue radix c with
      | Some d => parseDigits radix rest (Some (radix * default 0 acc + d))
      | None => acc
      end
  end.

(** [parseInt(input)] without a radix: leading white space, a sign, the
    prefix [0x] or [0X] for radix 16, then the longest prefix of digits;
    [None] is NaN.  The result is kept as the integer the digits write: the
    program only compares it with small integers, and for those the double
    that [parseInt] returns gives the same answers. *)
Definition parseInt (input : string) : option Z :=
  let s := trimStart input in
  let '(sign, s) :=
    if startsWith "-" s then (-1, slice 1 s)
    else if startsWith "+" s then (1, slice 1 s)
    else (1, s) in
  let '(radix, s) :=
    if startsWith "0x" s || startsWith "0X" s then (16, slice 2 s)
    else (10, s) in
  Z.mul sign <$> parseDigits radix s None.

(** ** Commands ([src/commands.js]) *)

Module Commands.

Record Config := {
  aliases : list string;
  description : string;
  usage : string;
  requiresArgs : bool
}.

(** The properties of [COMMANDS], in the order they are written. *)
Definition COMMANDS : list (string * Config) := [
  ("search", {| aliases := ["s"]; description := "Search for a word";
                usage := "/search <word> or /s <word>"; requiresArgs := true |});
  ("notebook", {| aliases := ["n"]; description := "View saved words";
                  usage := "/notebook or /n"; requiresArgs := false |});
  ("help", {| aliases := ["h"]; description := "Show available commands";
              usage := "/help or /h"; requiresArgs := false |});
  ("quit", {| aliases := ["q"; "exit"]; description := "Exit the application";
              usage := "/quit, /exit, or /q"; requiresArgs := false |});
  ("history", {| aliases := []; description := "Show recent search history";
                 usage := "/history"; requiresArgs := false |});
  ("clear", {| aliases := ["c"]; description := "Clear the screen";
               usage := "/clear or /c"; requiresArgs := false |});
  ("learn", {| aliases := ["l"]; description := "Start a learning session";
               usage := "/learn or /l"; requiresArgs := false |})
]%string.

(** The loop that fills [aliasMap]. *)
Definition aliasMap : gmap string string :=
  fold_left
    (fun (m : gmap string string) '(name, config) =>
       fold_left (fun (m : gmap string string) alias => <[alias := name]> m)
         (aliases config) (<[name := name]> m))
    COMMANDS ∅.

(** [aliasMap.get(input.toLowerCase()) || null]; no name in the map is the
    empty string, so [None] is exactly a key that is not in the map. *)
Definition resolveCommand (input : string) : option string :=
  aliasMap !! toLowerCase input.

Inductive Parsed :=
| Empty
| Command (command : string) (args : list string) (raw : string)
| UnknownCommand (input : string)
| Search (word : string).

Definition parseInput (input : string) : Parsed :=
  let trimmed := trim input in
  if String.eqb trimmed "" then Empty
  else if startsWith "/" trimmed then
    let '(part0, args) := splitWhiteSpace (slice 1 trimmed) in
    let cmdInput := toLowerCase part0 in
    match resolveCommand cmdInput with
    | Some command => Command command args trimmed
    | None => UnknownCommand cmdInput
    end
  else Search trimmed.

(** A command line written out: the command and its arguments after a
    slash, separated by single spaces. *)
Definition commandLine (cmd : string) (args : list string) : string :=
  ("/" ++ cmd ++ fold_right (fun a rest => " " ++ a ++ rest) "" args)%string.

(** Text without white space, as a command or an argument is. *)
Fixpoint noWhiteSpace (s : string) : bool :=
  match s with
  | EmptyString => true
  | String c rest => negb (isWhiteSpace c) && noWhiteSpace rest
  end.

(** The arguments of a written command line: pieces of ASCII text without
    white space, none empty. *)
Definition arguments (args : list string) : Prop :=
  Forall (fun a => isAscii a = true /\ noWhiteSpace a = true /\ a <> EmptyString) args.

End Commands.

(** ** The search history ([Dictionary] in [src/examples.js]) *)

Module Dictionary.

Definition addToHistory (word : string) (searchHistory : list string) : list string :=
  let searchHistory :=
    List.filter (fun w => negb (String.eqb (toLowerCase w) (toLowerCase word)))
      searchHistory in
  let searchHistory := word :: searchHistory in
  if Nat.ltb 10 (length searchHistory) then firstn 10 searchHistory
  else searchHistory.

(** The history after the words of a list have been added, first to last,
    to an empty history. *)
Definition historyOf (added : list string) : list string :=
  fold_left (fun h w => addToHistory w h) added [].

End Dictionary.

(** ** Calls on a learning session *)

Module SessionCalls.
Section WithWords.
Context {Word : Type} (wordOf : Word -> string).

(** A call of [reveal()] or [recordGrade(grade)]; a call of [recordGrade]
    that raises leaves the session as it was. *)
Inductive Call := Reveal | RecordGrade (grade : Z).

Definition call (s : @Session.LearningSession Word) (c : Call)
  : @Session.LearningSession Word :=
  match c with
  | Reveal => Session.reveal s
  | RecordGrade g => snd (Session.recordGrade wordOf g s)
  end.

Definition calls (cs : list Call) (s : @Session.LearningSession Word)
  : @Session.LearningSession Word :=
  fold_left call cs s.

(** What every call keeps: the results name the words before the cursor,
    in order. *)
Definition consistent (ws : list Word) (s : @Session.LearningSession Word) : Prop :=
  Session.words s = ws /\
  Session.currentIndex s = length (Session.results s) /\
  (Session.currentIndex s <= length ws)%nat /\
  map Session.result_word (Session.results s) =
    firstn (Session.currentIndex s) (map wordOf ws).

End WithWords.
End SessionCalls.

(** ** The REPL while the notebook is learnt ([src/repl.js])

    The part of [WordLearnerREPL] that runs a learning session on the
    notebook: the command [learn], the menu, the two sides of a flashcard and
    the summary.  What the handlers print is left out.  Two display functions
    of [src/ui.js] read more of a word than the entries here keep:
    [displayFlashcardBack] and [displayExamples] iterate the word's
    [definitions] and raise [TypeError] when there is no list of objects to
    iterate.  Whether they return is part of the event that calls them, as
    the outcome of a write is.

    A session holds the entries as they were selected.  The code holds the
    notebook's own objects, so there a card shows the state its word has in
    the notebook when the card is graded; the two agree as long as no earlier
    card of the session was of the same word (as always when the notebook has
    no two entries for one word).  The statements that grade more than one
    card carry that condition. *)

Module REPL.

(** The state a stored object holds when it has all seven properties and
    its two numbers are numbers: the inverse of [toObject]. *)
Definition fromObject (o : LearningObject) : option LearningState :=
  match o_level o, o_easeFactor o, o_interval o, o_lastReviewedAt o,
        o_nextReviewAt o, o_reviewCount o, o_correctCount o with
  | Some level, Some (Some easeFactor), Some (Some interval), Some lastReviewedAt,
    Some nextReviewAt, Some reviewCount, Some correctCount =>
      Some {| level := level; easeFactor := easeFactor; interval := interval;
              lastReviewedAt := lastReviewedAt; nextReviewAt := nextReviewAt;
              reviewCount := reviewCount; correctCount := correctCount |}
  | _, _, _, _, _, _, _ => None
  end.

(** The fields of the REPL that the session handlers read or write, and the
    number of timers set by [setTimeout] that have not fired yet (each of
    them calls [showCurrentFlashcard]). *)
Record State := {
  notebook : NotebookStore.Store;
  pendingSelection : Session.SelectionState;
  selectionData : option (list Notebook.Entry);   (* [{ wordsForLearning }], or [null] *)
  learningSession : option (@Session.LearningSession Notebook.Entry);
  timers : nat
}.

(** How the handling of an event ends. *)
Inductive Outcome :=
| Returns (st : State)                  (* the handler returned *)
| Raises (e : JS.error) (st : State)    (* it raised, leaving the REPL in [st] *)
| Leaves (st : State)                   (* it went on in a part of the REPL that is not
                                           modelled here (a search, the notebook list,
                                           the CET lists) *)
| Exits                                 (* the process exits *)
| Unmodelled.                           (* it graded a word whose stored state lacks a
                                           property or has a number that is [null]:
                                           arithmetic on [undefined] or [null] *)

Definition setNotebook (nb : NotebookStore.Store) (st : State) : State :=
  {| notebook := nb; pendingSelection := pendingSelection st;
     selectionData := selectionData st; learningSession := learningSession st;
     timers := timers st |}.

Definition setPendingSelection (p : Session.SelectionState) (st : State) : State :=
  {| notebook := notebook st; pendingSelection := p;
     selectionData := selectionData st; learningSession := learningSession st;
     timers := timers st |}.

Definition setSelectionData (d : option (list Notebook.Entry)) (st : State) : State :=
  {| notebook := notebook st; pendingSelection := pendingSelection st;
     selectionData := d; learningSession := learningSession st;
     timers := timers st |}.

Definition setLearningSession (s : option (@Session.LearningSession Notebook.Entry))
    (st : State) : State :=
  {| notebook := notebook st; pendingSelection := pendingSelection st;
     selectionData := selectionData st; learningSession := s;
     timers := timers st |}.

Definition setTimers (n : nat) (st : State) : State :=
  {| notebook := notebook st; pendingSelection := pendingSelection st;
     selectionData := selectionData st; learningSession := learningSession st;
     timers := n |}.

(** The REPL once [start()] has returned, for the notebook [nb] that the
    constructor loaded: [start()] calls [handleProgress], which reads the
    notebook's statistics at the clock reading [now] (and those of the
    extracted CET lists, which are not modelled) before the first prompt. *)
Definition start (now : float) (nb : NotebookStore.Store) : State :=
  {| notebook := snd (NotebookStore.getLearningStats now nb);
     pendingSelection := Session.NONE; selectionData := None;
     learningSession := None; timers := 0 |}.

Definition clearSelection (st : State) : State :=
  setSelectionData None (setPendingSelection Session.NONE st).

(** [handleLearn()]; the two loops read the clock one after the other, and
    only the selection depends on it. *)
Definition handleLearn (now : float) (st : State) : Outcome :=
  let words := NotebookStore.getWords (notebook st) in
  if Nat.eqb (length words) 0 then Returns st
  else
    let '(stats, nb) := NotebookStore.getLearningStats now (notebook st) in
    let '(wordsForLearning, nb) := NotebookStore.getWordsForLearning None now nb in
    Returns (setSelectionData (Some wordsForLearning)
               (setPendingSelection Session.LEARN_MENU (setNotebook nb st))).

(** [showCurrentFlashcard()] reads [this.learningSession.isComplete]. *)
Definition showCurrentFlashcard (st : State) : Outcome :=
  match learningSession st with
  | None => Raises JS.TypeError st
  | Some s => Returns (setPendingSelection (Session.showCurrentFlashcard s) st)
  end.

Definition handleLearnMenuSelection (input : string) (st : State) : Outcome :=
  if String.eqb input "s" then
    match selectionData st with
    | None => Raises JS.TypeError st
    | Some wordsForLearning =>
        if Nat.eqb (length wordsForLearning) 0 then Returns (clearSelection st)
        else
          showCurrentFlashcard
            (setLearningSession (Some (Session.create wordsForLearning)) st)
    end
  else if String.eqb input "b" then Returns (clearSelection st)
  else Returns st.

(** [displayFlashcardBack] reads the word it is given, after [reveal()]: it
    raises on [null], and when [shown] is false (the word has no list of
    definitions to iterate). *)
Definition handleFlashcardFrontSelection (shown : bool) (input : string) (st : State)
  : Outcome :=
  if String.eqb input "" || String.eqb input " " then
    match learningSession st with
    | None => Raises JS.TypeError st
    | Some s =>
        let s := Session.reveal s in
        let st := setLearningSession (Some s) st in
        match Session.currentWord s with
        | None => Raises JS.TypeError st
        | Some _ =>
            if shown then Returns (setPendingSelection Session.FLASHCARD_BACK st)
            else Raises JS.TypeError st
        end
    end
  else Returns st.

(** The grading branch of [handleFlashcardBackSelection]: the new state is
    computed from the current word's state, written to the notebook and the
    grade recorded; then a timer is set for the next card. *)
Definition gradeCurrentWord (now : float) (writable : bool) (grade : Z) (st : State)
  : Outcome :=
  match learningSession st with
  | None => Raises JS.TypeError st
  | Some s =>
      match Session.currentWord s with
      | None => Raises JS.TypeError st            (* [word.learning] of [null] *)
      | Some word =>
          match Notebook.learning word with
          | None => Raises JS.TypeError st        (* destructuring [undefined] *)
          | Some o =>
              match fromObject o with
              | None => Unmodelled
              | Some learning =>
                  match calculateNextReview now learning grade with
                  | JS.Throws e => Raises e st
                  | JS.Ok newLearning =>
                      let nb := snd (NotebookStore.updateWordLearning writable
                                       (Notebook.word word) (toObject newLearning)
                                       (notebook st)) in
                      let s := snd (Session.recordGrade Notebook.word grade s) in
                      Returns (setTimers (S (timers st))
                                 (setLearningSession (Some s) (setNotebook nb st)))
                  end
              end
          end
      end
  end.

(** [displayExamples] reads the word it is given: it raises on [null], and
    when [shown] is false. *)
Definition handleFlashcardBackSelection (now : float) (writable shown : bool)
    (input : string) (st : State) : Outcome :=
  if String.eqb input "e" then
    match learningSession st with
    | None => Raises JS.TypeError st
    | Some s =>
        match Session.currentWord s with
        | None => Raises JS.TypeError st
        | Some _ => if shown then Returns st else Raises JS.TypeError st
        end
    end
  else
    match parseInt input with
    | Some grade =>
        if (GRADES.FORGOT <=? grade) && (grade <=? GRADES.EASY)
        then gradeCurrentWord now writable grade st
        else Returns st
    | None => Returns st
    end.

Definition handleSessionCompleteSelection (st : State) : Outcome :=
  Returns (clearSelection (setLearningSession None st)).

(** [executeCommand(command, args)] *)
Definition executeCommand (now : float) (command : string) (args : list string)
    (st : State) : Outcome :=
  if String.eqb command "search" then
    match args with
    | [] => Returns st
    | _ => Leaves st
    end
  else if String.eqb command "notebook" then
    match NotebookStore.getWords (notebook st) with
    | [] => Returns st
    | _ => Leaves st
    end
  else if String.eqb command "help" then Returns st
  else if String.eqb command "history" then Returns st
  else if String.eqb command "clear" then Returns st
  else if String.eqb command "quit" then Exits
  else if String.eqb command "learn" then handleLearn now st
  else if String.eqb command "cet4" || String.eqb command "cet6" then Leaves st
  else if String.eqb command "progress" then
    Leaves (setNotebook (snd (NotebookStore.getLearningStats now (notebook st))) st)
  else Returns st.

(** [handleInput(input)] when no selection is pending. *)
Definition dispatch (now : float) (input : string) (st : State) : Outcome :=
  match Commands.parseInput input with
  | Commands.Empty => Returns st
  | Commands.Command command args _ => executeCommand now command args st
  | Commands.Search _ => Leaves st
  | Commands.UnknownCommand _ => Returns st
  end.

(** [handleSelection(input)]: a line that starts with a slash clears the
    selection and is handled as a command. *)
Definition handleSelection (now : float) (writable shown : bool) (input : string)
    (st : State) : Outcome :=
  let trimmed := toLowerCase (trim input) in
  if startsWith "/" trimmed then dispatch now input (clearSelection st)
  else
    match pendingSelection st with
    | Session.NONE => Returns st
    | Session.LEARN_MENU => handleLearnMenuSelection trimmed st
    | Session.FLASHCARD_FRONT => handleFlashcardFrontSelection shown trimmed st
    | Session.FLASHCARD_BACK =>
        handleFlashcardBackSelection now writable shown trimmed st
    | Session.SESSION_COMPLETE => handleSessionCompleteSelection st
    end.

Definition handleInput (now : float) (writable shown : bool) (input : string)
    (st : State) : Outcome :=
  match pendingSelection st with
  | Session.NONE => dispatch now input st
  | _ => handleSelection now writable shown input st
  end.

(** What the REPL reacts to: a line typed by the user (with the clock
    reading while it is handled, whether a write of the notebook file would
    succeed, and whether the display of the current word's definitions would
    return), a timer that fires, and Ctrl+C. *)
Inductive Event :=
| Line (now : float) (writable shown : bool) (input : string)
| Timer
| Interrupt.

Definition step (st : State) (ev : Event) : Outcome :=
  match ev with
  | Line now writable shown input => handleInput now writable shown input st
  | Timer =>
      match timers st with
      | O => Returns st                    (* no timer is pending: nothing fires *)
      | S n => showCurrentFlashcard (setTimers n st)
      end
  | Interrupt =>
      match pendingSelection st with
      | Session.NONE => Exits
      | _ => Returns (clearSelection st)
      end
  end.

(** The events of a list, one after the other, up to the first one that
    does not return. *)
Fixpoint run (evs : list Event) (st : State) : Outcome :=
  match evs with
  | [] => Returns st
  | ev :: rest =>
      match step st ev with
      | Returns st' => run rest st'
      | outcome => outcome
      end
  end.















(** The key that gives a grade. *)
Definition gradeKey (grade : Z) : string :=
  if grade =? 1 then "1" else if grade =? 2 then "2"
  else if grade =? 3 then "3" else if grade =? 4 then "4" else "".

(** A card of a drill: the clock reading and the outcome of the write when
    it is graded, and the grade. *)
Record Card := { cardNow : float; cardWritable : bool; cardGrade : Z }.

(** The events of a drill: Enter to reveal a card (which is shown), its
    grade, the timer. *)
Definition drill (cards : list Card) : list Event :=
  flat_map (fun c => [Line (cardNow c) (cardWritable c) true "";
                      Line (cardNow c) (cardWritable c) true (gradeKey (cardGrade c));
                      Timer]) cards.

(** The review of a card outside the REPL: the state that
    [calculateNextReview] returns for the word's state as it was selected
    ([None] when that state is incomplete or the call raises), and the result
    a session records for a card that was revealed. *)
Definition cardReview (word : Notebook.Entry) (c : Card) : option LearningState :=
  match Notebook.learning word ≫= fromObject with
  | Some learning =>
      match calculateNextReview (cardNow c) learning (cardGrade c) with
      | JS.Ok newLearning => Some newLearning
      | JS.Throws _ => None
      end
  | None => None
  end.

Definition cardResult (word : Notebook.Entry) (c : Card) : Session.Result :=
  {| Session.result_word := Notebook.word word;
     Session.grade := cardGrade c;
     Session.wasRevealed := true |}.

(** The reviews of the words of a drill, each written to the notebook, and
    the results a session records for them. *)
Fixpoint gradeCards (ws : list Notebook.Entry) (cards : list Card)
    (nb : NotebookStore.Store)
  : option (NotebookStore.Store * list Session.Result) :=
  match ws, cards with
  | word :: ws, c :: cards =>
      match cardReview word c with
      | Some newLearning =>
          let nb := snd (NotebookStore.updateWordLearning (cardWritable c)
                           (Notebook.word word) (toObject newLearning) nb) in
          match gradeCards ws cards nb with
          | Some (nb, results) => Some (nb, cardResult word c :: results)
          | None => None
          end
      | None => None
      end
  | _, _ => Some (nb, [])
  end.

End REPL.

(** ** Examples of a dictionary entry ([src/api.js]) *)

Module Api.
Section Examples.

(** An example: an object with the sentence and its translation, which
    [mergeExamples] and [countExamples] only move around and count. *)
Context {Example : Type}.

(** A definition of a word entry: its part of speech and its examples
    ([None] when the object has no [examples] property).  The meanings play
    no part here. *)
Record WordDefinition := {
  partOfSpeech : string;
  examples : option (list Example)
}.

(** The examples found for one part of speech. *)
Record Group := {
  groupPartOfSpeech : string;
  groupExamples : list Example
}.

(** [!d.examples || d.examples.length === 0] *)
Definition withoutExamples (d : WordDefinition) : bool :=
  match examples d with
  | Some l => Nat.eqb (length l) 0
  | None => true
  end.

(** The body of the first loop of [mergeExamples]. *)
Definition mergeInto (examplesByPos : list Group) (def : WordDefinition) : WordDefinition :=
  let def := {| partOfSpeech := partOfSpeech def;
                examples := Some (default [] (examples def)) |} in
  let found :=
    List.find (fun e => startsWith (toLowerCase (partOfSpeech def))
                          (toLowerCase (groupPartOfSpeech e))) examplesByPos in
  match found with
  | Some e =>
      if withoutExamples def
      then {| partOfSpeech := partOfSpeech def;
              examples := Some (firstn 5 (groupExamples e)) |}
      else def
  | None => def
  end.

(** [mergeExamples(entry, examplesByPos)], on [entry.definitions]: the
    definitions after the call. *)
Definition mergeExamples (definitions : list WordDefinition) (examplesByPos : list Group)
  : list WordDefinition :=
  let definitions := map (mergeInto examplesByPos) definitions in
  match List.find (fun e => String.eqb (groupPartOfSpeech e) "general") examplesByPos with
  | Some generalExamples =>
      match findIndex withoutExamples definitions with
      | Some i =>
          alter (fun d => {| partOfSpeech := partOfSpeech d;
                             examples := Some (firstn 3 (groupExamples generalExamples)) |})
            i definitions
      | None => definitions
      end
  | None => definitions
  end.

(** [countExamples(entry)] for an entry that has definitions. *)
Definition countExamples (definitions : list WordDefinition) : nat :=
  fold_left (fun total def => (total + length (default [] (examples def)))%nat)
    definitions 0%nat.

(** How [mergeExamples] may change a definition: one that has examples
    keeps them; one that has none ends with none or with the first examples
    (at most five) of a group. *)
Definition merged (examplesByPos : list Group) (d d' : WordDefinition) : Prop :=
  partOfSpeech d' = partOfSpeech d /\
  if withoutExamples d then
    exists l, examples d' = Some l /\ (length l <= 5)%nat /\
              (l = [] \/ exists e k, In e examplesByPos /\ l = firstn k (groupExamples e))
  else examples d' = examples d.

End Examples.
End Api.

(** ** Facts about binary64 arithmetic *)

Module FloatFacts.

Lemma is_nan_spec (x : float) : is_nan x = true <-> Prim2SF x = S754_nan.
Proof.
  unfold is_nan. rewrite FloatAxioms.eqb_spec. unfold SFeqb.
  destruct (Prim2SF x) as [s|s| |s m e]; simpl.
  - split; discriminate.
  - destruct s; split; discriminate.
  - split; reflexivity.
  - destruct s; rewrite Z.compare_refl, Pos.compare_cont_refl; simpl;
      split; discriminate.
Qed.

Lemma is_nan_false (x : float) : is_nan x = false <-> Prim2SF x <> S754_nan.
Proof.
  rewrite <- is_nan_spec. destruct (is_nan x); split; congruence.
Qed.

Lemma ltb_leb (x y : float) : (x <? y)%float = true -> (x <=? y)%float = true.
Proof.
  rewrite FloatAxioms.ltb_spec, FloatAxioms.leb_spec. unfold SFltb, SFleb.
  destruct (SFcompare _ _) as [[]|]; congruence.
Qed.

Lemma Prim2SF_zero : Prim2SF 0 = S754_zero false.
Proof. vm_compute. reflexivity. Qed.

(** Adding [+0] changes nothing but the sign of [-0]. *)
Lemma add_zero_r (x : float) : Prim2SF x <> S754_zero true -> (x + 0)%float = x.
Proof.
  intros Hx. apply Prim2SF_inj. rewrite add_spec, Prim2SF_zero.
  destruct (Prim2SF x) as [[]|[]| |s m e]; try reflexivity. congruence.
Qed.

Lemma validTime_not_neg_zero (t : float) :
  JS.validTime t -> Prim2SF t <> S754_zero true.
Proof.
  intros [_ Ht] E.
  assert (t = neg_zero) as ->.
  { rewrite <- (SF2Prim_Prim2SF t), E. reflexivity. }
  apply (f_equal Prim2SF) in Ht. vm_compute in Ht. discriminate.
Qed.

(** A review that leaves the interval at zero schedules the word for [now]. *)
Lemma next_review_now (now : float) :
  JS.validTime now -> JS.TimeClip (now + 0 * 24 * 60 * 60 * 1000) = now.
Proof.
  intros Hv. change (0 * 24 * 60 * 60 * 1000)%float with 0%float.
  rewrite add_zero_r by (apply validTime_not_neg_zero; assumption).
  apply Hv.
Qed.

End FloatFacts.
Module Rounding.

Lemma shr_record_of_loc_m (m : Z) (l : location) : shr_m (shr_record_of_loc m l) = m.
Proof. destruct l as [|[]]; reflexivity. Qed.

Lemma shr_1_m (mrs : shr_record) :
  0 <= shr_m mrs -> shr_m (shr_1 mrs) = shr_m mrs / 2.
Proof.
  destruct mrs as [m r s]; simpl. intros Hm.
  destruct m as [|p|p]; [reflexivity| |lia].
  destruct p as [p|p|]; simpl shr_m.
  - rewrite Pos2Z.inj_xI. apply Z.div_unique with (r := 1); lia.
  - rewrite Pos2Z.inj_xO. apply Z.div_unique with (r := 0); lia.
  - reflexivity.
Qed.

Lemma pow2_xO (p : positive) : 2 ^ Z.pos p~0 = 2 ^ Z.pos p * 2 ^ Z.pos p.
Proof. rewrite <- Z.pow_add_r by lia. f_equal. lia. Qed.

Lemma pow2_xI (p : positive) : 2 ^ Z.pos p~1 = 2 * (2 ^ Z.pos p * 2 ^ Z.pos p).
Proof.
  rewrite <- Z.pow_add_r by lia. rewrite <- Z.pow_succ_r by lia. f_equal. lia.
Qed.

Lemma iter_pos_shr_1_m (p : positive) (mrs : shr_record) :
  0 <= shr_m mrs -> shr_m (SpecFloat.iter_pos shr_1 p mrs) = shr_m mrs / 2 ^ Zpos p.
Proof.
  revert mrs. induction p as [p IH|p IH|]; intros mrs Hm; simpl SpecFloat.iter_pos.
  - assert (H1 : 0 <= shr_m (shr_1 mrs)).
    { rewrite shr_1_m by assumption. apply Z.div_pos; lia. }
    assert (H2 : 0 <= shr_m (SpecFloat.iter_pos shr_1 p (shr_1 mrs))).
    { rewrite IH by assumption. apply Z.div_pos; lia. }
    rewrite IH, IH, shr_1_m by assumption.
    rewrite !Z.div_div by lia. rewrite pow2_xI. reflexivity.
  - assert (H2 : 0 <= shr_m (SpecFloat.iter_pos shr_1 p mrs)).
    { rewrite IH by assumption. apply Z.div_pos; lia. }
    rewrite IH, IH by assumption.
    rewrite Z.div_div by lia. rewrite pow2_xO. reflexivity.
  - rewrite shr_1_m by assumption. reflexivity.
Qed.

Lemma shr_m_nonneg (mrs : shr_record) (e n : Z) :
  0 <= shr_m mrs -> 0 <= shr_m (fst (shr mrs e n)).
Proof.
  intros Hm. destruct n as [|p|p]; simpl; try assumption.
  rewrite iter_pos_shr_1_m by assumption. apply Z.div_pos; lia.
Qed.

Lemma round_nearest_even_bounds (m : Z) (l : location) :
  m <= round_nearest_even m l <= m + 1.
Proof.
  destruct l as [|[]]; simpl; try lia. destruct (Z.even m); lia.
Qed.

(** Rounding a positive mantissa never produces NaN. *)
Lemma binary_round_aux_not_nan (sx : bool) (m : positive) (e : Z) (l : location) :
  binary_round_aux prec emax sx (Zpos m) e l <> S754_nan.
Proof.
  unfold binary_round_aux.
  destruct (shr_fexp prec emax (Z.pos m) e l) as [mrs' e'] eqn:E1.
  assert (H1 : 0 <= shr_m mrs').
  { change mrs' with (fst (mrs', e')). rewrite <- E1. unfold shr_fexp.
    apply shr_m_nonneg. rewrite shr_record_of_loc_m. lia. }
  set (m1 := round_nearest_even (shr_m mrs') (loc_of_shr_record mrs')).
  assert (H2 : 0 <= m1).
  { pose proof (round_nearest_even_bounds (shr_m mrs') (loc_of_shr_record mrs')). lia. }
  destruct (shr_fexp prec emax m1 e' loc_Exact) as [mrs'' e''] eqn:E2.
  assert (H3 : 0 <= shr_m mrs'').
  { change mrs'' with (fst (mrs'', e'')). rewrite <- E2. unfold shr_fexp.
    apply shr_m_nonneg. simpl. lia. }
  destruct (shr_m mrs'') as [|q|q]; [discriminate| |lia].
  destruct (e'' <=? emax - prec); discriminate.
Qed.

Lemma binary_normalize_not_nan (m e : Z) (s : bool) :
  binary_normalize prec emax m e s <> S754_nan.
Proof.
  destruct m as [|p|p]; simpl; [discriminate| |];
    unfold binary_round;
    destruct (shl_align _ _ _) as [mz ez]; apply binary_round_aux_not_nan.
Qed.

End Rounding.
Module Digits.

Lemma digits2_pos_bounds (q : positive) :
  2 ^ (Zpos (digits2_pos q) - 1) <= Zpos q < 2 ^ Zpos (digits2_pos q).
Proof.
  induction q as [q IH|q IH|]; simpl digits2_pos.
  - rewrite Pos2Z.inj_succ, (Pos2Z.inj_xI q).
    replace (Z.succ (Z.pos (digits2_pos q)) - 1) with (Z.succ (Z.pos (digits2_pos q) - 1)) by lia.
    rewrite !Z.pow_succ_r by lia.
    revert IH. generalize (2 ^ (Z.pos (digits2_pos q) - 1)), (2 ^ Z.pos (digits2_pos q)). lia.
  - rewrite Pos2Z.inj_succ, (Pos2Z.inj_xO q).
    replace (Z.succ (Z.pos (digits2_pos q)) - 1) with (Z.succ (Z.pos (digits2_pos q) - 1)) by lia.
    rewrite !Z.pow_succ_r by lia.
    revert IH. generalize (2 ^ (Z.pos (digits2_pos q) - 1)), (2 ^ Z.pos (digits2_pos q)). lia.
  - simpl. lia.
Qed.

Lemma digits2_pos_unique (k : Z) (q : positive) :
  2 ^ (k - 1) <= Zpos q < 2 ^ k -> Zpos (digits2_pos q) = k.
Proof.
  intros [Hl Hu]. pose proof (digits2_pos_bounds q) as [Bl Bu].
  set (d := Zpos (digits2_pos q)) in *.
  assert (0 < k).
  { destruct (Z.ltb_spec 0 k); [assumption|].
    assert (2 ^ k <= 2 ^ 0) by (destruct (Z.eq_dec k 0) as [->|]; [lia|rewrite Z.pow_neg_r; simpl; lia]).
    simpl in *. lia. }
  assert (Hd : 0 < d) by (unfold d; lia).
  destruct (Z.lt_trichotomy d k) as [L|[E|G]]; [|assumption|].
  - assert (2 ^ d <= 2 ^ (k - 1)) by (apply Z.pow_le_mono_r; lia). lia.
  - assert (2 ^ k <= 2 ^ (d - 1)) by (apply Z.pow_le_mono_r; lia). lia.
Qed.

Lemma iter_xO (d m : positive) : Zpos (Pos.iter xO m d) = Zpos m * 2 ^ Zpos d.
Proof.
  induction d as [|d IH] using Pos.peano_ind.
  - simpl. lia.
  - rewrite Pos.iter_succ, Pos2Z.inj_xO, IH, Pos2Z.inj_succ, Z.pow_succ_r by lia. lia.
Qed.

End Digits.

Module RoundingBounds.
Import Rounding Digits.

(** What rounding a positive mantissa of more than 53 bits yields: the
    exponent grows by the number of dropped bits, the mantissa is at least the
    truncated one, unless the mantissa overflows to the next binade. *)
Lemma binary_round_aux_lower (M : positive) (e : Z) :
  let D := Zpos (digits2_pos M) in
  53 < D -> -1074 <= D + e - 53 ->
  let r := binary_round_aux prec emax false (Zpos M) e loc_Exact in
  r = S754_infinity false \/
  exists m2 e2, r = S754_finite false m2 e2 /\
    (e2 = D + e - 53 /\ Zpos M / 2 ^ (D - 53) <= Zpos m2 \/ e2 = D + e - 52).
Proof.
  intros D HD He r. subst r.
  pose proof (digits2_pos_bounds M) as [Bl Bu]. fold D in Bl, Bu.
  unfold binary_round_aux, shr_fexp, fexp. simpl Zdigits2. fold D.
  change (SpecFloat.emin prec emax) with (-1074). change prec with 53.
  rewrite Z.max_l by lia.
  replace (D + e - 53 - e) with (D - 53) by lia.
  destruct (D - 53) as [|p|p] eqn:Ep; try lia.
  simpl shr. simpl shr_record_of_loc.
  cbv beta iota.
  set (mrs := SpecFloat.iter_pos shr_1 p _).
  assert (Hm1 : shr_m mrs = Zpos M / 2 ^ Zpos p).
  { unfold mrs. rewrite iter_pos_shr_1_m; simpl; [reflexivity|lia]. }
  assert (Hpow : 2 ^ (D - 1) = 2 ^ 52 * 2 ^ Zpos p).
  { rewrite <- Z.pow_add_r by lia. f_equal. lia. }
  assert (Hpow' : 2 ^ D = 2 ^ 53 * 2 ^ Zpos p).
  { rewrite <- Z.pow_add_r by lia. f_equal. lia. }
  assert (Hp2 : 0 < 2 ^ Zpos p) by (apply Z.pow_pos_nonneg; lia).
  assert (Hm1b : 2 ^ 52 <= shr_m mrs < 2 ^ 53).
  { rewrite Hm1. split.
    - apply Z.div_le_lower_bound; lia.
    - apply Z.div_lt_upper_bound; lia. }
  pose proof (round_nearest_even_bounds (shr_m mrs) (loc_of_shr_record mrs)) as Hr.
  remember (round_nearest_even (shr_m mrs) (loc_of_shr_record mrs)) as m1 eqn:Em1.
  destruct m1 as [|q|q]; try lia.
  change (Zdigits2 (Z.pos q)) with (Z.pos (digits2_pos q)).
  destruct (Z.eq_dec (Zpos q) (2 ^ 53)) as [Eq53|Ne53].
  - (* the rounded mantissa overflowed to 2^53 *)
    assert (Hq : Zpos (digits2_pos q) = 54).
    { apply digits2_pos_unique. rewrite Eq53. simpl. lia. }
    rewrite Hq. rewrite Z.max_l by lia.
    replace (54 + (e + Z.pos p) - 53 - (e + Z.pos p)) with 1 by lia.
    simpl shr. cbv beta iota.
    assert (Hq' : q = (2 ^ 53)%positive) by (apply Pos2Z.inj; rewrite Eq53; reflexivity).
    subst q. simpl shr_m.
    destruct (e + Z.pos p + 1 <=? emax - 53); [right|left; reflexivity].
    eexists _, _. split; [reflexivity|]. right. lia.
  - assert (Hq : Zpos (digits2_pos q) = 53).
    { apply digits2_pos_unique. simpl in *. lia. }
    rewrite Hq. rewrite Z.max_l by lia.
    replace (53 + (e + Z.pos p) - 53 - (e + Z.pos p)) with 0 by lia.
    simpl shr. cbv beta iota. simpl shr_m.
    destruct (e + Z.pos p <=? emax - 53); [right|left; reflexivity].
    eexists _, _. split; [reflexivity|]. left. split; [lia|].
    rewrite <- Hm1. lia.
Qed.

End RoundingBounds.
Module EaseFloor.
Import FloatFacts Rounding.

Lemma Prim2SF_floor : Prim2SF 1.3 = S754_finite false JS.floor_mantissa (-52).
Proof. vm_compute. reflexivity. Qed.

(** A number at or above the floor is [+infinity] or a positive normal number
    whose exponent and mantissa are at least those of [1.3]. *)
Lemma above_floor_shape (x : float) :
  (1.3 <=? x)%float = true ->
  Prim2SF x = S754_infinity false \/
  exists m e, Prim2SF x = S754_finite false m e /\
              (-52 < e \/ e = -52 /\ (JS.floor_mantissa <= m)%positive).
Proof.
  rewrite FloatAxioms.leb_spec, Prim2SF_floor. unfold SFleb.
  destruct (Prim2SF x) as [s|s| |s m e]; try destruct s;
    cbn -[Z.compare Pos.compare_cont]; try discriminate.
  - intros _. left. reflexivity.
  - intros H. right. exists m, e. split; [reflexivity|].
    destruct (Z.compare_spec (-52) e) as [E|E|E]; try discriminate.
    + right. split; [lia|]. unfold Pos.le.
      change (Pos.compare_cont Eq JS.floor_mantissa m)
        with (JS.floor_mantissa ?= m)%positive in H.
      destruct (JS.floor_mantissa ?= m)%positive; congruence.
    + left. lia.
Qed.

Lemma shape_above_floor (x : float) :
  (Prim2SF x = S754_infinity false \/
   exists m e, Prim2SF x = S754_finite false m e /\
               (-52 < e \/ e = -52 /\ (JS.floor_mantissa <= m)%positive)) ->
  (1.3 <=? x)%float = true.
Proof.
  rewrite FloatAxioms.leb_spec, Prim2SF_floor. unfold SFleb.
  intros [->|(m & e & -> & H)]; [reflexivity|].
  cbn -[Z.compare Pos.compare_cont].
  destruct H as [H|[-> H]].
  - apply Z.compare_lt_iff in H. rewrite H. reflexivity.
  - rewrite Z.compare_refl. change (Pos.compare_cont Eq JS.floor_mantissa m) with (JS.floor_mantissa ?= m)%positive.
    unfold Pos.le in H. destruct (JS.floor_mantissa ?= m)%positive; congruence.
Qed.

(** Subtracting a finite number from one at or above the floor is never NaN. *)
Lemma sub_finite_not_nan (x c : float) (sc : bool) (mc : positive) (ec : Z) :
  (1.3 <=? x)%float = true -> Prim2SF c = S754_finite sc mc ec ->
  is_nan (x - c) = false.
Proof.
  intros Hx Hc. apply is_nan_false. rewrite sub_spec, Hc.
  destruct (above_floor_shape x Hx) as [->|(m & e & -> & _)]; [discriminate|].
  unfold SF64sub, SFsub. apply binary_normalize_not_nan.
Qed.

Lemma Math_max_floor (b : float) :
  is_nan b = false -> (1.3 <=? JS.Math_max 1.3 b)%float = true.
Proof.
  intros Hb. unfold JS.Math_max. rewrite Hb.
  change (is_nan 1.3) with false. simpl orb. cbv iota.
  destruct (1.3 <? b)%float eqn:E; [apply ltb_leb; assumption|].
  destruct (b <? 1.3)%float; reflexivity.
Qed.

End EaseFloor.
Module EaseStep.
Import FloatFacts Rounding Digits RoundingBounds EaseFloor.

Lemma Prim2SF_bonus : Prim2SF 0.15 = S754_finite false JS.bonus_mantissa (-55).
Proof. vm_compute. reflexivity. Qed.

Lemma Prim2SF_penalty : Prim2SF 0.2 = S754_finite false JS.penalty_mantissa (-55).
Proof. vm_compute. reflexivity. Qed.

(** A valid number with exponent at least -52 is normal: 53 mantissa bits. *)
Lemma normal_mantissa (s : bool) (m : positive) (e : Z) :
  valid_binary (S754_finite s m e) = true -> -52 <= e ->
  2 ^ 52 <= Zpos m < 2 ^ 53.
Proof.
  unfold SpecFloat.valid_binary, bounded, canonical_mantissa, fexp.
  change (SpecFloat.emin prec emax) with (-1074). change prec with 53.
  intros H He. apply andb_true_iff in H as [H _]. apply Z.eqb_eq in H.
  assert (Hd : Zpos (digits2_pos m) = 53) by lia.
  pose proof (digits2_pos_bounds m) as B. rewrite Hd in B. exact B.
Qed.

(** Adding 0.15 (the Easy bonus) to a number at or above 1.3 stays at or
    above 1.3: the sum is rounded, but by less than the bonus. *)
Lemma add_bonus_above_floor (x : float) :
  (1.3 <=? x)%float = true -> (1.3 <=? x + 0.15)%float = true.
Proof.
  intros Hx. apply shape_above_floor. rewrite add_spec, Prim2SF_bonus.
  pose proof (Prim2SF_valid x) as Hv.
  destruct (above_floor_shape x Hx) as [->|(m & e & E & He)]; [left; reflexivity|].
  rewrite E in *. clear E.
  assert (He' : -52 <= e) by lia.
  pose proof (normal_mantissa _ _ _ Hv He') as Hm.
  unfold SF64add, SFadd. rewrite Z.min_r by lia.
  unfold shl_align at 2. simpl Z.sub. cbv beta iota. simpl fst.
  unfold shl_align.
  destruct (-55 - e) as [|d|d] eqn:Ed; try lia. simpl fst. simpl cond_Zopp.
  simpl Z.add.
  set (M := (Pos.iter xO m d + JS.bonus_mantissa)%positive).
  assert (HM : Zpos M = Zpos m * 2 ^ Zpos d + Zpos JS.bonus_mantissa).
  { unfold M. rewrite Pos2Z.inj_add, iter_xO. reflexivity. }
  assert (Hd3 : 3 <= Zpos d) by lia.
  assert (Hp : 2 ^ 3 <= 2 ^ Zpos d) by (apply Z.pow_le_mono_r; lia).
  pose proof (digits2_pos_bounds M) as [Bl Bu].
  set (D := Z.pos (digits2_pos M)) in *.
  assert (HD : 55 < D).
  { destruct (Z.ltb_spec 55 D); [assumption|].
    assert (2 ^ D <= 2 ^ 55) by (apply Z.pow_le_mono_r; lia).
    simpl in *. nia. }
  change (Z.pos (Pos.iter xO m d) + Z.pos JS.bonus_mantissa) with (Z.pos M).
  unfold binary_normalize, binary_round, shl_align, fexp. fold D.
  change (SpecFloat.emin prec emax) with (-1074). change prec with 53.
  rewrite Z.max_l by lia.
  destruct (D + -55 - 53 - -55) as [|k|k] eqn:Ek; try lia.
  destruct (binary_round_aux_lower M (-55)) as [R|(m2 & e2 & R & B)];
    fold D; try lia.
  - left. exact R.
  - right. exists m2, e2. split; [exact R|].
    fold D in B. destruct B as [[-> B]| ->].
    + destruct (Z.eq_dec D 56) as [D56|D56]; [|left; lia].
      right. split; [lia|].
      destruct He as [He|[-> Hfm]]; [exfalso|].
      * assert (2 ^ 4 <= 2 ^ Zpos d) by (apply Z.pow_le_mono_r; lia).
        rewrite D56 in Bu. simpl in *. nia.
      * assert (d = 3%positive) by lia. subst d. rewrite D56 in B.
        assert (Hfm' : Zpos JS.floor_mantissa <= Zpos m) by lia.
        assert (Hq : Zpos m <= Zpos M / 2 ^ (56 - 53)).
        { apply Z.div_le_lower_bound; [simpl; lia|]. rewrite HM. simpl. lia. }
        lia.
    + left. lia.
Qed.

End EaseStep.

(** ** Whole numbers in binary64: the increment of a counter *)

Module Increment.
Import Digits.








End Increment.

(** ** The scheduler: what a call returns *)

Module Scheduler.
Import FloatFacts EaseFloor EaseStep.

(** A call raises exactly when one of its two dates cannot be rendered. *)
Lemma calculateNextReview_forgot (now : float) (learning : LearningState) :
  calculateNextReview now learning GRADES.FORGOT =
  if representable now 0 && negb (is_nan now) then
    JS.Ok {| level := 1;
             easeFactor := JS.Math_max 1.3 (easeFactor learning - 0.2);
             interval := 0;
             lastReviewedAt := Some now;
             nextReviewAt := Some (JS.TimeClip (now + 0 * 24 * 60 * 60 * 1000));
             reviewCount := reviewCount learning + 1;
             correctCount := correctCount learning |}
  else JS.Throws JS.RangeError.
Proof.
  unfold calculateNextReview, representable, JS.bind, JS.toISOString. simpl Z.eqb.
  cbv iota beta zeta.
  destruct (is_nan (JS.TimeClip _)); [reflexivity|].
  destruct (is_nan now); reflexivity.
Qed.

Lemma calculateNextReview_success (now : float) (learning : LearningState) (grade : Z) :
  grade <> GRADES.FORGOT ->
  let interval' :=
    if (interval learning =? 0)%float then 1%float
    else if (interval learning =? 1)%float then 6%float
    else JS.Math_round (interval learning * easeFactor learning) in
  let easeFactor' :=
    if grade =? GRADES.HARD then JS.Math_max 1.3 (easeFactor learning - 0.15)
    else if grade =? GRADES.EASY then (easeFactor learning + 0.15)%float
    else easeFactor learning in
  calculateNextReview now learning grade =
  if representable now interval' && negb (is_nan now) then
    JS.Ok {| level := calculateLevel interval';
             easeFactor := easeFactor';
             interval := interval';
             lastReviewedAt := Some now;
             nextReviewAt := Some (JS.TimeClip (now + interval' * 24 * 60 * 60 * 1000));
             reviewCount := reviewCount learning + 1;
             correctCount := correctCount learning + 1 |}
  else JS.Throws JS.RangeError.
Proof.
  intros Hg interval' easeFactor'.
  unfold calculateNextReview, representable, JS.bind, JS.toISOString.
  apply Z.eqb_neq in Hg. rewrite Hg. cbv iota beta zeta.
  fold interval' easeFactor'.
  destruct (is_nan (JS.TimeClip _)); [reflexivity|].
  destruct (is_nan now); reflexivity.
Qed.

Lemma representable_now (now : float) :
  JS.validTime now -> representable now 0 && negb (is_nan now) = true.
Proof.
  intros Hv. unfold representable. rewrite next_review_now by assumption.
  destruct Hv as [-> _]. reflexivity.
Qed.

(** One review keeps the ease factor at or above 1.3. *)
Lemma ease_floor_step (now : float) (learning next : LearningState) (grade : Z) :
  (1.3 <=? easeFactor learning)%float = true ->
  calculateNextReview now learning grade = JS.Ok next ->
  (1.3 <=? easeFactor next)%float = true.
Proof.
  intros Hef Hcall.
  destruct (Z.eq_dec grade GRADES.FORGOT) as [->|Hg].
  - rewrite calculateNextReview_forgot in Hcall.
    destruct (_ && _); [|discriminate]. injection Hcall as <-. simpl.
    apply Math_max_floor.
    apply (sub_finite_not_nan _ _ false JS.penalty_mantissa (-55) Hef).
    apply Prim2SF_penalty.
  - rewrite calculateNextReview_success in Hcall by assumption.
    destruct (_ && _); [|discriminate]. injection Hcall as <-. simpl.
    destruct (grade =? GRADES.HARD).
    + apply Math_max_floor.
      apply (sub_finite_not_nan _ _ false JS.bonus_mantissa (-55) Hef).
      apply Prim2SF_bonus.
    + destruct (grade =? GRADES.EASY); [|assumption].
      apply add_bonus_above_floor. assumption.
Qed.

Lemma correctCount_step (now : float) (learning next : LearningState) (grade : Z) :
  calculateNextReview now learning grade = JS.Ok next ->
  correctCount next =
  correctCount learning + (if grade =? GRADES.FORGOT then 0 else 1).
Proof.
  intros Hcall. destruct (Z.eq_dec grade GRADES.FORGOT) as [->|Hg].
  - rewrite calculateNextReview_forgot in Hcall.
    destruct (_ && _); [|discriminate]. injection Hcall as <-. simpl. lia.
  - rewrite calculateNextReview_success in Hcall by assumption.
    destruct (_ && _); [|discriminate]. injection Hcall as <-. simpl.
    apply Z.eqb_neq in Hg. rewrite Hg. reflexivity.
Qed.

End Scheduler.

(** ** Selection and statistics: the loops *)

Module Loops.



Lemma learning_ensured (e : Notebook.Entry) :
  Notebook.learning (Notebook.ensureLearningFields e) = Some (effective e).
Proof.
  unfold Notebook.ensureLearningFields, effective.
  destruct (Notebook.learning e) eqn:E; simpl; [exact E|reflexivity].
Qed.

(** The notebook's selection loop appends, in order, the due entries to one
    array and the new entries to the other, each entry as repaired. *)
Lemma notebook_selection (now : float) (words : list Notebook.Entry)
    (acc : Notebook.Selection) :
  let stored := map Notebook.ensureLearningFields words in
  let sel := fold_left (Notebook.selectWord now) words acc in
  Notebook.dueWords sel =
    Notebook.dueWords acc ++
    List.filter (entryTest (fun o => negb (isNew o) && reviewIsDue now o)) stored /\
  Notebook.newWords sel =
    Notebook.newWords acc ++ List.filter (entryTest isNew) stored.
Proof.
  revert acc. induction words as [|w rest IH]; intros acc; simpl.
  - rewrite !app_nil_r. split; reflexivity.
  - destruct (IH (Notebook.selectWord now acc w)) as [IHd IHn].
    rewrite IHd, IHn. clear IHd IHn.
    unfold Notebook.selectWord, entryTest, isNew. rewrite learning_ensured.
    set (o := effective w).
    destruct (levelIs 0 o); simpl.
    + rewrite <- app_assoc. split; reflexivity.
    + destruct (reviewIsDue now o); simpl.
      * rewrite <- app_assoc. split; reflexivity.
      * split; reflexivity.
Qed.


Lemma cet_selection (progress : gmap string LearningObject) (now : float)
    (words : list CET.WordEntry) (acc : CET.Selection) :
  let sel := fold_left (CET.selectWord progress now) words acc in
  CET.dueWords sel =
    CET.dueWords acc ++
    List.filter (fun w => negb (isNew (CET.learning w)) && reviewIsDue now (CET.learning w))
      (map (attach progress) words) /\
  CET.newWords sel =
    CET.newWords acc ++
    List.filter (fun w => isNew (CET.learning w)) (map (attach progress) words).
Proof.
  revert acc. induction words as [|w rest IH]; intros acc; simpl.
  - rewrite !app_nil_r. split; reflexivity.
  - destruct (IH (CET.selectWord progress now acc w)) as [IHd IHn].
    rewrite IHd, IHn. clear IHd IHn.
    unfold CET.selectWord, isNew. fold (attach progress w).
    destruct (levelIs 0 (CET.learningOf progress w)); simpl.
    + rewrite <- app_assoc. split; reflexivity.
    + destruct (reviewIsDue now (CET.learningOf progress w)); simpl.
      * rewrite <- app_assoc. split; reflexivity.
      * split; reflexivity.
Qed.

End Loops.

(** ** Statistics: the counters *)

Module Counters.











Lemma cet_counts (progress : gmap string LearningObject) (now : float)
    (words : list CET.WordEntry) (stats : LearningStats) :
  let objects := map (CET.learningOf progress) words in
  let r := fold_left (CET.countWord progress now) words stats in
  total r = total stats /\
  byLevel r = countLevels objects (byLevel stats) /\
  dueToday r = (dueToday stats + countIf (reviewIsDue now) objects)%nat /\
  newAvailable r = (newAvailable stats + countIf (levelIs 0) objects)%nat /\
  mastered r = (fun m => m + countIf (levelIs 5) objects)%nat <$> mastered stats.
Proof.
  revert stats. induction words as [|w rest IH]; intros stats; simpl.
  - repeat split; try lia. destruct (mastered stats); simpl; f_equal; lia.
  - destruct (IH (CET.countWord progress now stats w)) as (Ht & Hb & Hd & Hn & Hm).
    rewrite Ht, Hb, Hd, Hn, Hm. clear Ht Hb Hd Hn Hm IH.
    unfold CET.countWord. unfold countLevels. simpl fold_left.
    set (o := CET.learningOf progress w).
    assert (H05 : levelIs 0 o = true -> levelIs 5 o = false).
    { unfold levelIs. destruct (o_level o) as [[|k]|]; simpl; congruence. }
    simpl. repeat split.
    + destruct (reviewIsDue now o); simpl; lia.
    + destruct (levelIs 0 o); simpl; lia.
    + destruct (levelIs 0 o) eqn:E0.
      * rewrite (H05 eq_refl). simpl. reflexivity.
      * destruct (levelIs 5 o); simpl; destruct (mastered stats); simpl; f_equal; lia.
Qed.

End Counters.

(** ** JavaScript numbers: examples *)

Example Math_round_ties :
  JS.Math_round 2.5 = 3%float /\ JS.Math_round (-2.5) = (-2)%float /\
  JS.Math_round 0.49999999999999994 = 0%float /\
  JS.Math_round 66.66666666666667 = 67%float /\
  JS.Math_round (-0.2) = neg_zero /\ JS.Math_round 15 = 15%float.
Proof. repeat split; vm_compute; reflexivity. Qed.

(** [n++] on a whole number: exact below 2^53, lost from there on. *)
Example increment_range :
  (JS.Number 0 + 1 = JS.Number 1)%float /\
  (JS.Number (2 ^ 53 - 1) + 1 = JS.Number (2 ^ 53))%float /\
  (JS.Number (- 2 ^ 53 + 1) + 1 = JS.Number (- 2 ^ 53 + 2))%float /\
  (JS.Number (2 ^ 53) + 1 = JS.Number (2 ^ 53))%float.
Proof. repeat split; vm_compute; reflexivity. Qed.

Example TimeClip_range :
  JS.TimeClip 8.64e15 = 8.64e15%float /\ JS.TimeClip 8.640000000000001e15 = nan /\
  JS.TimeClip 1.5 = 1%float /\ JS.TimeClip neg_zero = zero /\
  JS.TimeClip (-0.5) = zero /\ JS.TimeClip infinity = nan.
Proof. repeat split; vm_compute; reflexivity. Qed.


(** ** The scheduler: the specification's claims *)

Lemma sampleNow_valid : JS.validTime sampleNow.
Proof. split; vm_compute; reflexivity. Qed.

(** C1 (as stated): "for every LearningState and every successful grade
    calculateNextReview returns a state".  It does not when the next review
    date is out of the range of [Date]: a fresh word graded Good twenty times
    has an interval of 88,692,188 days, and the twenty-first Good raises
    [RangeError] from [toISOString]. *)
Lemma C1_counterexample_date_out_of_range :
  JS.validTime sampleNow /\
  reviews DEFAULT_LEARNING (repeat (sampleNow, GRADES.GOOD) 20) = JS.Ok wornState /\
  calculateNextReview sampleNow wornState GRADES.GOOD = JS.Throws JS.RangeError.
Proof.
  split; [exact sampleNow_valid|]. split; vm_compute; reflexivity.
Qed.

(** C1 (amended): for every LearningState, every successful grade (Hard=2,
    Good=3, Easy=4) and every clock reading, when the next review date
    (now + the new interval in days) is one [Date] can represent,
    calculateNextReview returns a state whose interval is 1 if the prior
    interval was 0, 6 if it was 1 and round(interval * easeFactor) otherwise,
    and whose easeFactor is max(1.3, easeFactor - 0.15) for Hard,
    easeFactor + 0.15 for Easy and unchanged for Good; when that date is out
    of range the call raises RangeError.  A fresh word graded Good three times
    in a row gets the intervals 1, 6 and 15. *)
Theorem C1_successful_review :
  (forall (now : float) (learning : LearningState) (grade : Z),
     JS.validTime now ->
     grade = GRADES.HARD \/ grade = GRADES.GOOD \/ grade = GRADES.EASY ->
     let interval' :=
       if (interval learning =? 0)%float then 1%float
       else if (interval learning =? 1)%float then 6%float
       else JS.Math_round (interval learning * easeFactor learning) in
     let easeFactor' :=
       if grade =? GRADES.HARD then JS.Math_max 1.3 (easeFactor learning - 0.15)
       else if grade =? GRADES.EASY then (easeFactor learning + 0.15)%float
       else easeFactor learning in
     if representable now interval' then
       exists next, calculateNextReview now learning grade = JS.Ok next /\
                    interval next = interval' /\ easeFactor next = easeFactor'
     else calculateNextReview now learning grade = JS.Throws JS.RangeError) /\
  (forall (now1 now2 now3 : float) (s1 s2 s3 : LearningState),
     calculateNextReview now1 DEFAULT_LEARNING GRADES.GOOD = JS.Ok s1 ->
     calculateNextReview now2 s1 GRADES.GOOD = JS.Ok s2 ->
     calculateNextReview now3 s2 GRADES.GOOD = JS.Ok s3 ->
     interval s1 = 1%float /\ interval s2 = 6%float /\ interval s3 = 15%float).
Proof.
  split.
  - intros now learning grade [Hnan _] Hgrade interval' easeFactor'.
    assert (Hg : grade <> GRADES.FORGOT).
    { unfold GRADES.FORGOT, GRADES.HARD, GRADES.GOOD, GRADES.EASY in *. lia. }
    rewrite (Scheduler.calculateNextReview_success now learning grade Hg).
    fold interval' easeFactor'. rewrite Hnan.
    destruct (representable now interval'); simpl; [|reflexivity].
    eexists. split; [reflexivity|]. split; reflexivity.
  - intros now1 now2 now3 s1 s2 s3 H1 H2 H3.
    rewrite Scheduler.calculateNextReview_success in H1 by discriminate.
    destruct (_ && _) in H1; [|discriminate]. injection H1 as <-.
    rewrite Scheduler.calculateNextReview_success in H2 by discriminate.
    destruct (_ && _) in H2; [|discriminate]. injection H2 as <-.
    rewrite Scheduler.calculateNextReview_success in H3 by discriminate.
    destruct (_ && _) in H3; [|discriminate]. injection H3 as <-.
    repeat split; vm_compute; reflexivity.
Qed.

Lemma C1_successful_review_witness :
  JS.validTime sampleNow /\
  (exists next, calculateNextReview sampleNow DEFAULT_LEARNING GRADES.EASY = JS.Ok next /\
                interval next = 1%float /\ easeFactor next = 2.65%float).
Proof.
  assert (Hv : JS.validTime sampleNow) by (split; vm_compute; reflexivity).
  split; [exact Hv|].
  exact (proj1 C1_successful_review sampleNow DEFAULT_LEARNING GRADES.EASY Hv
           (or_intror (or_intror eq_refl))).
Defined.

(** The three reviews of the example, run at one clock reading. *)
Example three_good_reviews :
  reviews DEFAULT_LEARNING (repeat (sampleNow, GRADES.GOOD) 3) =
  JS.Ok {| level := 4; easeFactor := 2.5; interval := 15;
           lastReviewedAt := Some sampleNow;
           nextReviewAt := Some 1763456000000%float;
           reviewCount := 3; correctCount := 3 |}.
Proof. vm_compute. reflexivity. Qed.



(** C3: the level in every state returned by calculateNextReview is a
    function of the new interval alone, given by the thresholds evaluated
    highest first: interval >= 21 -> 5, >= 14 -> 4, >= 7 -> 3, >= 1 -> 2,
    >= 0 -> 1, otherwise 0; the interval of exactly 0 after a Forgot grade
    yields level 1, not 0. *)
Theorem C3_level_from_interval
    (now : float) (learning next : LearningState) (grade : Z) :
  calculateNextReview now learning grade = JS.Ok next ->
  level next =
    (if (21 <=? interval next)%float then 5
     else if (14 <=? interval next)%float then 4
     else if (7 <=? interval next)%float then 3
     else if (1 <=? interval next)%float then 2
     else if (0 <=? interval next)%float then 1
     else 0)%nat /\
  (grade = GRADES.FORGOT -> interval next = 0%float /\ level next = 1%nat).
Proof.
  intros Hcall. destruct (Z.eq_dec grade GRADES.FORGOT) as [->|Hg].
  - rewrite Scheduler.calculateNextReview_forgot in Hcall.
    destruct (_ && _); [|discriminate]. injection Hcall as <-.
    split; [reflexivity|]. intros _. split; reflexivity.
  - rewrite Scheduler.calculateNextReview_success in Hcall by assumption.
    destruct (_ && _); [|discriminate]. injection Hcall as <-. simpl.
    split; [reflexivity|]. intros E. contradiction.
Qed.

Lemma C3_level_from_interval_witness :
  exists next,
    calculateNextReview sampleNow wornState GRADES.FORGOT = JS.Ok next /\
    interval next = 0%float /\ level next = 1%nat.
Proof.
  set (next := {| level := 1; easeFactor := 2.3; interval := 0;
                  lastReviewedAt := Some sampleNow; nextReviewAt := Some sampleNow;
                  reviewCount := 21; correctCount := 20 |}).
  assert (Hcall : calculateNextReview sampleNow wornState GRADES.FORGOT = JS.Ok next)
    by (vm_compute; reflexivity).
  exists next. split; [exact Hcall|].
  exact (proj2 (C3_level_from_interval sampleNow wornState next GRADES.FORGOT Hcall)
           eq_refl).
Defined.

(** C4 (as stated): "correctCount equals the number of grades that are >=
    Good".  A single Hard grade (2) on a fresh word already gives
    correctCount = 1, although no grade of the sequence is >= Good: every
    grade other than Forgot takes the "successful recall" branch. *)
Lemma C4_counterexample_hard_counts :
  exists next,
    reviews DEFAULT_LEARNING [(sampleNow, GRADES.HARD)] = JS.Ok next /\
    correctCount next = 1 /\
    Z.of_nat (countIf (fun g => GRADES.GOOD <=? g) [GRADES.HARD]) = 0.
Proof.
  eexists. split; [vm_compute; reflexivity|]. split; reflexivity.
Qed.

(** C4 (amended): starting from the default LearningState and applying
    calculateNextReview for any finite sequence of grades, the resulting
    correctCount equals the number of grades in the sequence other than
    Forgot (Hard, Good and Easy all count). *)
Theorem C4_correctCount_counts_recalls
    (rs : list (float * Z)) (final : LearningState) :
  reviews DEFAULT_LEARNING rs = JS.Ok final ->
  correctCount final =
  Z.of_nat (countIf (fun g => negb (g =? GRADES.FORGOT)) (map snd rs)).
Proof.
  assert (Hgen : forall (rs : list (float * Z)) (start final : LearningState),
             reviews start rs = JS.Ok final ->
             correctCount final =
             correctCount start +
             Z.of_nat (countIf (fun g => negb (g =? GRADES.FORGOT)) (map snd rs))).
  { clear. induction rs as [|[now grade] rest IH]; intros start final Hrun.
    - simpl in *. injection Hrun as <-. lia.
    - simpl in Hrun. unfold review in Hrun. simpl fst in Hrun. simpl snd in Hrun.
      destruct (calculateNextReview now start grade) as [next|e] eqn:Hcall;
        [|discriminate].
      simpl in Hrun. apply IH in Hrun. rewrite Hrun.
      rewrite (Scheduler.correctCount_step _ _ _ _ Hcall).
      simpl map. simpl countIf.
      destruct (grade =? GRADES.FORGOT); simpl negb; cbv iota; lia. }
  intros Hrun. apply Hgen in Hrun. simpl in Hrun. exact Hrun.
Qed.

Lemma C4_correctCount_counts_recalls_witness :
  exists final,
    reviews DEFAULT_LEARNING
      [(sampleNow, GRADES.GOOD); (sampleNow, GRADES.HARD);
       (sampleNow, GRADES.FORGOT); (sampleNow, GRADES.EASY)] = JS.Ok final /\
    correctCount final = 3.
Proof.
  set (final := {| level := 2; easeFactor := 2.3; interval := 1;
                   lastReviewedAt := Some sampleNow;
                   nextReviewAt := Some 1762246400000%float;
                   reviewCount := 4; correctCount := 3 |}).
  assert (Hrun : reviews DEFAULT_LEARNING
      [(sampleNow, GRADES.GOOD); (sampleNow, GRADES.HARD);
       (sampleNow, GRADES.FORGOT); (sampleNow, GRADES.EASY)] = JS.Ok final)
    by (vm_compute; reflexivity).
  exists final. split; [exact Hrun|].
  exact (C4_correctCount_counts_recalls _ final Hrun).
Defined.

(** C9: for every initial LearningState with easeFactor >= 1.3 and every
    finite sequence of grades applied via calculateNextReview, the easeFactor
    of every intermediate and final state is >= 1.3. *)
Theorem C9_ease_floor (start : LearningState) (rs : list (float * Z)) :
  (1.3 <=? easeFactor start)%float = true ->
  Forall (fun s => (1.3 <=? easeFactor s)%float = true) (trace start rs) /\
  (forall final, reviews start rs = JS.Ok final ->
                 (1.3 <=? easeFactor final)%float = true).
Proof.
  revert start. induction rs as [|[now grade] rest IH]; intros start Hstart.
  - split; [constructor|]. simpl. intros final [= <-]. exact Hstart.
  - simpl. unfold review. simpl fst. simpl snd.
    destruct (calculateNextReview now start grade) as [next|e] eqn:Hcall.
    + pose proof (Scheduler.ease_floor_step _ _ _ _ Hstart Hcall) as Hnext.
      destruct (IH next Hnext) as [Htrace Hfinal].
      split; [constructor; assumption|]. simpl. exact Hfinal.
    + split; [constructor|]. simpl. discriminate.
Qed.

Lemma C9_ease_floor_witness :
  (1.3 <=? easeFactor DEFAULT_LEARNING)%float = true /\
  Forall (fun s => (1.3 <=? easeFactor s)%float = true)
    (trace DEFAULT_LEARNING
       ((sampleNow, GRADES.EASY) :: repeat (sampleNow, GRADES.FORGOT) 8)).
Proof.
  assert (H : (1.3 <=? easeFactor DEFAULT_LEARNING)%float = true) by reflexivity.
  split; [exact H|].
  exact (proj1 (C9_ease_floor DEFAULT_LEARNING
                  ((sampleNow, GRADES.EASY) :: repeat (sampleNow, GRADES.FORGOT) 8) H)).
Defined.

(** The floor is reached: eight Forgot grades after an Easy one bring the
    ease factor from 2.65 down to exactly 1.3. *)
Example ease_floor_reached :
  map easeFactor
    (trace DEFAULT_LEARNING
       ((sampleNow, GRADES.EASY) :: repeat (sampleNow, GRADES.FORGOT) 8)) =
  [2.65; 2.4499999999999997; 2.2499999999999996; 2.0499999999999994;
   1.8499999999999994; 1.6499999999999995; 1.4499999999999995; 1.3; 1.3]%float.
Proof. vm_compute. reflexivity. Qed.

(** ** Word selection: the specification's claims *)

Lemma In_firstn {A} (n : nat) (l : list A) (x : A) : In x (firstn n l) -> In x l.
Proof.
  revert l. induction n as [|n IH]; intros [|y l]; simpl; try tauto.
  intros [->|H]; [left; reflexivity|right; apply IH; exact H].
Qed.



(** ** Statistics: the specification's claims *)




(** ** Missing learning states: the specification's claim *)

Module Defaults.

Lemma ensureLearningFields_idempotent (e : Notebook.Entry) :
  Notebook.ensureLearningFields (Notebook.ensureLearningFields e) =
  Notebook.ensureLearningFields e.
Proof.
  unfold Notebook.ensureLearningFields at 1.
  rewrite Loops.learning_ensured. reflexivity.
Qed.

Lemma map_ensureLearningFields_idempotent (words : list Notebook.Entry) :
  map Notebook.ensureLearningFields (map Notebook.ensureLearningFields words) =
  map Notebook.ensureLearningFields words.
Proof.
  rewrite map_map. apply map_ext. apply ensureLearningFields_idempotent.
Qed.

(** A loop whose body repairs its entry first runs the same on the repaired
    entries. *)
Lemma fold_left_ensured {A} (f : A -> Notebook.Entry -> A)
    (words : list Notebook.Entry) (a : A) :
  (forall a e, f a (Notebook.ensureLearningFields e) = f a e) ->
  fold_left f (map Notebook.ensureLearningFields words) a = fold_left f words a.
Proof.
  intros H. revert a. induction words as [|e rest IH]; intros a; simpl; [reflexivity|].
  rewrite H. apply IH.
Qed.

Lemma fold_left_ext {A B} (f g : A -> B -> A) (l : list B) (a : A) :
  (forall a b, f a b = g a b) -> fold_left f l a = fold_left g l a.
Proof.
  intros H. revert a. induction l as [|b l IH]; intros a; simpl; [reflexivity|].
  rewrite H. apply IH.
Qed.

(** A lookup that finds nothing: no own property, and no inherited name. *)
Lemma get_undefined {A} (o : gmap string A) (key : string) :
  PlainObject.get o key = PlainObject.Undefined <->
  o !! key = None /\ existsb (String.eqb key) PlainObject.inherited = false.
Proof.
  unfold PlainObject.get. destruct (o !! key); [split; [discriminate|intros [? _]; discriminate]|].
  destruct (existsb _ _); split; try discriminate; try tauto.
  intros [_ ?]. discriminate.
Qed.

Lemma get_insert {A} (o : gmap string A) (key key' : string) (a : A) :
  PlainObject.get (<[key := a]> o) key' =
  if String.eqb key' key then PlainObject.Own a else PlainObject.get o key'.
Proof.
  unfold PlainObject.get. destruct (String.eqb_spec key' key) as [->|Hne].
  - rewrite lookup_insert_eq. reflexivity.
  - rewrite lookup_insert_ne by congruence. reflexivity.
Qed.

(** Writing the default state where a lookup finds nothing changes no
    lookup. *)
Lemma learningOf_insert_default (progress : gmap string LearningObject)
    (key : string) (w : CET.WordEntry) :
  PlainObject.get progress key = PlainObject.Undefined ->
  CET.learningOf (<[key := toObject DEFAULT_LEARNING]> progress) w =
  CET.learningOf progress w.
Proof.
  intros Hnone. unfold CET.learningOf. rewrite get_insert.
  destruct (String.eqb_spec (toLowerCase (CET.word w)) key) as [->|Hne]; [|reflexivity].
  rewrite Hnone. reflexivity.
Qed.

Lemma getProgress_withProgress (data : CET.DataDir) (category : CET.Category)
    (progress : gmap string LearningObject) :
  CET.getProgress (withProgress data category progress) category = progress.
Proof. destruct category; reflexivity. Qed.

End Defaults.

(** C7 (as stated): "a stored word whose LearningState lacks one or more of
    its seven fields is treated as having the default LearningState".  An
    entry whose stored state only lacks [nextReviewAt] is used as stored:
    selection skips it (level 2, no review date), where the same word with
    the default state would be selected as a new word, and the statistics
    count it at level 2, not at level 0. *)
Lemma C7_counterexample_partial_state_kept :
  let broken := {| Notebook.word := "apple"; Notebook.learning := Some partialObject |} in
  (fst (Notebook.getWordsForLearning None sampleNow [broken]) = [] /\
   fst (Notebook.getWordsForLearning None sampleNow [saved "apple" DEFAULT_LEARNING]) =
     [saved "apple" DEFAULT_LEARNING]) /\
  (byLevel (fst (Notebook.getLearningStats sampleNow [broken])) =
     [Count 0; Count 0; Count 1; Count 0; Count 0; Count 0] /\
   byLevel (fst (Notebook.getLearningStats sampleNow [saved "apple" DEFAULT_LEARNING])) =
     [Count 1; Count 0; Count 0; Count 0; Count 0; Count 0]) /\
  CET.getWordLearningState
    (withProgress sampleData CET.cet4 (<["apple" := partialObject]> ∅)) CET.cet4 "Apple" =
    partialObject.
Proof. repeat split; vm_compute; reflexivity. Qed.

(** C7 (amended): for every stored word that has no stored LearningState at
    all (a notebook entry without a learning property, a category word for
    which the lookup in the progress records finds nothing), the selection
    and statistics operations, and the session they hand their words to,
    treat the word as having the default LearningState {level:0,
    easeFactor:2.5, interval:0, lastReviewedAt:null, nextReviewAt:null,
    reviewCount:0, correctCount:0}; a stored state that is present is used as
    it is.  (A category word whose lower-cased spelling names a property that
    every object inherits is not covered: there the lookup finds the
    inherited value.) *)
Theorem C7_absent_state_defaults :
  (forall (maxNewWords : option nat) (now : float) (words : list Notebook.Entry),
     let repaired := map Notebook.ensureLearningFields words in
     Notebook.getWordsForLearning maxNewWords now words =
       Notebook.getWordsForLearning maxNewWords now repaired /\
     Notebook.getLearningStats now words = Notebook.getLearningStats now repaired /\
     Forall (fun e => exists o, Notebook.learning e = Some o)
       (fst (Notebook.getWordsForLearning maxNewWords now words))) /\
  (forall e : Notebook.Entry,
     Notebook.ensureLearningFields e =
     match Notebook.learning e with
     | None => saved (Notebook.word e) DEFAULT_LEARNING
     | Some _ => e
     end) /\
  (forall (data : CET.DataDir) (category : CET.Category) (key : string),
     PlainObject.get (CET.getProgress data category) key = PlainObject.Undefined ->
     let repaired :=
       withProgress data category
         (<[key := toObject DEFAULT_LEARNING]> (CET.getProgress data category)) in
     (forall w, toLowerCase w = key ->
        CET.getWordLearningState data category w = toObject DEFAULT_LEARNING) /\
     (forall maxNewWords now,
        CET.getWordsForLearning data category maxNewWords now =
        CET.getWordsForLearning repaired category maxNewWords now) /\
     (forall now,
        CET.getLearningStats data category now =
        CET.getLearningStats repaired category now)).
Proof.
  split; [|split].
  - intros maxNewWords now words repaired. subst repaired.
    unfold Notebook.getWordsForLearning, Notebook.getLearningStats.
    rewrite Defaults.map_ensureLearningFields_idempotent, length_map.
    rewrite (Defaults.fold_left_ensured (Notebook.selectWord now)),
      (Defaults.fold_left_ensured (Notebook.countWord now));
      [|intros acc e; unfold Notebook.countWord;
        rewrite Defaults.ensureLearningFields_idempotent; reflexivity
       |intros acc e; unfold Notebook.selectWord;
        rewrite Defaults.ensureLearningFields_idempotent; reflexivity].
    split; [reflexivity|]. split; [reflexivity|]. cbn [fst].
    destruct (Loops.notebook_selection now words
                {| Notebook.dueWords := []; Notebook.newWords := [] |}) as [Hd Hn].
    rewrite Hd, Hn. cbn [Notebook.dueWords Notebook.newWords app].
    apply List.Forall_forall. intros e He.
    assert (Hin : In e (map Notebook.ensureLearningFields words)).
    { apply in_app_or in He as [He|He].
      - apply filter_In in He. apply He.
      - apply In_firstn in He. apply filter_In in He. apply He. }
    apply in_map_iff in Hin as (e0 & <- & _).
    exists (effective e0). apply Loops.learning_ensured.
  - intros e. unfold Notebook.ensureLearningFields, saved.
    destruct (Notebook.learning e); reflexivity.
  - intros data category key Hnone repaired.
    assert (Hlist : CET.getWordList repaired category = CET.getWordList data category)
      by reflexivity.
    assert (Hprog : CET.getProgress repaired category =
                    <[key := toObject DEFAULT_LEARNING]> (CET.getProgress data category))
      by apply Defaults.getProgress_withProgress.
    split; [|split].
    + intros w <-. unfold CET.getWordLearningState. rewrite Hnone. reflexivity.
    + intros maxNewWords now. unfold CET.getWordsForLearning.
      rewrite Hlist, Hprog. destruct (CET.getWordList data category); [|reflexivity].
      rewrite (Defaults.fold_left_ext
                 (CET.selectWord (<[key := toObject DEFAULT_LEARNING]>
                                    (CET.getProgress data category)) now)
                 (CET.selectWord (CET.getProgress data category) now));
        [reflexivity|].
      intros acc w. unfold CET.selectWord.
      rewrite Defaults.learningOf_insert_default by assumption. reflexivity.
    + intros now. unfold CET.getLearningStats.
      rewrite Hlist, Hprog. destruct (CET.getWordList data category); [|reflexivity].
      apply Defaults.fold_left_ext. intros acc w. unfold CET.countWord.
      rewrite Defaults.learningOf_insert_default by assumption. reflexivity.
Qed.

Lemma C7_absent_state_defaults_witness :
  PlainObject.get (CET.getProgress sampleData CET.cet4) "baker" = PlainObject.Undefined /\
  CET.getWordLearningState sampleData CET.cet4 "Baker" = toObject DEFAULT_LEARNING /\
  Notebook.ensureLearningFields (unsaved "fig") = saved "fig" DEFAULT_LEARNING.
Proof.
  assert (Hnone : PlainObject.get (CET.getProgress sampleData CET.cet4) "baker" =
                  PlainObject.Undefined)
    by (vm_compute; reflexivity).
  split; [exact Hnone|]. split.
  - exact (proj1 (proj2 (proj2 C7_absent_state_defaults) sampleData CET.cet4
                    "baker"%string Hnone) "Baker"%string eq_refl).
  - exact (proj1 (proj2 C7_absent_state_defaults) (unsaved "fig")).
Defined.

(** ** The learning session: the specification's claims *)

Module SessionFacts.

Lemma length_filter_countIf {A} (p : A -> bool) (l : list A) :
  length (List.filter p l) = countIf p l.
Proof.
  induction l as [|x l IH]; simpl; [reflexivity|].
  destruct (p x); simpl; rewrite IH; reflexivity.
Qed.

Lemma countIf_map {A B} (f : A -> B) (p : B -> bool) (l : list A) :
  countIf (fun x => p (f x)) l = countIf p (map f l).
Proof.
  induction l as [|x l IH]; simpl; [reflexivity|]. rewrite IH. reflexivity.
Qed.

(** Every integer grade is either at least Good or below it. *)
Lemma countIf_grades_split (grades : list Z) :
  (countIf (fun g => (GRADES.GOOD <=? g)%Z) grades +
   countIf (fun g => (g <? GRADES.GOOD)%Z) grades)%nat = length grades.
Proof.
  induction grades as [|g rest IH]; simpl; [reflexivity|].
  destruct (Z.leb_spec GRADES.GOOD g), (Z.ltb_spec g GRADES.GOOD); simpl; lia.
Qed.

End SessionFacts.

(** C8: for every LearningSession, getStats returns reviewed =
    results.length, correct = the count of recorded grades >= Good,
    needPractice = the count of recorded grades < Good (the two add up to
    reviewed), and percentage = round(correct / reviewed * 100), evaluated in
    binary64 as the code does, or 0 when reviewed is 0; for the grades [Good,
    Easy, Forgot] it returns reviewed = 3, correct = 2, needPractice = 1,
    percentage = 67. *)
Theorem C8_session_stats {Word : Type} (s : @Session.LearningSession Word) :
  let stats := Session.getStats s in
  let grades := map Session.grade (Session.results s) in
  Session.reviewed stats = length (Session.results s) /\
  Session.correct stats = countIf (fun g => GRADES.GOOD <=? g) grades /\
  Session.needPractice stats = countIf (fun g => g <? GRADES.GOOD) grades /\
  (Session.correct stats + Session.needPractice stats)%nat = Session.reviewed stats /\
  Session.percentage stats =
    (if Nat.eqb (Session.reviewed stats) 0 then 0%float
     else JS.Math_round
            (JS.Number (Z.of_nat (Session.correct stats)) /
             JS.Number (Z.of_nat (Session.reviewed stats)) * 100)) /\
  (grades = [GRADES.GOOD; GRADES.EASY; GRADES.FORGOT] ->
   stats = {| Session.reviewed := 3; Session.correct := 2;
              Session.needPractice := 1; Session.percentage := 67 |}).
Proof.
  intros stats grades.
  assert (Hc : Session.correct stats = countIf (fun g => GRADES.GOOD <=? g) grades).
  { unfold stats, Session.getStats, grades. cbn [Session.correct].
    rewrite SessionFacts.length_filter_countIf.
    apply (SessionFacts.countIf_map Session.grade (fun g => GRADES.GOOD <=? g)). }
  assert (Hn : Session.needPractice stats = countIf (fun g => g <? GRADES.GOOD) grades).
  { unfold stats, Session.getStats, grades. cbn [Session.needPractice].
    rewrite SessionFacts.length_filter_countIf.
    apply (SessionFacts.countIf_map Session.grade (fun g => g <? GRADES.GOOD)). }
  assert (Hr : Session.reviewed stats = length grades).
  { unfold grades. rewrite length_map. reflexivity. }
  assert (Hp : Session.percentage stats =
    (if Nat.eqb (Session.reviewed stats) 0 then 0%float
     else JS.Math_round
            (JS.Number (Z.of_nat (Session.correct stats)) /
             JS.Number (Z.of_nat (Session.reviewed stats)) * 100))).
  { unfold stats, Session.getStats.
    cbn [Session.percentage Session.reviewed Session.correct].
    destruct (length (Session.results s)); reflexivity. }
  split; [reflexivity|]. split; [exact Hc|]. split; [exact Hn|].
  split; [rewrite Hc, Hn, Hr; apply SessionFacts.countIf_grades_split|].
  split; [exact Hp|].
  intros Hg. rewrite Hg in Hc, Hn, Hr.
  destruct stats as [reviewed correct needPractice percentage].
  cbn [Session.reviewed Session.correct Session.needPractice Session.percentage] in *.
  subst reviewed correct needPractice percentage.
  f_equal.
Qed.

Lemma C8_session_stats_witness :
  let s := snd (Session.recordGrades (fun w : string => w)
                  [GRADES.GOOD; GRADES.EASY; GRADES.FORGOT]
                  (Session.create ["apple"; "bread"; "cloud"]%string)) in
  map Session.grade (Session.results s) = [GRADES.GOOD; GRADES.EASY; GRADES.FORGOT] /\
  Session.getStats s =
    {| Session.reviewed := 3; Session.correct := 2;
       Session.needPractice := 1; Session.percentage := 67 |}.
Proof.
  split; [reflexivity|].
  apply (C8_session_stats
           (snd (Session.recordGrades (fun w : string => w)
                   [GRADES.GOOD; GRADES.EASY; GRADES.FORGOT]
                   (Session.create ["apple"; "bread"; "cloud"]%string)))).
  reflexivity.
Defined.

(** The percentage is rounded from the binary64 product: 23 correct cards
    out of 40 give (23 / 40) * 100 = 57.49999999999999 and a percentage of
    57, where the exact value 57.5 would round to 58. *)
Example percentage_in_binary64 :
  Session.getStats
    (snd (Session.recordGrades (fun w : string => w)
            (repeat GRADES.GOOD 23 ++ repeat GRADES.HARD 17)
            (Session.create (repeat "word"%string 40)))) =
  {| Session.reviewed := 40; Session.correct := 23;
     Session.needPractice := 17; Session.percentage := 57 |}.
Proof. vm_compute. reflexivity. Qed.

(** C10: for every LearningSession that is complete (currentIndex >=
    words.length), currentWord is null, and recordGrade in that state raises
    (it reads the word of the null currentWord) and records nothing; in a
    session that is not complete recordGrade records the grade for the
    current word and advances.  showCurrentFlashcard shows a card only when
    the session is not complete, which is how the REPL establishes the
    precondition before each card. *)
Theorem C10_recordGrade_needs_current_word {Word : Type} (wordOf : Word -> string)
    (s : @Session.LearningSession Word) (grade : Z) :
  (Session.isComplete s = true ->
   Session.currentWord s = None /\
   Session.recordGrade wordOf grade s = (JS.Throws JS.TypeError, s)) /\
  (Session.isComplete s = false ->
   exists w,
     Session.currentWord s = Some w /\
     Session.recordGrade wordOf grade s =
       (JS.Ok tt,
        {| Session.words := Session.words s;
           Session.currentIndex := S (Session.currentIndex s);
           Session.results :=
             Session.results s ++
             [{| Session.result_word := wordOf w; Session.grade := grade;
                 Session.wasRevealed := Session.revealed s |}];
           Session.revealed := false |})) /\
  (Session.showCurrentFlashcard s = Session.FLASHCARD_FRONT <->
   Session.isComplete s = false).
Proof.
  unfold Session.isComplete, Session.recordGrade, Session.currentWord,
    Session.showCurrentFlashcard, Session.isComplete.
  split; [|split].
  - intros H. apply Nat.leb_le in H.
    assert (E : nth_error (Session.words s) (Session.currentIndex s) = None)
      by (apply nth_error_None; exact H).
    rewrite E. split; reflexivity.
  - intros H. apply Nat.leb_gt in H.
    destruct (nth_error (Session.words s) (Session.currentIndex s)) as [w|] eqn:E.
    + exists w. split; reflexivity.
    + apply nth_error_None in E. lia.
  - destruct (Nat.leb _ _); split; intros H; congruence.
Qed.

Lemma C10_recordGrade_needs_current_word_witness :
  let done := snd (Session.recordGrade (fun w : string => w) GRADES.GOOD
                     (Session.create ["apple"%string])) in
  Session.isComplete done = true /\
  Session.currentWord done = None /\
  Session.recordGrade (fun w : string => w) GRADES.EASY done = (JS.Throws JS.TypeError, done).
Proof.
  split; [reflexivity|].
  apply (C10_recordGrade_needs_current_word (fun w : string => w)
           (snd (Session.recordGrade (fun w : string => w) GRADES.GOOD
                   (Session.create ["apple"%string])))
           GRADES.EASY).
  reflexivity.
Defined.

(** ** Further properties of the scheduler and the session *)

(** X1: along every sequence of reviews from the default LearningState,
    reviewCount is the number of reviews and correctCount is between 0 and
    reviewCount. *)
Theorem X1_counts_bounded (rs : list (float * Z)) (final : LearningState) :
  reviews DEFAULT_LEARNING rs = JS.Ok final ->
  reviewCount final = Z.of_nat (length rs) /\
  0 <= correctCount final <= reviewCount final.
Proof.
  assert (Hgen : forall (rs : list (float * Z)) (start final : LearningState),
             reviews start rs = JS.Ok final ->
             reviewCount final = reviewCount start + Z.of_nat (length rs) /\
             correctCount start <= correctCount final <=
               correctCount start + Z.of_nat (length rs)).
  { clear. induction rs as [|[now grade] rest IH]; intros start final Hrun.
    - simpl in *. injection Hrun as <-. lia.
    - simpl in Hrun. unfold review in Hrun. cbn [fst snd] in Hrun.
      destruct (calculateNextReview now start grade) as [next|e] eqn:Hcall;
        [|discriminate].
      simpl in Hrun. apply IH in Hrun.
      pose proof (Scheduler.correctCount_step _ _ _ _ Hcall) as Hc.
      assert (Hr : reviewCount next = reviewCount start + 1).
      { destruct (Z.eq_dec grade GRADES.FORGOT) as [->|Hg].
        - rewrite Scheduler.calculateNextReview_forgot in Hcall.
          destruct (_ && _); [|discriminate]. injection Hcall as <-. reflexivity.
        - rewrite Scheduler.calculateNextReview_success in Hcall by assumption.
          destruct (_ && _); [|discriminate]. injection Hcall as <-. reflexivity. }
      simpl length. destruct (grade =? GRADES.FORGOT); lia. }
  intros Hrun. apply Hgen in Hrun. simpl in Hrun. lia.
Qed.

Lemma X1_counts_bounded_witness :
  exists final,
    reviews DEFAULT_LEARNING
      [(sampleNow, GRADES.FORGOT); (sampleNow, GRADES.HARD);
       (sampleNow, GRADES.FORGOT)] = JS.Ok final /\
    reviewCount final = 3 /\ 0 <= correctCount final <= reviewCount final.
Proof.
  set (final := {| level := 1; easeFactor := 1.95; interval := 0;
                   lastReviewedAt := Some sampleNow; nextReviewAt := Some sampleNow;
                   reviewCount := 3; correctCount := 1 |}).
  assert (Hrun : reviews DEFAULT_LEARNING
      [(sampleNow, GRADES.FORGOT); (sampleNow, GRADES.HARD);
       (sampleNow, GRADES.FORGOT)] = JS.Ok final) by (vm_compute; reflexivity).
  exists final. split; [exact Hrun|].
  exact (X1_counts_bounded _ final Hrun).
Defined.

(** X2: a LearningSession constructed with an empty word list is complete
    before any interaction: it has no current word and the REPL goes
    straight to the summary. *)
Theorem X2_empty_session_complete (Word : Type) :
  Session.isComplete (@Session.create Word []) = true /\
  Session.currentWord (@Session.create Word []) = None /\
  Session.showCurrentFlashcard (@Session.create Word []) = Session.SESSION_COMPLETE.
Proof. repeat split. Qed.

(** X3: recording no more grades than the session has words never raises;
    it leaves the grades in the results in the order given, the cursor after
    as many cards, and the session complete exactly when every word has been
    graded. *)
Theorem X3_recordGrades_run {Word : Type} (wordOf : Word -> string)
    (words : list Word) (grades : list Z) :
  (length grades <= length words)%nat ->
  exists s,
    Session.recordGrades wordOf grades (Session.create words) = (JS.Ok tt, s) /\
    map Session.grade (Session.results s) = grades /\
    Session.currentIndex s = length grades /\
    Session.words s = words /\
    Session.isComplete s = Nat.eqb (length grades) (length words).
Proof.
  assert (Hgen : forall (grades : list Z) (s : @Session.LearningSession Word),
             (Session.currentIndex s + length grades <= length (Session.words s))%nat ->
             exists s',
               Session.recordGrades wordOf grades s = (JS.Ok tt, s') /\
               map Session.grade (Session.results s') =
                 map Session.grade (Session.results s) ++ grades /\
               Session.currentIndex s' = (Session.currentIndex s + length grades)%nat /\
               Session.words s' = Session.words s).
  { clear. induction grades as [|g rest IH]; intros s Hlen.
    - exists s. simpl. rewrite app_nil_r, Nat.add_0_r. repeat split.
    - simpl in Hlen. simpl Session.recordGrades. unfold Session.recordGrade, Session.currentWord.
      destruct (nth_error (Session.words s) (Session.currentIndex s)) as [w|] eqn:E.
      + cbv iota beta.
        match goal with |- context [Session.recordGrades wordOf rest ?s1] =>
          destruct (IH s1) as (s' & Hrun & Hres & Hidx & Hwords)
        end.
        { simpl. lia. }
        exists s'. split; [exact Hrun|]. simpl in Hres, Hidx, Hwords.
        rewrite Hres, Hidx, Hwords. rewrite map_app. simpl. rewrite <- app_assoc.
        repeat split. simpl. lia.
      + apply nth_error_None in E. lia. }
  intros Hlen. destruct (Hgen grades (Session.create words)) as (s & Hrun & Hres & Hidx & Hwords).
  { simpl. exact Hlen. }
  simpl in Hres, Hidx, Hwords. exists s. repeat split; try assumption.
  unfold Session.isComplete. rewrite Hidx, Hwords.
  destruct (Nat.eqb_spec (length grades) (length words)) as [->|Hne].
  - apply Nat.leb_refl.
  - apply Nat.leb_gt. lia.
Qed.

Lemma X3_recordGrades_run_witness :
  (length [GRADES.GOOD; GRADES.FORGOT] <= length ["apple"; "bread"; "cloud"]%string)%nat /\
  exists s,
    Session.recordGrades (fun w : string => w) [GRADES.GOOD; GRADES.FORGOT]
      (Session.create ["apple"; "bread"; "cloud"]%string) = (JS.Ok tt, s) /\
    map Session.grade (Session.results s) = [GRADES.GOOD; GRADES.FORGOT] /\
    Session.currentIndex s = 2%nat /\
    Session.words s = ["apple"; "bread"; "cloud"]%string /\
    Session.isComplete s = false.
Proof.
  assert (Hlen : (length [GRADES.GOOD; GRADES.FORGOT] <=
                  length ["apple"; "bread"; "cloud"]%string)%nat) by (simpl; lia).
  split; [exact Hlen|].
  exact (X3_recordGrades_run (fun w : string => w) ["apple"; "bread"; "cloud"]%string
           [GRADES.GOOD; GRADES.FORGOT] Hlen).
Defined.

(** ** The notebook's methods: searches by word *)

Module StoreFacts.
Import NotebookStore.

Lemma sameWord_eq (a b : string) :
  sameWord a b = true <-> toLowerCase a = toLowerCase b.
Proof. unfold sameWord. apply String.eqb_eq. Qed.

Lemma sameWord_refl (a : string) : sameWord a a = true.
Proof. apply sameWord_eq. reflexivity. Qed.

(** Two words that compare equal give the same test on every entry. *)
Lemma sameWord_test (a b c : string) :
  sameWord a b = true -> sameWord c a = sameWord c b.
Proof. unfold sameWord. intros H. apply String.eqb_eq in H. rewrite H. reflexivity. Qed.

Lemma sameWord_false (a b c : string) :
  sameWord a b = false -> sameWord c a = true -> sameWord c b = false.
Proof.
  unfold sameWord. intros Hab Hca. apply String.eqb_eq in Hca. rewrite Hca. exact Hab.
Qed.

(** What [findIndex] returns: the position of the first element that passes
    the test, or nothing when none does. *)
Lemma findIndex_first {A} (p : A -> bool) (l : list A) :
  match findIndex p l with
  | Some i =>
      exists l1 x l2,
        l = l1 ++ x :: l2 /\ length l1 = i /\ p x = true /\ existsb p l1 = false
  | None => existsb p l = false
  end.
Proof.
  induction l as [|y l IH]; simpl; [reflexivity|].
  destruct (p y) eqn:Hy.
  - exists [], y, l. repeat split. exact Hy.
  - destruct (findIndex p l) as [i|]; simpl.
    + destruct IH as (l1 & x & l2 & -> & <- & Hx & Hl1).
      exists (y :: l1), x, l2. simpl. rewrite Hy, Hl1. repeat split. exact Hx.
    + exact IH.
Qed.

Lemma insert_middle {A} (l1 : list A) (x y : A) (l2 : list A) :
  <[length l1 := y]> (l1 ++ x :: l2) = l1 ++ y :: l2.
Proof. induction l1 as [|z l1 IH]; simpl; [reflexivity|]. f_equal. exact IH. Qed.

Lemma alter_middle {A} (f : A -> A) (l1 : list A) (x : A) (l2 : list A) :
  alter f (length l1) (l1 ++ x :: l2) = l1 ++ f x :: l2.
Proof. induction l1 as [|z l1 IH]; simpl; [reflexivity|]. f_equal. exact IH. Qed.

Lemma find_first {A} (p : A -> bool) (l1 : list A) (x : A) (l2 : list A) :
  existsb p l1 = false -> p x = true -> List.find p (l1 ++ x :: l2) = Some x.
Proof.
  intros Hl1 Hx. induction l1 as [|z l1 IH]; simpl in *.
  - rewrite Hx. reflexivity.
  - apply orb_false_iff in Hl1 as [Hz Hl1]. rewrite Hz. apply IH. exact Hl1.
Qed.

Lemma filter_none {A} (p : A -> bool) (l : list A) :
  existsb p l = false -> List.filter p l = [].
Proof.
  induction l as [|z l IH]; simpl; [reflexivity|].
  intros H. apply orb_false_iff in H as [Hz Hl]. rewrite Hz. apply IH. exact Hl.
Qed.

Lemma filter_all {A} (p : A -> bool) (l : list A) :
  existsb p l = false -> List.filter (fun x => negb (p x)) l = l.
Proof.
  induction l as [|z l IH]; simpl; [reflexivity|].
  intros H. apply orb_false_iff in H as [Hz Hl]. rewrite Hz. simpl. f_equal. apply IH. exact Hl.
Qed.

Lemma existsb_filter_negb {A} (p : A -> bool) (l : list A) :
  existsb p (List.filter (fun x => negb (p x)) l) = false.
Proof.
  induction l as [|z l IH]; simpl; [reflexivity|].
  destruct (p z) eqn:Hz; simpl; [exact IH|]. rewrite Hz. exact IH.
Qed.

Lemma length_filter_existsb {A} (p : A -> bool) (l : list A) :
  existsb p l = true -> (length (List.filter (fun x => negb (p x)) l) < length l)%nat.
Proof.
  induction l as [|z l IH]; simpl; [discriminate|].
  pose proof (List.filter_length_le (fun x => negb (p x)) l) as Hle.
  destruct (p z); simpl; intros H; [lia|]. apply IH in H. lia.
Qed.

Lemma existsb_ext_word (a b : string) (ws : list Notebook.Entry) :
  sameWord a b = true ->
  existsb (fun e => sameWord (Notebook.word e) b) ws =
  existsb (fun e => sameWord (Notebook.word e) a) ws.
Proof.
  intros H. induction ws as [|e ws IH]; simpl; [reflexivity|].
  rewrite IH, (sameWord_test a b) by exact H. reflexivity.
Qed.

(** The loop of [migrateWords] repairs every entry and raises its flag
    exactly when an entry had no learning object. *)
Lemma migrateLoop_map (ws : list Notebook.Entry) (needsSave : bool) :
  migrateLoop ws needsSave =
  (map Notebook.ensureLearningFields ws,
   needsSave || existsb (fun e => negb (bool_decide (is_Some (Notebook.learning e)))) ws).
Proof.
  revert needsSave. induction ws as [|e ws IH]; intros needsSave; simpl.
  - rewrite orb_false_r. reflexivity.
  - unfold Notebook.ensureLearningFields at 1.
    destruct (Notebook.learning e) as [o|] eqn:E; rewrite IH; simpl.
    + reflexivity.
    + rewrite orb_true_r. reflexivity.
Qed.

Lemma allLearning_map_ensure (ws : list Notebook.Entry) :
  allLearning (map Notebook.ensureLearningFields ws).
Proof.
  unfold allLearning. apply List.Forall_forall. intros e He.
  apply in_map_iff in He as (e0 & <- & _).
  rewrite Loops.learning_ensured. discriminate.
Qed.

Lemma ensure_allLearning (ws : list Notebook.Entry) :
  allLearning ws -> map Notebook.ensureLearningFields ws = ws.
Proof.
  unfold allLearning. induction 1 as [|e ws He _ IH]; simpl; [reflexivity|].
  rewrite IH. f_equal. unfold Notebook.ensureLearningFields.
  destruct (Notebook.learning e); [reflexivity|congruence].
Qed.

Lemma existsb_allLearning (ws : list Notebook.Entry) :
  allLearning ws ->
  existsb (fun e => negb (bool_decide (is_Some (Notebook.learning e)))) ws = false.
Proof.
  unfold allLearning. induction 1 as [|e ws He _ IH]; simpl; [reflexivity|].
  rewrite IH. destruct (Notebook.learning e); [reflexivity|congruence].
Qed.

Lemma word_ensure (e : Notebook.Entry) :
  Notebook.word (Notebook.ensureLearningFields e) = Notebook.word e.
Proof. unfold Notebook.ensureLearningFields. destruct (Notebook.learning e); reflexivity. Qed.

Lemma map_word_ensure (f : string -> string) (ws : list Notebook.Entry) :
  map (fun e => f (Notebook.word e)) (map Notebook.ensureLearningFields ws) =
  map (fun e => f (Notebook.word e)) ws.
Proof.
  rewrite map_map. apply map_ext. intros e. rewrite word_ensure. reflexivity.
Qed.

Lemma existsb_lower (w : string) (ws : list Notebook.Entry) :
  existsb (fun e => sameWord (Notebook.word e) w) ws = false <->
  ~ In (toLowerCase w) (map (fun e => toLowerCase (Notebook.word e)) ws).
Proof.
  induction ws as [|e ws IH]; simpl; [tauto|].
  rewrite orb_false_iff, IH. unfold sameWord.
  destruct (String.eqb_spec (toLowerCase (Notebook.word e)) (toLowerCase w)); split;
    intros H; try tauto; try (destruct H; congruence).
Qed.

(** What each method does to the words, for a notebook split at the first
    entry of the word. *)
Lemma addWord_words (writable : bool) (w : string) (nb : Store) :
  let entry := {| Notebook.word := w;
                  Notebook.learning := Some (toObject DEFAULT_LEARNING) |} in
  (hasWord w nb = false /\ words (snd (addWord writable w nb)) = words nb ++ [entry]) \/
  (hasWord w nb = true /\
   exists l1 x l2,
     words nb = l1 ++ x :: l2 /\
     existsb (fun e => sameWord (Notebook.word e) w) l1 = false /\
     sameWord (Notebook.word x) w = true /\
     words (snd (addWord writable w nb)) = l1 ++ entry :: l2).
Proof.
  intros entry. unfold addWord, hasWord.
  pose proof (findIndex_first (fun e => sameWord (Notebook.word e) w) (words nb)) as Hfi.
  destruct (findIndex _ (words nb)) as [i|].
  - right. destruct Hfi as (l1 & x & l2 & Hw & <- & Hx & Hl1).
    rewrite Hw. split.
    + rewrite existsb_app. simpl. rewrite Hx, orb_true_r. reflexivity.
    + exists l1, x, l2. repeat split; try assumption.
      unfold save. destruct writable; simpl; apply insert_middle.
  - left. split; [exact Hfi|]. unfold save. destruct writable; reflexivity.
Qed.

Lemma updateWordLearning_words (writable : bool) (w : string)
    (learningState : LearningObject) (nb : Store) :
  (hasWord w nb = false /\ updateWordLearning writable w learningState nb = (false, nb)) \/
  (hasWord w nb = true /\
   exists l1 x l2,
     words nb = l1 ++ x :: l2 /\
     existsb (fun e => sameWord (Notebook.word e) w) l1 = false /\
     sameWord (Notebook.word x) w = true /\
     words (snd (updateWordLearning writable w learningState nb)) =
       l1 ++ {| Notebook.word := Notebook.word x;
                Notebook.learning := Some learningState |} :: l2 /\
     fst (updateWordLearning writable w learningState nb) = writable /\
     file (snd (updateWordLearning writable w learningState nb)) =
       if writable then
         Words (map JSON.entry
                  (l1 ++ {| Notebook.word := Notebook.word x;
                            Notebook.learning := Some learningState |} :: l2))
       else file nb).
Proof.
  unfold updateWordLearning, hasWord.
  pose proof (findIndex_first (fun e => sameWord (Notebook.word e) w) (words nb)) as Hfi.
  destruct (findIndex _ (words nb)) as [i|].
  - right. destruct Hfi as (l1 & x & l2 & Hw & <- & Hx & Hl1).
    rewrite Hw. split.
    + rewrite existsb_app. simpl. rewrite Hx, orb_true_r. reflexivity.
    + exists l1, x, l2. repeat split; try assumption;
        unfold save; destruct writable; simpl; rewrite ?alter_middle; reflexivity.
  - left. split; [exact Hfi|reflexivity].
Qed.

Lemma removeWord_words (writable : bool) (w : string) (nb : Store) :
  words (snd (removeWord writable w nb)) =
  List.filter (fun e => negb (sameWord (Notebook.word e) w)) (words nb).
Proof.
  unfold removeWord. cbn [words]. destruct (Nat.ltb _ _); [|reflexivity].
  unfold save. destruct writable; reflexivity.
Qed.

Lemma NoDup_filter_map {A B} (f : A -> B) (p : A -> bool) (l : list A) :
  NoDup (map f l) -> NoDup (map f (List.filter p l)).
Proof.
  induction l as [|x l IH]; simpl; [intros; constructor|].
  intros H. apply NoDup_cons in H as [Hx Hl].
  destruct (p x); simpl; [|apply IH; exact Hl].
  apply NoDup_cons. split; [|apply IH; exact Hl].
  intros Hin. apply Hx. apply list_elem_of_In in Hin. apply list_elem_of_In.
  apply in_map_iff in Hin as (y & Hy & Hin). apply in_map_iff.
  exists y. split; [exact Hy|]. apply filter_In in Hin. tauto.
Qed.

(** One call keeps the words distinct. *)
Lemma call_distinct (nb : Store) (c : bool * Call) :
  distinctWords (words nb) -> distinctWords (words (call nb c)).
Proof.
  unfold distinctWords. destruct c as [writable [w|w|w s|m now|now]]; intros Hd; simpl.
  - destruct (addWord_words writable w nb) as [[Hno ->]|[_ (l1 & x & l2 & Hw & _ & Hx & ->)]].
    + rewrite map_app. simpl. apply NoDup_app. split; [exact Hd|]. split.
      * intros k Hk Hk'. apply list_elem_of_singleton in Hk'. subst k.
        apply existsb_lower in Hno. apply Hno. apply list_elem_of_In. exact Hk.
      * apply NoDup_singleton.
    + rewrite Hw in Hd. rewrite map_app in *. simpl in *.
      apply sameWord_eq in Hx. rewrite <- Hx. exact Hd.
  - rewrite removeWord_words. apply NoDup_filter_map. exact Hd.
  - destruct (updateWordLearning_words writable w s nb)
      as [[_ ->]|[_ (l1 & x & l2 & Hw & _ & _ & -> & _)]]; [exact Hd|].
    rewrite Hw in Hd. rewrite map_app in *. exact Hd.
  - unfold getWordsForLearning, Notebook.getWordsForLearning. cbn [snd words].
    rewrite map_word_ensure. exact Hd.
  - unfold getLearningStats, Notebook.getLearningStats. cbn [snd words].
    rewrite map_word_ensure. exact Hd.
Qed.

(** One call keeps every entry with a learning object. *)
Lemma call_allLearning (nb : Store) (c : bool * Call) :
  allLearning (words nb) -> allLearning (words (call nb c)).
Proof.
  unfold allLearning. destruct c as [writable [w|w|w s|m now|now]]; intros Ha; simpl.
  - destruct (addWord_words writable w nb) as [[_ ->]|[_ (l1 & x & l2 & Hw & _ & _ & ->)]].
    + apply List.Forall_app. split; [exact Ha|]. repeat constructor. discriminate.
    + rewrite Hw in Ha. apply List.Forall_app in Ha as [H1 H2].
      apply List.Forall_app. split; [exact H1|].
      inversion H2; subst. constructor; [discriminate|assumption].
  - rewrite removeWord_words. apply List.Forall_forall. intros e He.
    apply filter_In in He as [He _]. rewrite List.Forall_forall in Ha. apply Ha, He.
  - destruct (updateWordLearning_words writable w s nb)
      as [[_ ->]|[_ (l1 & x & l2 & Hw & _ & _ & -> & _)]]; [exact Ha|].
    rewrite Hw in Ha. apply List.Forall_app in Ha as [H1 H2].
    apply List.Forall_app. split; [exact H1|].
    inversion H2; subst. constructor; [discriminate|assumption].
  - apply allLearning_map_ensure.
  - apply allLearning_map_ensure.
Qed.

Lemma migrateWords_words (writable : bool) (nb : Store) :
  words (migrateWords writable nb) = map Notebook.ensureLearningFields (words nb).
Proof.
  unfold migrateWords. rewrite migrateLoop_map. simpl.
  destruct (existsb _ _); [|reflexivity]. unfold save. destruct writable; reflexivity.
Qed.

End StoreFacts.

(** ** The notebook's methods: adding, removing and updating words *)

(** X4: after addWord(w) the notebook has the word under every spelling
    that differs from w only in letter case, and the first entry found for
    it is the new one, with the default learning state: adding a word that
    is already there replaces its entry in place and resets its progress.
    The number of entries grows by one exactly when the word was absent;
    the call returns whether the file was written. *)
Theorem X4_addWord_found (writable : bool) (w w' : string) (nb : NotebookStore.Store) :
  NotebookStore.sameWord w w' = true ->
  let r := NotebookStore.addWord writable w nb in
  fst r = writable /\
  NotebookStore.hasWord w' (snd r) = true /\
  List.find (fun e => NotebookStore.sameWord (Notebook.word e) w')
    (NotebookStore.words (snd r)) =
    Some {| Notebook.word := w; Notebook.learning := Some (toObject DEFAULT_LEARNING) |} /\
  length (NotebookStore.words (snd r)) =
    (if NotebookStore.hasWord w nb then length (NotebookStore.words nb)
     else S (length (NotebookStore.words nb))) /\
  NotebookStore.file (snd r) =
    (if writable then NotebookStore.Words (map JSON.entry (NotebookStore.words (snd r)))
     else NotebookStore.file nb).
Proof.
  intros Hw r.
  assert (Hfst : fst r = writable /\
                 NotebookStore.file (snd r) =
                   (if writable then NotebookStore.Words (map JSON.entry (NotebookStore.words (snd r)))
                    else NotebookStore.file nb)).
  { unfold r, NotebookStore.addWord, NotebookStore.save.
    destruct writable; split; reflexivity. }
  destruct Hfst as [Hfst Hfile].
  assert (Hentry : NotebookStore.sameWord w w' = true) by exact Hw.
  pose proof (StoreFacts.addWord_words writable w nb) as Hwords. fold r in Hwords.
  cbv zeta in Hwords.
  unfold NotebookStore.hasWord at 1.
  destruct Hwords as [[Hno Hr]|[Hyes (l1 & x & l2 & Hnb & Hl1 & Hx & Hr)]];
    rewrite Hr.
  - rewrite Hno. repeat split; try assumption.
    + rewrite existsb_app. simpl. rewrite Hentry, orb_true_r. reflexivity.
    + apply StoreFacts.find_first; [|exact Hentry].
      unfold NotebookStore.hasWord in Hno.
      rewrite (StoreFacts.existsb_ext_word w w') by exact Hw. exact Hno.
    + rewrite length_app. simpl. lia.
    + rewrite <- Hr. exact Hfile.
  - rewrite Hyes. repeat split; try assumption.
    + rewrite existsb_app. simpl. rewrite Hentry, orb_true_r. reflexivity.
    + apply StoreFacts.find_first; [|exact Hentry].
      rewrite (StoreFacts.existsb_ext_word w w') by exact Hw. exact Hl1.
    + rewrite Hnb, !length_app. reflexivity.
    + rewrite <- Hr. exact Hfile.
Qed.

Lemma X4_addWord_found_witness :
  let r := NotebookStore.addWord true "Apple"
             {| NotebookStore.words := [saved "bread" laterState; saved "apple" dueState];
                NotebookStore.file := NotebookStore.Missing |} in
  NotebookStore.hasWord "APPLE" (snd r) = true /\
  NotebookStore.words (snd r) = [saved "bread" laterState; saved "Apple" DEFAULT_LEARNING].
Proof.
  split; [|reflexivity].
  apply (X4_addWord_found true "Apple" "APPLE"
           {| NotebookStore.words := [saved "bread" laterState; saved "apple" dueState];
              NotebookStore.file := NotebookStore.Missing |}).
  reflexivity.
Defined.

(** X5: after removeWord(w) the notebook has the word under no spelling
    that differs from w only in letter case (every such entry is removed).
    When the word was absent the call returns false and changes neither the
    notebook nor its file; when it was present the call returns whether the
    file was written. *)
Theorem X5_removeWord_gone (writable : bool) (w : string) (nb : NotebookStore.Store) :
  let r := NotebookStore.removeWord writable w nb in
  (forall w', NotebookStore.sameWord w w' = true ->
              NotebookStore.hasWord w' (snd r) = false) /\
  (NotebookStore.hasWord w nb = false -> r = (false, nb)) /\
  (NotebookStore.hasWord w nb = true ->
   fst r = writable /\
   (length (NotebookStore.words (snd r)) < length (NotebookStore.words nb))%nat /\
   NotebookStore.file (snd r) =
     (if writable then NotebookStore.Words (map JSON.entry (NotebookStore.words (snd r)))
      else NotebookStore.file nb)).
Proof.
  intros r. split; [|split].
  - intros w' Hw. unfold NotebookStore.hasWord, r.
    rewrite StoreFacts.removeWord_words.
    rewrite (StoreFacts.existsb_ext_word w w') by exact Hw.
    apply (StoreFacts.existsb_filter_negb (fun e => NotebookStore.sameWord (Notebook.word e) w)).
  - unfold NotebookStore.hasWord, r, NotebookStore.removeWord. intros Hno. cbn [NotebookStore.words].
    rewrite (StoreFacts.filter_all (fun e => NotebookStore.sameWord (Notebook.word e) w))
      by exact Hno.
    rewrite Nat.ltb_irrefl. destruct nb; reflexivity.
  - unfold NotebookStore.hasWord, r, NotebookStore.removeWord. intros Hyes. cbn [NotebookStore.words].
    pose proof (StoreFacts.length_filter_existsb
                  (fun e => NotebookStore.sameWord (Notebook.word e) w) _ Hyes) as Hlt.
    apply Nat.ltb_lt in Hlt as Hb. rewrite Hb.
    unfold NotebookStore.save. destruct writable; simpl; repeat split; exact Hlt.
Qed.

(** X6: removing a word that was just added to a notebook that did not
    have it gives back the notebook's words as they were, whatever the
    letter case the two calls spell the word in. *)
Theorem X6_add_then_remove (writable writable' : bool) (w w' : string)
    (nb : NotebookStore.Store) :
  NotebookStore.hasWord w nb = false ->
  NotebookStore.sameWord w w' = true ->
  NotebookStore.words
    (snd (NotebookStore.removeWord writable' w' (snd (NotebookStore.addWord writable w nb)))) =
  NotebookStore.words nb.
Proof.
  intros Hno Hw. rewrite StoreFacts.removeWord_words.
  destruct (StoreFacts.addWord_words writable w nb) as [[_ ->]|[Hyes _]]; [|congruence].
  rewrite List.filter_app. simpl. rewrite Hw. simpl. rewrite app_nil_r.
  apply (StoreFacts.filter_all (fun e => NotebookStore.sameWord (Notebook.word e) w')).
  rewrite (StoreFacts.existsb_ext_word w w') by exact Hw. exact Hno.
Qed.

Lemma X6_add_then_remove_witness :
  NotebookStore.words
    (snd (NotebookStore.removeWord true "DREAM"
            (snd (NotebookStore.addWord false "Dream"
                    {| NotebookStore.words := [saved "apple" dueState];
                       NotebookStore.file := NotebookStore.Missing |})))) =
  [saved "apple" dueState].
Proof.
  apply (X6_add_then_remove false true "Dream" "DREAM"
           {| NotebookStore.words := [saved "apple" dueState];
              NotebookStore.file := NotebookStore.Missing |});
    reflexivity.
Defined.

(** X7: updateWordLearning(w, state) returns false and changes nothing
    when the notebook has no entry for w.  Otherwise it gives the state to the
    first entry for w (compared without letter case) and to no other entry,
    keeps every word and the order, and returns whether the file was written;
    looking the word up afterwards finds the entry with the new state. *)
Theorem X7_updateWordLearning_first (writable : bool) (w : string)
    (learningState : LearningObject) (nb : NotebookStore.Store) :
  let r := NotebookStore.updateWordLearning writable w learningState nb in
  (NotebookStore.hasWord w nb = false -> r = (false, nb)) /\
  (NotebookStore.hasWord w nb = true ->
   fst r = writable /\
   exists l1 x l2,
     NotebookStore.words nb = l1 ++ x :: l2 /\
     existsb (fun e => NotebookStore.sameWord (Notebook.word e) w) l1 = false /\
     NotebookStore.sameWord (Notebook.word x) w = true /\
     NotebookStore.words (snd r) =
       l1 ++ {| Notebook.word := Notebook.word x;
                Notebook.learning := Some learningState |} :: l2 /\
     List.find (fun e => NotebookStore.sameWord (Notebook.word e) w)
       (NotebookStore.words (snd r)) =
       Some {| Notebook.word := Notebook.word x;
               Notebook.learning := Some learningState |} /\
     NotebookStore.file (snd r) =
       (if writable then NotebookStore.Words (map JSON.entry (NotebookStore.words (snd r)))
        else NotebookStore.file nb)).
Proof.
  intros r.
  pose proof (StoreFacts.updateWordLearning_words writable w learningState nb) as H.
  fold r in H.
  destruct H as [[Hno Hr]|[Hyes (l1 & x & l2 & Hnb & Hl1 & Hx & Hr & Hfst & Hfile)]].
  - split; [intros _; exact Hr|]. congruence.
  - split; [congruence|]. intros _. split; [exact Hfst|].
    exists l1, x, l2. repeat split; try assumption.
    + rewrite Hr. apply StoreFacts.find_first; assumption.
    + rewrite Hr. exact Hfile.
Qed.

(** X8: addWord, removeWord and updateWordLearning for one word leave the
    entries of every other word as they were, in the same order. *)
Theorem X8_other_words_kept (writable : bool) (w v : string)
    (learningState : LearningObject) (nb : NotebookStore.Store) :
  NotebookStore.sameWord w v = false ->
  let entriesOf nb :=
    List.filter (fun e => NotebookStore.sameWord (Notebook.word e) v)
      (NotebookStore.words nb) in
  entriesOf (snd (NotebookStore.addWord writable w nb)) = entriesOf nb /\
  entriesOf (snd (NotebookStore.removeWord writable w nb)) = entriesOf nb /\
  entriesOf (snd (NotebookStore.updateWordLearning writable w learningState nb)) =
    entriesOf nb.
Proof.
  intros Hwv entriesOf. unfold entriesOf.
  assert (Hother : forall x : Notebook.Entry,
             NotebookStore.sameWord (Notebook.word x) w = true ->
             NotebookStore.sameWord (Notebook.word x) v = false).
  { intros x Hx. exact (StoreFacts.sameWord_false w v _ Hwv Hx). }
  split; [|split].
  - destruct (StoreFacts.addWord_words writable w nb)
      as [[_ ->]|[_ (l1 & x & l2 & -> & _ & Hx & ->)]].
    + rewrite List.filter_app. simpl. rewrite Hwv. apply app_nil_r.
    + rewrite !List.filter_app. simpl. rewrite Hwv, (Hother x Hx). reflexivity.
  - rewrite StoreFacts.removeWord_words.
    induction (NotebookStore.words nb) as [|e ws IH]; simpl; [reflexivity|].
    destruct (NotebookStore.sameWord (Notebook.word e) w) eqn:Hew; simpl.
    + rewrite (Hother e Hew). exact IH.
    + rewrite IH. reflexivity.
  - destruct (StoreFacts.updateWordLearning_words writable w learningState nb)
      as [[_ ->]|[_ (l1 & x & l2 & -> & _ & Hx & -> & _)]]; [reflexivity|].
    rewrite !List.filter_app. simpl. rewrite (Hother x Hx). reflexivity.
Qed.

Lemma X8_other_words_kept_witness :
  let nb := {| NotebookStore.words := [saved "apple" dueState; saved "bread" laterState];
               NotebookStore.file := NotebookStore.Missing |} in
  List.filter (fun e => NotebookStore.sameWord (Notebook.word e) "Bread")
    (NotebookStore.words (snd (NotebookStore.removeWord true "apple" nb))) =
  [saved "bread" laterState].
Proof.
  apply (X8_other_words_kept true "apple" "Bread" (toObject DEFAULT_LEARNING)
           {| NotebookStore.words := [saved "apple" dueState; saved "bread" laterState];
              NotebookStore.file := NotebookStore.Missing |}).
  reflexivity.
Defined.

(** X9: a notebook loaded from a file in which no two entries spell the
    same word (letter case apart), or from no usable file, keeps two
    invariants through every sequence of addWord, removeWord,
    updateWordLearning, getWordsForLearning and getLearningStats calls,
    whether or not their writes succeed: no two entries spell the same word,
    and every entry has a learning object.  So the repair of entries in
    getWordsForLearning and getLearningStats never changes such a notebook. *)
Theorem X9_notebook_invariants (writable : bool) (f : NotebookStore.File)
    (cs : list (bool * NotebookStore.Call)) :
  (forall ws, f = NotebookStore.Words ws -> NotebookStore.distinctWords ws) ->
  let nb := NotebookStore.calls cs (NotebookStore.load writable f) in
  NotebookStore.distinctWords (NotebookStore.words nb) /\
  NotebookStore.allLearning (NotebookStore.words nb) /\
  (forall maxNewWords now,
     snd (NotebookStore.getWordsForLearning maxNewWords now nb) = nb) /\
  (forall now, snd (NotebookStore.getLearningStats now nb) = nb).
Proof.
  intros Hf nb.
  assert (Hinv : NotebookStore.distinctWords (NotebookStore.words nb) /\
                 NotebookStore.allLearning (NotebookStore.words nb)).
  { unfold nb, NotebookStore.calls.
    assert (Hload : NotebookStore.distinctWords
                      (NotebookStore.words (NotebookStore.load writable f)) /\
                    NotebookStore.allLearning
                      (NotebookStore.words (NotebookStore.load writable f))).
    { destruct f as [| |ws]; simpl; try (split; constructor).
      rewrite StoreFacts.migrateWords_words. simpl. split.
      - unfold NotebookStore.distinctWords. rewrite StoreFacts.map_word_ensure.
        apply Hf. reflexivity.
      - apply StoreFacts.allLearning_map_ensure. }
    clear Hf. revert Hload. generalize (NotebookStore.load writable f).
    induction cs as [|c cs IH]; intros nb0 [Hd Ha]; simpl; [split; assumption|].
    apply IH. split; [apply StoreFacts.call_distinct|apply StoreFacts.call_allLearning];
      assumption. }
  destruct Hinv as [Hd Ha]. split; [exact Hd|]. split; [exact Ha|].
  split; [intros maxNewWords now|intros now];
    unfold NotebookStore.getWordsForLearning, Notebook.getWordsForLearning,
      NotebookStore.getLearningStats, Notebook.getLearningStats; cbn [snd];
    rewrite (StoreFacts.ensure_allLearning _ Ha); destruct nb; reflexivity.
Qed.

Lemma X9_notebook_invariants_witness :
  let nb := NotebookStore.calls
              [(true, NotebookStore.AddWord "Apple");
               (false, NotebookStore.UpdateWordLearning "cloud" (toObject dueState));
               (true, NotebookStore.RemoveWord "BREAD")]
              (NotebookStore.load true
                 (NotebookStore.Words [unsaved "apple"; saved "bread" laterState;
                                       unsaved "cloud"])) in
  NotebookStore.distinctWords (NotebookStore.words nb) /\
  NotebookStore.words nb = [saved "Apple" DEFAULT_LEARNING; saved "cloud" dueState].
Proof.
  split; [|reflexivity].
  apply (X9_notebook_invariants true
           (NotebookStore.Words [unsaved "apple"; saved "bread" laterState; unsaved "cloud"])
           [(true, NotebookStore.AddWord "Apple");
            (false, NotebookStore.UpdateWordLearning "cloud" (toObject dueState));
            (true, NotebookStore.RemoveWord "BREAD")]).
  intros ws Hws. injection Hws as <-.
  unfold NotebookStore.distinctWords. simpl.
  repeat (apply NoDup_cons_2; [rewrite !list_elem_of_In; simpl; intuition discriminate|]).
  apply NoDup_nil_2.
Defined.

(** X10: migrateWords gives every entry without a learning object the
    default one and changes no other entry; it writes the file only when some
    entry lacked one (and then the file holds the repaired words, as JSON
    writes them, when the write succeeds); migrating again changes
    nothing. *)
Theorem X10_migrateWords (writable : bool) (nb : NotebookStore.Store) :
  let nb' := NotebookStore.migrateWords writable nb in
  NotebookStore.words nb' = map Notebook.ensureLearningFields (NotebookStore.words nb) /\
  NotebookStore.allLearning (NotebookStore.words nb') /\
  (NotebookStore.allLearning (NotebookStore.words nb) -> nb' = nb) /\
  (~ NotebookStore.allLearning (NotebookStore.words nb) ->
   NotebookStore.file nb' =
     (if writable then NotebookStore.Words (map JSON.entry (NotebookStore.words nb'))
      else NotebookStore.file nb)) /\
  NotebookStore.migrateWords writable nb' = nb'.
Proof.
  intros nb'.
  assert (Hwords : NotebookStore.words nb' =
                   map Notebook.ensureLearningFields (NotebookStore.words nb))
    by apply StoreFacts.migrateWords_words.
  assert (Hall : NotebookStore.allLearning (NotebookStore.words nb'))
    by (rewrite Hwords; apply StoreFacts.allLearning_map_ensure).
  assert (Hid : forall nb0, NotebookStore.allLearning (NotebookStore.words nb0) ->
                            NotebookStore.migrateWords writable nb0 = nb0).
  { intros nb0 H0. unfold NotebookStore.migrateWords.
    rewrite StoreFacts.migrateLoop_map, (StoreFacts.existsb_allLearning _ H0),
      (StoreFacts.ensure_allLearning _ H0).
    destruct nb0; reflexivity. }
  split; [exact Hwords|]. split; [exact Hall|]. split; [apply Hid|].
  split; [|apply Hid; exact Hall].
  intros Hnot. unfold nb', NotebookStore.migrateWords.
  rewrite StoreFacts.migrateLoop_map.
  destruct (existsb _ (NotebookStore.words nb)) eqn:E; simpl.
  - unfold NotebookStore.save. destruct writable; reflexivity.
  - exfalso. apply Hnot. unfold NotebookStore.allLearning.
    apply List.Forall_forall. intros e He Hnone.
    assert (Hex : existsb (fun e => negb (bool_decide (is_Some (Notebook.learning e))))
                    (NotebookStore.words nb) = true).
    { apply existsb_exists. exists e. split; [exact He|]. rewrite Hnone. reflexivity. }
    congruence.
Qed.

(** ** From a grade to the next selection *)

Module Regrade.

Lemma calculateNextReview_forgotten (now : float) (learning : LearningState) :
  JS.validTime now ->
  calculateNextReview now learning GRADES.FORGOT = JS.Ok (forgotten now learning).
Proof.
  intros Hv. rewrite Scheduler.calculateNextReview_forgot.
  rewrite Scheduler.representable_now by assumption.
  rewrite FloatFacts.next_review_now by assumption. reflexivity.
Qed.

(** A forgotten word passes the test of the due words at every later clock
    reading. *)
Lemma forgotten_due (now now' : float) (learning : LearningState) :
  (now <=? now')%float = true ->
  negb (isNew (toObject (forgotten now learning))) &&
  reviewIsDue now' (toObject (forgotten now learning)) = true.
Proof. intros Hle. unfold isNew, levelIs, reviewIsDue. simpl. exact Hle. Qed.

(** The only number that is zero and has no sign is [+0]. *)
Lemma positive_zero (x : float) : is_zero x = true -> get_sign x = false -> x = zero.
Proof.
  unfold is_zero. rewrite FloatAxioms.eqb_spec.
  change (Prim2SF zero) with (S754_zero false).
  intros Hz Hs. rewrite <- (SF2Prim_Prim2SF x) in Hs |- *.
  destruct (Prim2SF x) as [[]|[]| |[] m e]; try discriminate Hz.
  - vm_compute in Hs. discriminate.
  - reflexivity.
Qed.

(** JSON writes and reads back a finite number other than [-0] as it is. *)
Lemma number_exact (x : float) : JSON.exact x = true -> JSON.number x = Some x.
Proof.
  unfold JSON.exact, JSON.number. intros H. apply andb_true_iff in H as [Hfin Hzero].
  apply negb_true_iff in Hfin, Hzero. rewrite Hfin.
  destruct (is_zero x) eqn:Hz; [|reflexivity].
  simpl in Hzero. rewrite (positive_zero x Hz Hzero). reflexivity.
Qed.

Lemma learning_exact (o : LearningObject) :
  JSON.exactNumber (o_easeFactor o) -> JSON.exactNumber (o_interval o) ->
  JSON.learning o = o.
Proof.
  destruct o as [l ef iv lr nr rc cc]. unfold JSON.learning, JSON.exactNumber. simpl.
  intros Hef Hiv.
  assert (Hnum : forall x : option (option float),
            match x with Some (Some x) => JSON.exact x = true | _ => True end ->
            (fun x => x ≫= JSON.number) <$> x = x).
  { intros [[x|]|] H; simpl; try reflexivity. rewrite (number_exact x H). reflexivity. }
  rewrite (Hnum ef Hef), (Hnum iv Hiv). reflexivity.
Qed.

(** JSON keeps what the selection and the statistics read. *)
Lemma levelIs_json (n : nat) (o : LearningObject) :
  levelIs n (JSON.learning o) = levelIs n o.
Proof. reflexivity. Qed.

Lemma reviewIsDue_json (now : float) (o : LearningObject) :
  reviewIsDue now (JSON.learning o) = reviewIsDue now o.
Proof. reflexivity. Qed.

(** Lookups in the records that were written. *)
Lemma get_json (progress : gmap string LearningObject) (key : string) :
  PlainObject.get (JSON.learning <$> progress) key =
  match PlainObject.get progress key with
  | PlainObject.Own o => PlainObject.Own (JSON.learning o)
  | found => found
  end.
Proof.
  unfold PlainObject.get. rewrite lookup_fmap.
  destruct (progress !! key); [reflexivity|].
  cbn [fmap option_fmap option_map].
  destruct (existsb (String.eqb key) PlainObject.inherited); reflexivity.
Qed.

Lemma get_assign (progress : gmap string LearningObject) (key key' : string)
    (state : LearningObject) :
  PlainObject.get (PlainObject.assign key state progress) key' =
  if String.eqb key' key then
    match progress !! key with
    | None => if String.eqb key "__proto__" then PlainObject.Inherited
              else PlainObject.Own state
    | Some _ => PlainObject.Own state
    end
  else PlainObject.get progress key'.
Proof.
  unfold PlainObject.assign.
  destruct (progress !! key) as [o|] eqn:Hown.
  - apply Defaults.get_insert.
  - destruct (String.eqb_spec key "__proto__") as [->|Hne]; [|apply Defaults.get_insert].
    destruct (String.eqb_spec key' "__proto__") as [->|Hne']; [|reflexivity].
    unfold PlainObject.get. rewrite Hown. reflexivity.
Qed.

Lemma lookup_assign_ne (progress : gmap string LearningObject) (key key' : string)
    (state : LearningObject) :
  key' <> key -> PlainObject.assign key state progress !! key' = progress !! key'.
Proof.
  intros Hne. unfold PlainObject.assign.
  destruct (progress !! key); [apply lookup_insert_ne; congruence|].
  destruct (String.eqb key "__proto__"); [reflexivity|apply lookup_insert_ne; congruence].
Qed.

(** Loops over the same words with bodies that agree on those words. *)
Lemma fold_left_ext_in {A B} (f g : A -> B -> A) (l : list B) (a : A) :
  (forall a b, In b l -> f a b = g a b) -> fold_left f l a = fold_left g l a.
Proof.
  revert a. induction l as [|b l IH]; intros a H; simpl; [reflexivity|].
  rewrite H by (left; reflexivity). apply IH. intros a' b' Hb'. apply H. right. exact Hb'.
Qed.

End Regrade.

(** X11: a word of the notebook that is graded Forgot at a valid clock
    reading, with the returned state written through updateWordLearning, is
    selected by getWordsForLearning at every clock reading from then on, as a
    due word: it is selected whatever the limit on new words is (even 0), and
    with the state the review returned. *)
Theorem X11_forgotten_word_is_due (writable : bool) (now now' : float)
    (learning : LearningState) (w : string) (nb : NotebookStore.Store)
    (maxNewWords : option nat) :
  JS.validTime now ->
  (now <=? now')%float = true ->
  NotebookStore.hasWord w nb = true ->
  exists next e,
    calculateNextReview now learning GRADES.FORGOT = JS.Ok next /\
    In e (fst (NotebookStore.getWordsForLearning maxNewWords now'
                 (snd (NotebookStore.updateWordLearning writable w (toObject next) nb)))) /\
    NotebookStore.sameWord (Notebook.word e) w = true /\
    Notebook.learning e = Some (toObject next).
Proof.
  intros Hv Hle Hhas.
  exists (forgotten now learning).
  destruct (StoreFacts.updateWordLearning_words writable w
              (toObject (forgotten now learning)) nb)
    as [[Hno _]|[_ (l1 & x & l2 & Hnb & _ & Hx & Hr & _)]]; [congruence|].
  set (e := {| Notebook.word := Notebook.word x;
               Notebook.learning := Some (toObject (forgotten now learning)) |}) in *.
  exists e. split; [apply Regrade.calculateNextReview_forgotten; exact Hv|].
  split; [|split; [exact Hx|reflexivity]].
  unfold NotebookStore.getWordsForLearning, Notebook.getWordsForLearning. cbn [fst].
  rewrite Hr.
  destruct (Loops.notebook_selection now' (l1 ++ e :: l2)
              {| Notebook.dueWords := []; Notebook.newWords := [] |}) as [Hd _].
  rewrite Hd. cbn [Notebook.dueWords app].
  apply in_or_app. left. apply filter_In. split.
  - apply in_map_iff. exists e. split; [reflexivity|].
    apply in_or_app. right. left. reflexivity.
  - unfold entryTest, e. cbn [Notebook.learning].
    apply Regrade.forgotten_due. exact Hle.
Qed.

Lemma X11_forgotten_word_is_due_witness :
  exists next e,
    calculateNextReview sampleNow masteredState GRADES.FORGOT = JS.Ok next /\
    In e (fst (NotebookStore.getWordsForLearning (Some 0%nat) sampleNow
                 (snd (NotebookStore.updateWordLearning true "Dream" (toObject next)
                         {| NotebookStore.words := sampleNotebook;
                            NotebookStore.file := NotebookStore.Missing |})))) /\
    NotebookStore.sameWord (Notebook.word e) "Dream" = true /\
    Notebook.learning e = Some (toObject next).
Proof.
  apply (X11_forgotten_word_is_due true sampleNow sampleNow masteredState "Dream"
           {| NotebookStore.words := sampleNotebook;
              NotebookStore.file := NotebookStore.Missing |} (Some 0%nat)).
  - split; vm_compute; reflexivity.
  - vm_compute. reflexivity.
  - vm_compute. reflexivity.
Defined.

(** ** The CET store: writing and reading progress *)

(** X12: when the write succeeds, updateWordLearningState(category, w,
    state) followed by getWordLearningState(category, w') returns the state
    as JSON keeps it (the state itself when its numbers are finite) for every
    w' that differs from w only in letter case, unless the lower-cased word is
    __proto__ and the file has no record under that name: then the assignment
    writes no record and the lookup returns the inherited value.  The record
    of every other word is rewritten as JSON keeps it; the progress of the
    other category and the word lists are as before.  When the write fails
    the call raises. *)
Theorem X12_cet_update_then_lookup (data : CET.DataDir) (category : CET.Category)
    (w : string) (state : LearningObject) :
  let key := toLowerCase w in
  let progress := CET.getProgress data category in
  CETStore.updateWordLearningState false data category w state = CETStore.WriteFails /\
  exists data',
    CETStore.updateWordLearningState true data category w state = CETStore.Saved data' /\
    (forall w', toLowerCase w' = key ->
                CET.getWordLearningState data' category w' =
                match progress !! key with
                | None => if String.eqb key "__proto__" then emptyObject
                          else JSON.learning state
                | Some _ => JSON.learning state
                end) /\
    (JSON.exactNumber (o_easeFactor state) -> JSON.exactNumber (o_interval state) ->
     JSON.learning state = state) /\
    (forall w', toLowerCase w' <> key ->
                CET.getProgress data' category !! toLowerCase w' =
                JSON.learning <$> progress !! toLowerCase w') /\
    (forall c, c <> category -> CET.getProgress data' c = CET.getProgress data c) /\
    (forall c, CET.getWordList data' c = CET.getWordList data c).
Proof.
  intros key progress. split; [reflexivity|].
  eexists. split; [reflexivity|].
  unfold CET.getWordLearningState. rewrite Defaults.getProgress_withProgress.
  fold key progress.
  split; [|split; [|split; [|split]]].
  - intros w' Hw'. rewrite Hw', Regrade.get_json, Regrade.get_assign, String.eqb_refl.
    destruct (progress !! key); [reflexivity|].
    destruct (String.eqb key "__proto__"); reflexivity.
  - apply Regrade.learning_exact.
  - intros w' Hw'. rewrite lookup_fmap, Regrade.lookup_assign_ne by exact Hw'. reflexivity.
  - intros c Hc. unfold CET.getProgress, withProgress. simpl.
    destruct c, category; congruence.
  - intros c. reflexivity.
Qed.

(** X13: a word of an extracted list (other than one spelt __proto__) that
    is graded Forgot at a valid clock reading, with the returned state
    written through updateWordLearningState, is selected by
    getWordsForLearning of that category at every clock reading from then on,
    whatever the limit on new words is, with the state the review returned as
    JSON keeps it: its level is 1 and its review date the time of the
    review. *)
Theorem X13_cet_forgotten_word_is_due (now now' : float) (learning : LearningState)
    (data : CET.DataDir) (category : CET.Category) (ws : list CET.WordEntry)
    (we : CET.WordEntry) (maxNewWords : option nat) :
  JS.validTime now ->
  (now <=? now')%float = true ->
  CET.getWordList data category = Some ws ->
  In we ws ->
  toLowerCase (CET.word we) <> "__proto__"%string ->
  exists next data',
    calculateNextReview now learning GRADES.FORGOT = JS.Ok next /\
    CETStore.updateWordLearningState true data category (CET.word we) (toObject next) =
      CETStore.Saved data' /\
    In {| CET.entry := we; CET.learning := JSON.learning (toObject next) |}
       (CET.getWordsForLearning data' category maxNewWords now') /\
    o_level (JSON.learning (toObject next)) = Some 1%nat /\
    o_nextReviewAt (JSON.learning (toObject next)) = Some (Some now).
Proof.
  intros Hv Hle Hlist Hin Hkey.
  exists (forgotten now learning). eexists.
  split; [apply Regrade.calculateNextReview_forgotten; exact Hv|].
  split; [reflexivity|]. split; [|split; reflexivity].
  unfold CET.getWordsForLearning.
  change (CET.getWordList (withProgress data category ?p) category)
    with (CET.getWordList data category).
  rewrite Hlist, Defaults.getProgress_withProgress.
  set (progress := JSON.learning <$> _).
  destruct (Loops.cet_selection progress now' ws
              {| CET.dueWords := []; CET.newWords := [] |}) as [Hd _].
  rewrite Hd. cbn [CET.dueWords app].
  apply in_or_app. left. apply filter_In.
  assert (Hattach : attach progress we =
                    {| CET.entry := we;
                       CET.learning := JSON.learning (toObject (forgotten now learning)) |}).
  { unfold attach. f_equal. unfold progress, CET.learningOf.
    rewrite Regrade.get_json, Regrade.get_assign, String.eqb_refl.
    apply String.eqb_neq in Hkey. rewrite Hkey.
    destruct (_ !! _); reflexivity. }
  split.
  - apply in_map_iff. exists we. split; [exact Hattach|exact Hin].
  - cbn [CET.learning]. exact (Regrade.forgotten_due now now' learning Hle).
Qed.

Lemma X13_cet_forgotten_word_is_due_witness :
  exists next data',
    calculateNextReview sampleNow laterState GRADES.FORGOT = JS.Ok next /\
    CETStore.updateWordLearningState true sampleData CET.cet4 "Cabin" (toObject next) =
      CETStore.Saved data' /\
    In {| CET.entry := {| CET.word := "Cabin" |};
          CET.learning := JSON.learning (toObject next) |}
       (CET.getWordsForLearning data' CET.cet4 None sampleNow) /\
    o_level (JSON.learning (toObject next)) = Some 1%nat /\
    o_nextReviewAt (JSON.learning (toObject next)) = Some (Some sampleNow).
Proof.
  apply (X13_cet_forgotten_word_is_due sampleNow sampleNow laterState sampleData CET.cet4
           [{| CET.word := "Able" |}; {| CET.word := "baker" |};
            {| CET.word := "Cabin" |}; {| CET.word := "dozen" |}]
           {| CET.word := "Cabin" |} None).
  - split; vm_compute; reflexivity.
  - vm_compute. reflexivity.
  - reflexivity.
  - simpl. tauto.
  - vm_compute. discriminate.
Defined.

(** X14: the selection and the statistics of a category read the progress
    file only at the (lower-cased) words of the category's list: two data
    directories with the same list and the same progress for its words give
    the same selection and the same statistics, whatever else their progress
    files record. *)
Theorem X14_cet_reads_list_words_only (data data' : CET.DataDir)
    (category : CET.Category) (maxNewWords : option nat) (now : float) :
  CET.getWordList data category = CET.getWordList data' category ->
  (forall ws we,
     CET.getWordList data category = Some ws -> In we ws ->
     CET.getProgress data category !! toLowerCase (CET.word we) =
     CET.getProgress data' category !! toLowerCase (CET.word we)) ->
  CET.getWordsForLearning data category maxNewWords now =
    CET.getWordsForLearning data' category maxNewWords now /\
  CET.getLearningStats data category now = CET.getLearningStats data' category now.
Proof.
  intros Hlist Hprog. unfold CET.getWordsForLearning, CET.getLearningStats.
  rewrite <- Hlist. destruct (CET.getWordList data category) as [ws|]; [|split; reflexivity].
  assert (Hlearning : forall we, In we ws ->
            CET.learningOf (CET.getProgress data category) we =
            CET.learningOf (CET.getProgress data' category) we).
  { intros we Hin. unfold CET.learningOf, PlainObject.get.
    rewrite (Hprog ws we eq_refl Hin). reflexivity. }
  split.
  - rewrite (Regrade.fold_left_ext_in
               (CET.selectWord (CET.getProgress data category) now)
               (CET.selectWord (CET.getProgress data' category) now)); [reflexivity|].
    intros acc we Hin. unfold CET.selectWord. rewrite (Hlearning we Hin). reflexivity.
  - apply Regrade.fold_left_ext_in.
    intros acc we Hin. unfold CET.countWord. rewrite (Hlearning we Hin). reflexivity.
Qed.

Lemma X14_cet_reads_list_words_only_witness :
  CET.getLearningStats sampleData CET.cet4 sampleNow =
  CET.getLearningStats
    (withProgress sampleData CET.cet4
       (<["zebra" := toObject masteredState]> (CET.getProgress sampleData CET.cet4)))
    CET.cet4 sampleNow.
Proof.
  apply (X14_cet_reads_list_words_only sampleData
           (withProgress sampleData CET.cet4
              (<["zebra" := toObject masteredState]> (CET.getProgress sampleData CET.cet4)))
           CET.cet4 None sampleNow).
  - reflexivity.
  - intros ws we Hws Hin. injection Hws as <-.
    rewrite Defaults.getProgress_withProgress.
    rewrite lookup_insert_ne; [reflexivity|].
    simpl in Hin. destruct Hin as [<-|[<-|[<-|[<-|[]]]]]; vm_compute; discriminate.
Defined.

(** X26: a word of an extracted list whose lower-cased spelling names a
    property that every object inherits (constructor, __proto__) and that has
    no record in the progress file is not treated as a new word: the lookup
    finds the inherited value, so getWordLearningState returns an object
    without any of the seven properties instead of the default state, no
    selection contains the word, and in the statistics the word counts in
    the total only. *)
Theorem X26_inherited_names_not_new (data data' : CET.DataDir) (category : CET.Category)
    (ws : list CET.WordEntry) (we : CET.WordEntry) (maxNewWords : option nat)
    (now : float) :
  PlainObject.get (CET.getProgress data category) (toLowerCase (CET.word we)) =
    PlainObject.Inherited ->
  CET.getWordLearningState data category (CET.word we) = emptyObject /\
  emptyObject <> toObject DEFAULT_LEARNING /\
  (forall w, In w (CET.getWordsForLearning data category maxNewWords now) ->
             CET.entry w <> we) /\
  (CET.getWordList data category = Some ws ->
   CET.getWordList data' category = Some (ws ++ [we]) ->
   CET.getProgress data' category = CET.getProgress data category ->
   let stats := CET.getLearningStats data category now in
   CET.getLearningStats data' category now =
   {| total := S (total stats); byLevel := byLevel stats; dueToday := dueToday stats;
      newAvailable := newAvailable stats; mastered := mastered stats |}).
Proof.
  intros Hget.
  assert (Hlearning : CET.learningOf (CET.getProgress data category) we = emptyObject).
  { unfold CET.learningOf. rewrite Hget. reflexivity. }
  split; [unfold CET.getWordLearningState; rewrite Hget; reflexivity|].
  split; [discriminate|]. split.
  - intros w Hin Hentry. unfold CET.getWordsForLearning in Hin.
    destruct (CET.getWordList data category) as [words|]; [|contradiction].
    destruct (Loops.cet_selection (CET.getProgress data category) now words
                {| CET.dueWords := []; CET.newWords := [] |}) as [Hd Hn].
    rewrite Hd, Hn in Hin. cbn [CET.dueWords CET.newWords app] in Hin.
    assert (Hw : exists w0, In w0 words /\ w = attach (CET.getProgress data category) w0 /\
                            (isNew (CET.learning w) = true \/
                             reviewIsDue now (CET.learning w) = true)).
    { apply in_app_or in Hin as [Hin|Hin].
      - apply filter_In in Hin as [Hin Htest].
        apply in_map_iff in Hin as (w0 & <- & Hw0).
        exists w0. split; [exact Hw0|]. split; [reflexivity|].
        right. apply andb_true_iff in Htest. tauto.
      - apply In_firstn in Hin. apply filter_In in Hin as [Hin Htest].
        apply in_map_iff in Hin as (w0 & <- & Hw0).
        exists w0. split; [exact Hw0|]. split; [reflexivity|]. left. exact Htest. }
    destruct Hw as (w0 & _ & -> & Htest).
    cbn [attach CET.entry CET.learning] in Hentry, Htest. subst w0.
    rewrite Hlearning in Htest. destruct Htest; discriminate.
  - intros Hlist Hlist' Hprog stats. subst stats.
    unfold CET.getLearningStats. rewrite Hlist, Hlist', Hprog.
    rewrite fold_left_app, length_app. cbn [fold_left length].
    set (progress := CET.getProgress data category) in *.
    destruct (Counters.cet_counts progress now ws
                {| total := length ws; byLevel := repeat (Count 0) 6;
                   dueToday := 0; newAvailable := 0; mastered := Some 0%nat |})
      as (Ht & Hb & Hdu & Hn & Hm).
    destruct (Counters.cet_counts progress now ws
                {| total := (length ws + 1)%nat; byLevel := repeat (Count 0) 6;
                   dueToday := 0; newAvailable := 0; mastered := Some 0%nat |})
      as (Ht' & Hb' & Hdu' & Hn' & Hm').
    cbn [total byLevel dueToday newAvailable mastered] in *.
    unfold CET.countWord at 1. rewrite Hlearning.
    cbn [countLevel levelIs reviewIsDue emptyObject o_level o_nextReviewAt].
    rewrite Ht, Ht', Hb, Hb', Hdu, Hdu', Hn, Hn', Hm, Hm'.
    f_equal. lia.
Qed.

Lemma X26_inherited_names_not_new_witness :
  let list c := match c with
                | CET.cet4 => Some [{| CET.word := "Able" |}; {| CET.word := "Constructor" |}]
                | CET.cet6 => None
                end in
  let data := {| CET.wordListFile := list; CET.progressFile := fun _ => None |} in
  CET.getWordLearningState data CET.cet4 "Constructor" = emptyObject /\
  CET.getWordsForLearning data CET.cet4 None sampleNow =
    [{| CET.entry := {| CET.word := "Able" |};
        CET.learning := toObject DEFAULT_LEARNING |}].
Proof.
  intros list data. split; [|reflexivity].
  apply (X26_inherited_names_not_new data data CET.cet4 [] {| CET.word := "Constructor" |}
           None sampleNow).
  reflexivity.
Defined.

(** ** Input lines: trimming and splitting *)

Module Lines.

(** Evaluates the white-space test of a literal character. *)
Ltac literal_isWhiteSpace :=
  match goal with
  | |- context [isWhiteSpace (Ascii.Ascii ?b0 ?b1 ?b2 ?b3 ?b4 ?b5 ?b6 ?b7)] =>
      let c := constr:(Ascii.Ascii b0 b1 b2 b3 b4 b5 b6 b7) in
      let v := eval vm_compute in (isWhiteSpace c) in
      change (isWhiteSpace c) with v
  end.

Lemma lowerAscii_idempotent (c : Ascii.ascii) : lowerAscii (lowerAscii c) = lowerAscii c.
Proof. destruct c as [[] [] [] [] [] [] [] []]; vm_compute; reflexivity. Qed.

Lemma toLowerCase_idempotent (s : string) : toLowerCase (toLowerCase s) = toLowerCase s.
Proof.
  induction s as [|c s IH]; simpl; [reflexivity|].
  rewrite lowerAscii_idempotent, IH. reflexivity.
Qed.

Lemma append_nil (t : string) : ("" ++ t)%string = t.
Proof. reflexivity. Qed.

Lemma append_cons (c : Ascii.ascii) (s t : string) :
  (String c s ++ t)%string = String c (s ++ t).
Proof. reflexivity. Qed.

Lemma append_empty_r (s : string) : (s ++ "")%string = s.
Proof.
  induction s as [|c s IH]; [reflexivity|]. rewrite append_cons, IH. reflexivity.
Qed.

Lemma append_assoc (s t u : string) : ((s ++ t) ++ u)%string = (s ++ t ++ u)%string.
Proof.
  induction s as [|c s IH]; [reflexivity|]. rewrite !append_cons, IH. reflexivity.
Qed.

Lemma prefix_empty (s : string) : String.prefix "" s = true.
Proof. destruct s; reflexivity. Qed.

Lemma trimEnd_clean (s : string) :
  Commands.noWhiteSpace s = true -> trimEnd s = s.
Proof.
  induction s as [|c s IH]; simpl; [reflexivity|].
  intros H. apply andb_true_iff in H as [Hc Hs]. rewrite (IH Hs).
  destruct s; [|reflexivity]. apply negb_true_iff in Hc. rewrite Hc. reflexivity.
Qed.

(** Text that ends in a piece without white space has nothing to trim at
    its end. *)
Lemma trimEnd_app_clean (s1 s2 : string) :
  Commands.noWhiteSpace s2 = true -> s2 <> EmptyString ->
  trimEnd (s1 ++ s2) = (s1 ++ s2)%string.
Proof.
  intros Hclean Hne. induction s1 as [|c s1 IH].
  - apply trimEnd_clean. exact Hclean.
  - change (String c s1 ++ s2)%string with (String c (s1 ++ s2)).
    cbn [trimEnd]. rewrite IH. destruct (s1 ++ s2)%string eqn:E; [|reflexivity].
    destruct s1; [exact (False_ind _ (Hne E))|discriminate].
Qed.

Lemma split_clean_app (p t : string) :
  Commands.noWhiteSpace p = true ->
  splitWhiteSpace (p ++ t) =
  (p ++ fst (splitWhiteSpace t), snd (splitWhiteSpace t))%string.
Proof.
  intros Hp. induction p as [|c p IH].
  - rewrite !append_nil. destruct (splitWhiteSpace t); reflexivity.
  - simpl in Hp. apply andb_true_iff in Hp as [Hc Hp].
    rewrite !append_cons. cbn [splitWhiteSpace]. rewrite (IH Hp).
    apply negb_true_iff in Hc. rewrite Hc. reflexivity.
Qed.

Lemma split_arguments (args : list string) :
  Commands.arguments args ->
  splitWhiteSpace (fold_right (fun a rest => " " ++ a ++ rest) "" args)%string =
  (EmptyString, args).
Proof.
  induction 1 as [|a args (_ & Ha & Hne) _ IH]; [reflexivity|].
  cbn [fold_right]. set (tail := fold_right _ _ args) in *.
  rewrite append_cons, append_nil.
  cbn [splitWhiteSpace]. rewrite (split_clean_app a tail Ha), IH. cbn [fst snd].
  literal_isWhiteSpace. cbv iota.
  rewrite append_empty_r.
  destruct a as [|c a]; [congruence|].
  simpl in Ha. apply andb_true_iff in Ha as [Hc _]. apply negb_true_iff in Hc.
  rewrite append_cons, Hc. reflexivity.
Qed.

(** A command line as written by [commandLine] has nothing to trim. *)
Lemma trim_commandLine (cmd : string) (args : list string) :
  Commands.noWhiteSpace cmd = true -> Commands.arguments args ->
  trim (Commands.commandLine cmd args) = Commands.commandLine cmd args.
Proof.
  intros Hcmd Hargs. unfold trim, Commands.commandLine.
  rewrite append_cons, append_nil. cbn [trimStart].
  literal_isWhiteSpace. cbv iota.
  destruct args as [|a args].
  - cbn [fold_right]. rewrite append_empty_r.
    apply trimEnd_clean. simpl. exact Hcmd.
  - assert (Hlast : exists s1 s2,
               (cmd ++ fold_right (fun a rest => " " ++ a ++ rest) "" (a :: args))%string =
               (s1 ++ s2)%string /\
               Commands.noWhiteSpace s2 = true /\ s2 <> EmptyString).
    { clear Hcmd. revert cmd a Hargs. induction args as [|b args IH]; intros cmd a Hargs.
      - inversion Hargs as [|? ? (_ & Ha & Hne) _]; subst.
        exists (cmd ++ " ")%string, a. cbn [fold_right].
        rewrite append_empty_r, append_assoc. split; [reflexivity|split; assumption].
      - inversion Hargs as [|? ? _ Hrest]; subst.
        destruct (IH (cmd ++ " " ++ a)%string b Hrest) as (s1 & s2 & E & Hs2).
        exists s1, s2. split; [|exact Hs2]. rewrite <- E. cbn [fold_right].
        rewrite !append_assoc. reflexivity. }
    destruct Hlast as (s1 & s2 & E & Hclean & Hne). rewrite E.
    rewrite <- append_cons. apply (trimEnd_app_clean _ s2 Hclean Hne).
Qed.

(** Every value of [aliasMap] is a name of [COMMANDS]. *)
Lemma aliasMap_values :
  map_Forall (fun _ name => In name (map fst Commands.COMMANDS)) Commands.aliasMap.
Proof.
  unfold Commands.aliasMap. simpl.
  repeat (apply map_Forall_insert_2; [simpl; tauto|]).
  apply map_Forall_empty.
Qed.

Lemma isWhiteSpace_lower (c : Ascii.ascii) : isWhiteSpace (lowerAscii c) = isWhiteSpace c.
Proof. destruct c as [[] [] [] [] [] [] [] []]; vm_compute; reflexivity. Qed.

Lemma noWhiteSpace_lower (s : string) :
  Commands.noWhiteSpace (toLowerCase s) = Commands.noWhiteSpace s.
Proof.
  induction s as [|c s IH]; simpl; [reflexivity|].
  rewrite isWhiteSpace_lower, IH. reflexivity.
Qed.

(** Parsing a written command line. *)
Lemma parse_commandLine (cmd : string) (args : list string) :
  Commands.noWhiteSpace cmd = true ->
  Commands.arguments args ->
  Commands.parseInput (Commands.commandLine cmd args) =
  match Commands.resolveCommand cmd with
  | Some command => Commands.Command command args (Commands.commandLine cmd args)
  | None => Commands.UnknownCommand (toLowerCase cmd)
  end.
Proof.
  intros Hcmd Hargs. unfold Commands.parseInput.
  rewrite (trim_commandLine cmd args Hcmd Hargs).
  unfold Commands.commandLine at 1 2 3.
  rewrite !append_cons, !append_nil.
  cbn [String.eqb startsWith String.prefix slice].
  destruct (Ascii.ascii_dec _ _) as [_|Hne]; [|congruence].
  rewrite prefix_empty.
  rewrite (split_clean_app cmd _ Hcmd), (split_arguments args Hargs).
  cbn [fst snd]. rewrite append_empty_r.
  unfold Commands.resolveCommand. rewrite toLowerCase_idempotent.
  reflexivity.
Qed.

End Lines.

(** ** Commands: what the parser accepts *)

(** X15: whatever the input line, a command that parseInput returns is one
    of the seven names of COMMANDS: search, notebook, help, quit, history,
    clear, learn.  The cases cet4, cet6 and progress of executeCommand are
    therefore never reached from the parser: a line /cet4, /cet6 or /progress,
    in any letter case and with any arguments, parses as an unknown
    command. *)
Theorem X15_commands_closed :
  (forall (input command : string) (args : list string) (raw : string),
     Commands.parseInput input = Commands.Command command args raw ->
     In command ["search"; "notebook"; "help"; "quit"; "history"; "clear"; "learn"]%string /\
     raw = trim input) /\
  (forall (typed : string) (args : list string),
     In (toLowerCase typed) ["cet4"; "cet6"; "progress"]%string ->
     Commands.arguments args ->
     Commands.parseInput (Commands.commandLine typed args) =
     Commands.UnknownCommand (toLowerCase typed)).
Proof.
  split.
  - intros input command args raw Hparse. unfold Commands.parseInput in Hparse.
    destruct (String.eqb (trim input) ""); [discriminate|].
    destruct (startsWith "/" (trim input)); [|discriminate].
    destruct (splitWhiteSpace (slice 1 (trim input))) as [part0 rest].
    unfold Commands.resolveCommand in Hparse.
    destruct (Commands.aliasMap !! toLowerCase (toLowerCase part0)) as [name|] eqn:E;
      [|discriminate].
    injection Hparse as <- <- <-.
    split; [exact (Lines.aliasMap_values _ _ E)|reflexivity].
  - intros typed args Htyped Hargs.
    assert (Hclean : Commands.noWhiteSpace typed = true).
    { rewrite <- Lines.noWhiteSpace_lower.
      simpl in Htyped. destruct Htyped as [<-|[<-|[<-|[]]]]; reflexivity. }
    rewrite (Lines.parse_commandLine typed args Hclean Hargs).
    unfold Commands.resolveCommand.
    simpl in Htyped. destruct Htyped as [<-|[<-|[<-|[]]]]; reflexivity.
Qed.

(** X16: parsing a written command line gives the command back.  For a
    command word and arguments of ASCII text without white space (the
    arguments not empty), parseInput of "/cmd arg1 ... argn" is the command the word
    resolves to, with exactly those arguments and the line as raw text, or
    an unknown command carrying the lower-cased word when it resolves to
    nothing. *)
Theorem X16_parse_commandLine (cmd : string) (args : list string) :
  isAscii cmd = true ->
  Commands.noWhiteSpace cmd = true ->
  Commands.arguments args ->
  Commands.parseInput (Commands.commandLine cmd args) =
  match Commands.resolveCommand cmd with
  | Some command => Commands.Command command args (Commands.commandLine cmd args)
  | None => Commands.UnknownCommand (toLowerCase cmd)
  end.
Proof. intros _. exact (Lines.parse_commandLine cmd args). Qed.

Lemma X16_parse_commandLine_witness :
  Commands.parseInput "/S take off" =
  Commands.Command "search" ["take"; "off"]%string "/S take off".
Proof.
  apply (X16_parse_commandLine "S" ["take"; "off"]%string).
  - reflexivity.
  - reflexivity.
  - repeat constructor; discriminate.
Defined.

(** X17: every name of COMMANDS and every alias in its list resolves to
    that name, in whatever letter case it is typed (no alias is taken by
    another command). *)
Theorem X17_aliases_resolve (name : string) (config : Commands.Config) (typed : string) :
  In (name, config) Commands.COMMANDS ->
  In (toLowerCase typed) (name :: Commands.aliases config) ->
  Commands.resolveCommand typed = Some name.
Proof.
  intros Hcmd Halias. unfold Commands.resolveCommand.
  simpl in Hcmd.
  repeat (destruct Hcmd as [Hcmd|Hcmd];
          [injection Hcmd as <- <-; simpl in Halias;
           repeat (destruct Halias as [<-|Halias]; [vm_compute; reflexivity|]);
           destruct Halias|]).
  destruct Hcmd.
Qed.

Lemma X17_aliases_resolve_witness :
  Commands.resolveCommand "EXIT" = Some "quit"%string.
Proof.
  apply (X17_aliases_resolve "quit"
           {| Commands.aliases := ["q"; "exit"]%string;
              Commands.description := "Exit the application";
              Commands.usage := "/quit, /exit, or /q";
              Commands.requiresArgs := false |} "EXIT").
  - simpl. tauto.
  - simpl. tauto.
Defined.

(** ** The search history *)

Module HistoryFacts.

Lemma addToHistory_step (word : string) (h : list string) :
  (length h <= 10)%nat -> NoDup (map toLowerCase h) ->
  (length (Dictionary.addToHistory word h) <= 10)%nat /\
  NoDup (map toLowerCase (Dictionary.addToHistory word h)) /\
  head (Dictionary.addToHistory word h) = Some word /\
  (forall w, In w (Dictionary.addToHistory word h) -> w = word \/ In w h).
Proof.
  intros Hlen Hnd. unfold Dictionary.addToHistory.
  set (kept := List.filter _ h).
  assert (Hnd' : NoDup (map toLowerCase (word :: kept))).
  { simpl. apply NoDup_cons_2.
    - rewrite list_elem_of_In, in_map_iff. intros (w & Hw & Hin).
      apply filter_In in Hin as [_ Hne]. apply negb_true_iff in Hne.
      apply String.eqb_neq in Hne. congruence.
    - apply (StoreFacts.NoDup_filter_map toLowerCase). exact Hnd. }
  assert (Hin : forall w, In w (word :: kept) -> w = word \/ In w h).
  { intros w [<-|Hw]; [left; reflexivity|]. right. apply filter_In in Hw. tauto. }
  destruct (Nat.ltb 10 (length (word :: kept))) eqn:E.
  - split; [rewrite length_firstn; lia|]. split; [|split].
    + rewrite <- firstn_map.
      apply (sublist_NoDup _ (map toLowerCase (word :: kept))); [exact Hnd'|].
      apply sublist_take.
    + reflexivity.
    + intros w Hw. apply Hin. eapply (In_firstn 10). exact Hw.
  - apply Nat.ltb_ge in E. split; [exact E|]. split; [exact Hnd'|]. split; [reflexivity|].
    exact Hin.
Qed.

End HistoryFacts.

(** X18: whatever words are looked up, in whatever order, the search
    history never holds more than 10 words, never holds the same word twice
    (letter case apart), holds only words that were looked up, and starts
    with the word looked up last. *)
Theorem X18_history_bounded (added : list string) :
  let h := Dictionary.historyOf added in
  (length h <= 10)%nat /\
  NoDup (map toLowerCase h) /\
  (forall w, In w h -> In w added) /\
  head h = last added.
Proof.
  unfold Dictionary.historyOf.
  induction added as [|w added IH] using rev_ind.
  - simpl. repeat split; [lia|constructor|tauto].
  - rewrite fold_left_app. simpl.
    destruct IH as (Hlen & Hnd & Hin & _).
    destruct (HistoryFacts.addToHistory_step w _ Hlen Hnd) as (Hlen' & Hnd' & Hhead & Hin').
    split; [exact Hlen'|]. split; [exact Hnd'|]. split.
    + intros v Hv. apply in_or_app. destruct (Hin' v Hv) as [->|Hold].
      * right. left. reflexivity.
      * left. apply Hin. exact Hold.
    + rewrite Hhead, last_snoc. reflexivity.
Qed.

(** ** The learning session under any calls *)

Module SessionInvariant.
Section WithWords.
Context {Word : Type} (wordOf : Word -> string).

Lemma firstn_S_nth_error {A} (l : list A) (n : nat) (x : A) :
  nth_error l n = Some x -> firstn (S n) l = firstn n l ++ [x].
Proof.
  revert n. induction l as [|y l IH]; intros [|n] H; simpl in *; try discriminate.
  - injection H as ->. reflexivity.
  - rewrite <- (IH n H). reflexivity.
Qed.

Lemma call_consistent (ws : list Word) (s : @Session.LearningSession Word)
    (c : SessionCalls.Call) :
  SessionCalls.consistent wordOf ws s ->
  SessionCalls.consistent wordOf ws (SessionCalls.call wordOf s c).
Proof.
  intros (Hw & Hi & Hle & Hr). destruct c as [|g]; simpl.
  - repeat split; assumption.
  - unfold Session.recordGrade, Session.currentWord.
    destruct (nth_error (Session.words s) (Session.currentIndex s)) as [w|] eqn:E;
      simpl; [|repeat split; assumption].
    assert (Hlt : (Session.currentIndex s < length ws)%nat).
    { rewrite <- Hw. apply nth_error_Some. congruence. }
    repeat split; cbn [Session.words Session.currentIndex Session.results].
    + exact Hw.
    + rewrite length_app. simpl. lia.
    + lia.
    + rewrite map_app, Hr. simpl.
      symmetry. apply firstn_S_nth_error.
      rewrite nth_error_map, <- Hw, E. reflexivity.
Qed.

End WithWords.
End SessionInvariant.

(** X19: through every sequence of reveal and recordGrade calls on a new
    LearningSession (calls of recordGrade that raise included), the words
    stay as given, currentIndex is the number of results and never exceeds
    the number of words, and the results name exactly the words before
    currentIndex, in order: each word is graded at most once and none is
    skipped.  In the progress, reviewed is current - 1 and correct never
    exceeds reviewed. *)
Theorem X19_session_invariant {Word : Type} (wordOf : Word -> string)
    (ws : list Word) (cs : list SessionCalls.Call) :
  let s := SessionCalls.calls wordOf cs (Session.create ws) in
  Session.words s = ws /\
  Session.currentIndex s = length (Session.results s) /\
  (Session.currentIndex s <= length ws)%nat /\
  map Session.result_word (Session.results s) =
    firstn (Session.currentIndex s) (map wordOf ws) /\
  (Session.progress_reviewed (Session.progress s) + 1)%nat =
    Session.current (Session.progress s) /\
  (Session.progress_correct (Session.progress s) <=
   Session.progress_reviewed (Session.progress s))%nat.
Proof.
  intros s.
  assert (Hc : SessionCalls.consistent wordOf ws s).
  { unfold s, SessionCalls.calls.
    assert (H0 : SessionCalls.consistent wordOf ws (Session.create ws)).
    { repeat split. simpl. lia. }
    revert H0. generalize (Session.create ws).
    induction cs as [|c cs IH]; intros s0 H0; simpl; [exact H0|].
    apply IH. apply SessionInvariant.call_consistent. exact H0. }
  destruct Hc as (Hw & Hi & Hle & Hr).
  repeat split; try assumption.
  - unfold Session.progress. simpl. lia.
  - unfold Session.progress. simpl. apply List.filter_length_le.
Qed.

(** ** The REPL: what the handlers keep *)

Module ReplFacts.
Import REPL.


















End ReplFacts.

(** ** The REPL: lines typed at a flashcard *)

Module CardFacts.
Import REPL.

Lemma trimEnd_head (c : Ascii.ascii) (s : string) :
  isWhiteSpace c = false -> exists r, trimEnd (String c s) = String c r.
Proof.
  intros Hc. simpl. destruct (trimEnd s); [|eexists; reflexivity].
  rewrite Hc. eexists. reflexivity.
Qed.

(** A trimmed line is empty or starts with a character that is not white
    space. *)
Lemma trim_head (s : string) :
  trim s = EmptyString \/
  exists c r, trim s = String c r /\ isWhiteSpace c = false.
Proof.
  unfold trim. induction s as [|c s IH]; simpl; [left; reflexivity|].
  destruct (isWhiteSpace c) eqn:Hc; [exact IH|].
  right. destruct (trimEnd_head c s Hc) as (r & Hr).
  exists c, r. split; assumption.
Qed.

(** No line reads as a single space once trimmed and lower-cased. *)
Lemma typed_not_space (input : string) : toLowerCase (trim input) <> " "%string.
Proof.
  destruct (trim_head input) as [->|(c & r & -> & Hc)]; [discriminate|].
  simpl. intros H. injection H as H _.
  rewrite <- Lines.isWhiteSpace_lower, H in Hc. discriminate.
Qed.

Lemma grades (grade : Z) :
  1 <= grade <= 4 -> grade = 1 \/ grade = 2 \/ grade = 3 \/ grade = 4.
Proof. lia. Qed.

(** At the back of a card, the key of a grade grades the current word. *)
Lemma grade_line (st : State) (now : float) (writable shown : bool) (grade : Z) :
  1 <= grade <= 4 ->
  pendingSelection st = Session.FLASHCARD_BACK ->
  step st (Line now writable shown (gradeKey grade)) =
  gradeCurrentWord now writable grade st.
Proof.
  intros Hg Hp. unfold step, handleInput, handleSelection. rewrite Hp.
  destruct (grades grade Hg) as [-> | [-> | [-> | ->]]]; reflexivity.
Qed.

(** At the front of a card, Enter reveals it. *)
Lemma reveal_line (st : State) (now : float) (writable shown : bool) :
  pendingSelection st = Session.FLASHCARD_FRONT ->
  step st (Line now writable shown "") = handleFlashcardFrontSelection shown "" st.
Proof. intros Hp. unfold step, handleInput, handleSelection. rewrite Hp. reflexivity. Qed.

(** What a grade that returns has done. *)
Lemma gradeCurrentWord_returns (now : float) (writable : bool) (grade : Z)
    (st st1 : State) :
  gradeCurrentWord now writable grade st = Returns st1 ->
  exists s word learning next,
    learningSession st = Some s /\
    Session.currentWord s = Some word /\
    Notebook.learning word ≫= fromObject = Some learning /\
    calculateNextReview now learning grade = JS.Ok next /\
    st1 = setTimers (S (timers st))
            (setLearningSession
               (Some {| Session.words := Session.words s;
                        Session.currentIndex := S (Session.currentIndex s);
                        Session.results :=
                          Session.results s ++
                          [{| Session.result_word := Notebook.word word;
                              Session.grade := grade;
                              Session.wasRevealed := Session.revealed s |}];
                        Session.revealed := false |})
               (setNotebook
                  (snd (NotebookStore.updateWordLearning writable (Notebook.word word)
                          (toObject next) (notebook st))) st)).
Proof.
  unfold gradeCurrentWord. intros H.
  destruct (learningSession st) as [s|]; [|discriminate].
  destruct (Session.currentWord s) as [word|] eqn:Hw; [|discriminate].
  destruct (Notebook.learning word) as [o|] eqn:Ho; [|discriminate].
  destruct (fromObject o) as [learning|] eqn:Hl; [|discriminate].
  destruct (calculateNextReview now learning grade) as [next|e] eqn:Hcall; [|discriminate].
  exists s, word, learning, next. repeat split; try assumption.
  - rewrite Ho. exact Hl.
  - injection H as <-. unfold Session.recordGrade. rewrite Hw. reflexivity.
Qed.

End CardFacts.



(** X21: a line of ASCII text that does not start with a slash (after
    trimming) and that the pending selection does not recognise changes
    nothing: at the menu anything but s and b, at the front of a card
    anything but an empty line, at the back anything but e and a number that
    parseInt reads as 1, 2, 3 or 4.  At the summary every such line ends the
    session. *)
Theorem X21_unrecognised_line_ignored (st : REPL.State) (now : float)
    (writable shown : bool) (input : string) :
  let typed := toLowerCase (trim input) in
  isAscii input = true ->
  startsWith "/" typed = false ->
  match REPL.pendingSelection st with
  | Session.NONE => True
  | Session.LEARN_MENU =>
      typed <> "s"%string -> typed <> "b"%string ->
      REPL.step st (REPL.Line now writable shown input) = REPL.Returns st
  | Session.FLASHCARD_FRONT =>
      typed <> ""%string ->
      REPL.step st (REPL.Line now writable shown input) = REPL.Returns st
  | Session.FLASHCARD_BACK =>
      typed <> "e"%string ->
      (forall grade, parseInt typed = Some grade -> grade < 1 \/ 4 < grade) ->
      REPL.step st (REPL.Line now writable shown input) = REPL.Returns st
  | Session.SESSION_COMPLETE =>
      REPL.step st (REPL.Line now writable shown input) =
      REPL.Returns (REPL.clearSelection (REPL.setLearningSession None st))
  end.
Proof.
  intros typed _ Hslash.
  destruct (REPL.pendingSelection st) eqn:Hp; [exact I| | | |];
    unfold REPL.step, REPL.handleInput, REPL.handleSelection; rewrite Hp;
    fold typed; rewrite Hslash.
  - intros Hs Hb. unfold REPL.handleLearnMenuSelection.
    apply String.eqb_neq in Hs, Hb. rewrite Hs, Hb. reflexivity.
  - intros He. unfold REPL.handleFlashcardFrontSelection.
    pose proof (CardFacts.typed_not_space input) as Hsp. fold typed in Hsp.
    apply String.eqb_neq in He, Hsp. rewrite He, Hsp. reflexivity.
  - intros He Hgrade. unfold REPL.handleFlashcardBackSelection.
    apply String.eqb_neq in He. rewrite He.
    destruct (parseInt typed) as [grade|]; [|reflexivity].
    destruct (Hgrade grade eq_refl) as [Hlow|Hhigh].
    + replace (GRADES.FORGOT <=? grade) with false; [reflexivity|].
      symmetry. apply Z.leb_gt. exact Hlow.
    + replace (grade <=? GRADES.EASY) with false; [rewrite andb_false_r; reflexivity|].
      symmetry. apply Z.leb_gt. exact Hhigh.
  - reflexivity.
Qed.

Lemma X21_unrecognised_line_ignored_witness :
  let st := REPL.setPendingSelection Session.FLASHCARD_BACK
              (REPL.start sampleNow {| NotebookStore.words := sampleNotebook;
                                       NotebookStore.file := NotebookStore.Missing |}) in
  REPL.step st (REPL.Line sampleNow true true "  5 ") = REPL.Returns st.
Proof.
  apply (X21_unrecognised_line_ignored
           (REPL.setPendingSelection Session.FLASHCARD_BACK
              (REPL.start sampleNow {| NotebookStore.words := sampleNotebook;
                                       NotebookStore.file := NotebookStore.Missing |}))
           sampleNow true true "  5 ").
  - reflexivity.
  - reflexivity.
  - discriminate.
  - intros grade Hgrade. vm_compute in Hgrade. injection Hgrade as <-. lia.
Defined.

(** X22: a grade typed at the back of a card is recorded for the current
    word (with the state calculateNextReview returns for it written to the
    notebook), moves the session to the following card and leaves the REPL
    at the back of a card with one more timer pending.  A second grade typed
    before the timer fires is therefore taken for the following card, which
    was never shown: it is recorded for that word with wasRevealed false and
    the session moves on again; when there is no following card the handler
    raises a TypeError.  (The following card is of another word than the one
    just graded, so that its state is the one it was selected with.) *)
Theorem X22_grade_before_timer (st st1 : REPL.State) (now now' : float)
    (writable writable' shown shown' : bool) (grade grade' : Z) :
  REPL.pendingSelection st = Session.FLASHCARD_BACK ->
  1 <= grade <= 4 ->
  1 <= grade' <= 4 ->
  REPL.step st (REPL.Line now writable shown (REPL.gradeKey grade)) = REPL.Returns st1 ->
  exists s word learning next,
    REPL.learningSession st = Some s /\
    Session.currentWord s = Some word /\
    Notebook.learning word ≫= REPL.fromObject = Some learning /\
    calculateNextReview now learning grade = JS.Ok next /\
    let s1 := {| Session.words := Session.words s;
                 Session.currentIndex := S (Session.currentIndex s);
                 Session.results :=
                   Session.results s ++
                   [{| Session.result_word := Notebook.word word;
                       Session.grade := grade;
                       Session.wasRevealed := Session.revealed s |}];
                 Session.revealed := false |} in
    REPL.learningSession st1 = Some s1 /\
    REPL.notebook st1 =
      snd (NotebookStore.updateWordLearning writable (Notebook.word word)
             (toObject next) (REPL.notebook st)) /\
    REPL.pendingSelection st1 = Session.FLASHCARD_BACK /\
    REPL.timers st1 = S (REPL.timers st) /\
    match nth_error (Session.words s) (S (Session.currentIndex s)) with
    | None =>
        REPL.step st1 (REPL.Line now' writable' shown' (REPL.gradeKey grade')) =
        REPL.Raises JS.TypeError st1
    | Some word1 =>
        NotebookStore.sameWord (Notebook.word word1) (Notebook.word word) = false ->
        forall st2,
          REPL.step st1 (REPL.Line now' writable' shown' (REPL.gradeKey grade')) =
            REPL.Returns st2 ->
          REPL.learningSession st2 =
            Some {| Session.words := Session.words s;
                    Session.currentIndex := S (S (Session.currentIndex s));
                    Session.results :=
                      Session.results s1 ++
                      [{| Session.result_word := Notebook.word word1;
                          Session.grade := grade';
                          Session.wasRevealed := false |}];
                    Session.revealed := false |} /\
          REPL.pendingSelection st2 = Session.FLASHCARD_BACK /\
          REPL.timers st2 = S (S (REPL.timers st))
    end.
Proof.
  intros Hp Hg Hg' Hstep.
  rewrite (CardFacts.grade_line st now writable shown grade Hg Hp) in Hstep.
  apply CardFacts.gradeCurrentWord_returns in Hstep
    as (s & word & learning & next & Hsession & Hword & Hlearning & Hcall & ->).
  exists s, word, learning, next.
  split; [exact Hsession|]. split; [exact Hword|]. split; [exact Hlearning|].
  split; [exact Hcall|]. intros s1.
  split; [reflexivity|]. split; [reflexivity|]. split; [exact Hp|]. split; [reflexivity|].
  set (st1 := REPL.setTimers _ _).
  assert (Hp1 : REPL.pendingSelection st1 = Session.FLASHCARD_BACK) by exact Hp.
  assert (Hs1 : REPL.learningSession st1 = Some s1) by reflexivity.
  assert (Ht1 : REPL.timers st1 = S (REPL.timers st)) by reflexivity.
  rewrite (CardFacts.grade_line st1 now' writable' shown' grade' Hg' Hp1).
  assert (Hcur : Session.currentWord s1 =
                 nth_error (Session.words s) (S (Session.currentIndex s))).
  { unfold Session.currentWord, s1. cbn [Session.words Session.currentIndex].
    destruct (nth_error _ _); reflexivity. }
  clearbody st1.
  destruct (nth_error (Session.words s) (S (Session.currentIndex s))) as [word1|] eqn:Hnext.
  - intros _ st2 Hstep2.
    apply CardFacts.gradeCurrentWord_returns in Hstep2
      as (s' & word' & learning' & next' & Hsession' & Hword' & _ & _ & ->).
    assert (s' = s1) as -> by congruence.
    assert (word' = word1) as -> by congruence.
    split; [reflexivity|]. split; [exact Hp1|].
    cbn [REPL.timers REPL.setTimers]. rewrite Ht1. reflexivity.
  - unfold REPL.gradeCurrentWord. rewrite Hs1, Hcur. reflexivity.
Qed.

Lemma X22_grade_before_timer_witness :
  let nb := {| NotebookStore.words := [saved "bread" dueState; saved "apple" DEFAULT_LEARNING];
               NotebookStore.file := NotebookStore.Missing |} in
  let st := REPL.setLearningSession
              (Some (Session.reveal (Session.create (NotebookStore.words nb))))
              (REPL.setPendingSelection Session.FLASHCARD_BACK (REPL.start sampleNow nb)) in
  exists st1 st2 s2,
    REPL.step st (REPL.Line sampleNow true true "3") = REPL.Returns st1 /\
    REPL.step st1 (REPL.Line sampleNow true true "1") = REPL.Returns st2 /\
    REPL.learningSession st2 = Some s2 /\
    map Session.wasRevealed (Session.results s2) = [true; false] /\
    Session.isComplete s2 = true.
Proof.
  intros nb st.
  destruct (REPL.step st (REPL.Line sampleNow true true "3")) as [st1| | | |] eqn:Hstep;
    try (exfalso; vm_compute in Hstep; discriminate).
  destruct (REPL.step st1 (REPL.Line sampleNow true true "1")) as [st2| | | |] eqn:Hstep2;
    try (exfalso; vm_compute in Hstep; injection Hstep as <-;
         vm_compute in Hstep2; discriminate).
  destruct (X22_grade_before_timer st st1 sampleNow sampleNow true true true true 3 1)
    as (s & word & learning & next & Hs & Hword & _ & _ & _ & _ & _ & _ & Hnext);
    try reflexivity; try lia; try exact Hstep.
  injection Hs as <-. injection Hword as <-.
  change (nth_error _ _) with (Some (saved "apple" DEFAULT_LEARNING)) in Hnext.
  cbv iota in Hnext.
  assert (Hother : NotebookStore.sameWord "apple" "bread" = false)
    by (vm_compute; reflexivity).
  destruct (Hnext Hother st2 Hstep2) as (Hs2 & _ & _).
  eexists st1, st2, _. split; [reflexivity|]. split; [exact Hstep2|].
  split; [exact Hs2|]. split; reflexivity.
Defined.

(** ** The REPL: a whole drill, and what reaches the file *)

Module DrillFacts.
Import REPL.

(** The cards from the current one on, graded one after the other: the
    session ends complete, with the results and the notebook of
    [gradeCards]. *)
Lemma drill_run (rest : list Notebook.Entry) :
  forall (cards : list Card) (pre : list Notebook.Entry)
         (results0 : list Session.Result) (st : State)
         (nb' : NotebookStore.Store) (results : list Session.Result),
    rest <> [] ->
    pendingSelection st = Session.FLASHCARD_FRONT ->
    learningSession st =
      Some {| Session.words := pre ++ rest; Session.currentIndex := length pre;
              Session.results := results0; Session.revealed := false |} ->
    timers st = 0%nat ->
    length cards = length rest ->
    Forall (fun c => 1 <= cardGrade c <= 4) cards ->
    gradeCards rest cards (notebook st) = Some (nb', results) ->
    run (drill cards) st =
    Returns {| notebook := nb';
               pendingSelection := Session.SESSION_COMPLETE;
               selectionData := selectionData st;
               learningSession :=
                 Some {| Session.words := pre ++ rest;
                         Session.currentIndex := length (pre ++ rest);
                         Session.results := results0 ++ results;
                         Session.revealed := false |};
               timers := 0 |}.
Proof.
  induction rest as [|w rest IH]; intros cards pre results0 st nb' results
    Hne Hp Hsession Htimers Hlen Hgrades Hcards; [congruence|].
  destruct cards as [|c cards]; [discriminate|].
  inversion Hgrades as [|? ? Hg Hgrades']; subst.
  cbn [gradeCards] in Hcards. unfold cardReview in Hcards.
  destruct (Notebook.learning w ≫= fromObject) as [learning|] eqn:Hlearning;
    [|discriminate].
  destruct (calculateNextReview (cardNow c) learning (cardGrade c)) as [next|e] eqn:Hcall;
    [|discriminate].
  set (nb1 := snd (NotebookStore.updateWordLearning (cardWritable c) (Notebook.word w)
                     (toObject next) (notebook st))) in *.
  destruct (gradeCards rest cards nb1) as [[nb2 results2]|] eqn:Hrest; [|discriminate].
  injection Hcards as <- <-.
  assert (Hcur : forall results revealed,
             Session.currentWord
               {| Session.words := pre ++ w :: rest; Session.currentIndex := length pre;
                  Session.results := results; Session.revealed := revealed |} = Some w).
  { intros. unfold Session.currentWord. cbn [Session.words Session.currentIndex].
    rewrite nth_error_app2 by lia. rewrite Nat.sub_diag. reflexivity. }
  (* Enter reveals the card *)
  cbn [drill flat_map app run].
  rewrite (CardFacts.reveal_line st _ _ _ Hp).
  unfold handleFlashcardFrontSelection. cbn [String.eqb orb]. rewrite Hsession.
  unfold Session.reveal.
  cbn [Session.words Session.currentIndex Session.results Session.revealed].
  rewrite Hcur. cbv iota.
  (* the grade *)
  match goal with |- context [step ?st1 (Line _ _ _ (gradeKey _))] => set (sta := st1) end.
  rewrite (CardFacts.grade_line sta _ _ _ _ Hg eq_refl).
  unfold gradeCurrentWord.
  cbn [sta learningSession setPendingSelection setLearningSession].
  rewrite Hcur.
  destruct (Notebook.learning w) as [o|]; [|discriminate].
  cbn [mbind option_bind] in Hlearning. rewrite Hlearning, Hcall.
  unfold Session.recordGrade. rewrite Hcur. cbn [snd].
  cbn [Session.words Session.currentIndex Session.results Session.revealed].
  (* the timer *)
  cbn [step timers setTimers].
  subst sta.
  unfold showCurrentFlashcard, setTimers, setLearningSession, setNotebook,
    setPendingSelection.
  cbn [timers notebook pendingSelection selectionData learningSession].
  rewrite Htimers.
  unfold Session.showCurrentFlashcard, Session.isComplete.
  cbn [Session.words Session.currentIndex].
  fold nb1.
  destruct rest as [|w' rest].
  - (* the last card *)
    destruct cards; [|discriminate]. cbn [gradeCards] in Hrest.
    injection Hrest as <- <-.
    assert (Hdone : Nat.leb (length (pre ++ [w])) (S (length pre)) = true).
    { apply Nat.leb_le. rewrite length_app. simpl. lia. }
    rewrite Hdone. cbn [flat_map run].
    rewrite length_app. simpl length. rewrite Nat.add_1_r. reflexivity.
  - assert (Hmore : Nat.leb (length (pre ++ w :: w' :: rest)) (S (length pre)) = false).
    { apply Nat.leb_gt. rewrite length_app. simpl. lia. }
    rewrite Hmore.
    match goal with |- run _ ?st1 = _ => set (stb := st1) end.
    change (run (drill cards) stb = Returns
              {| notebook := nb2;
                 pendingSelection := Session.SESSION_COMPLETE;
                 selectionData := selectionData st;
                 learningSession :=
                   Some {| Session.words := pre ++ w :: w' :: rest;
                           Session.currentIndex := length (pre ++ w :: w' :: rest);
                           Session.results := results0 ++ cardResult w c :: results2;
                           Session.revealed := false |};
                 timers := 0 |}).
    assert (Hwords : pre ++ w :: w' :: rest = (pre ++ [w]) ++ w' :: rest)
      by (rewrite <- app_assoc; reflexivity).
    assert (Hindex : S (length pre) = length (pre ++ [w]))
      by (rewrite length_app; simpl; lia).
    rewrite (IH cards (pre ++ [w]) (results0 ++ [cardResult w c]) stb nb2 results2).
    + cbn [stb selectionData]. rewrite <- Hwords, <- app_assoc. reflexivity.
    + discriminate.
    + reflexivity.
    + cbn [stb learningSession]. rewrite <- Hwords, <- Hindex. reflexivity.
    + reflexivity.
    + simpl in Hlen. simpl. lia.
    + exact Hgrades'.
    + exact Hrest.
Qed.

(** In a notebook without two entries for one word, two entries that
    compare equal as words are one entry. *)
Lemma distinct_same (ws : list Notebook.Entry) (a b : Notebook.Entry) :
  NotebookStore.distinctWords ws -> In a ws -> In b ws ->
  NotebookStore.sameWord (Notebook.word a) (Notebook.word b) = true -> a = b.
Proof.
  unfold NotebookStore.distinctWords. intros Hd Ha Hb Hsame.
  apply StoreFacts.sameWord_eq in Hsame.
  induction ws as [|x ws IH]; [contradiction|].
  simpl in Hd. apply NoDup_cons in Hd as [Hx Hd].
  assert (Hout : forall e, In e ws ->
                   toLowerCase (Notebook.word x) <> toLowerCase (Notebook.word e)).
  { intros e He Heq. apply Hx. apply list_elem_of_In. apply in_map_iff.
    exists e. split; [symmetry; exact Heq|exact He]. }
  destruct Ha as [<-|Ha], Hb as [<-|Hb].
  - reflexivity.
  - exfalso. exact (Hout b Hb Hsame).
  - exfalso. apply (Hout a Ha). symmetry. exact Hsame.
  - apply IH; assumption.
Qed.

(** Updating the word of an entry of such a notebook changes that entry. *)
Lemma update_member (writable : bool) (w : Notebook.Entry) (o : LearningObject)
    (nb : NotebookStore.Store) :
  NotebookStore.distinctWords (NotebookStore.words nb) ->
  In w (NotebookStore.words nb) ->
  exists l1 l2,
    NotebookStore.words nb = l1 ++ w :: l2 /\
    NotebookStore.words
      (snd (NotebookStore.updateWordLearning writable (Notebook.word w) o nb)) =
      l1 ++ {| Notebook.word := Notebook.word w; Notebook.learning := Some o |} :: l2.
Proof.
  intros Hd Hin.
  destruct (StoreFacts.updateWordLearning_words writable (Notebook.word w) o nb)
    as [[Hno _]|[_ (l1 & x & l2 & Hnb & _ & Hx & Hr & _)]].
  - exfalso. unfold NotebookStore.hasWord in Hno.
    assert (Hyes : existsb (fun e => NotebookStore.sameWord (Notebook.word e) (Notebook.word w))
                     (NotebookStore.words nb) = true).
    { apply existsb_exists. exists w. split; [exact Hin|apply StoreFacts.sameWord_refl]. }
    congruence.
  - assert (x = w) as ->.
    { apply (distinct_same (NotebookStore.words nb)); try assumption.
      rewrite Hnb. apply in_or_app. right. left. reflexivity. }
    exists l1, l2. split; assumption.
Qed.

(** What the reviews of a drill leave in a notebook without two entries for
    one word, for selected words that are entries of it: every word holds
    the state its review returned, and nothing else has changed. *)
Lemma gradeCards_spec (ws : list Notebook.Entry) (cards : list Card) :
  Forall2 (fun w c => cardReview w c <> None) ws cards ->
  forall nb : NotebookStore.Store,
    NotebookStore.distinctWords (NotebookStore.words nb) ->
    incl ws (NotebookStore.words nb) ->
    List.NoDup ws ->
    exists nb',
      gradeCards ws cards nb = Some (nb', zip_with cardResult ws cards) /\
      map Notebook.word (NotebookStore.words nb') =
        map Notebook.word (NotebookStore.words nb) /\
      Forall2 (fun w c =>
                 exists next,
                   cardReview w c = Some next /\
                   In {| Notebook.word := Notebook.word w;
                         Notebook.learning := Some (toObject next) |}
                      (NotebookStore.words nb')) ws cards /\
      (forall e, In e (NotebookStore.words nb) -> ~ In e ws ->
                 In e (NotebookStore.words nb')).
Proof.
  induction 1 as [|w c ws cards Hreview _ IH]; intros nb Hd Hincl Hnodup.
  - exists nb. split; [reflexivity|]. split; [reflexivity|]. split; [constructor|].
    intros e He _. exact He.
  - cbn [gradeCards zip_with].
    destruct (cardReview w c) as [next|] eqn:Hnext; [|congruence]. clear Hreview.
    assert (Hw : In w (NotebookStore.words nb)) by (apply Hincl; left; reflexivity).
    destruct (update_member (cardWritable c) w (toObject next) nb Hd Hw)
      as (l1 & l2 & Hnb & Hnb1).
    set (nb1 := snd (NotebookStore.updateWordLearning (cardWritable c) (Notebook.word w)
                       (toObject next) nb)) in *.
    set (w1 := {| Notebook.word := Notebook.word w;
                  Notebook.learning := Some (toObject next) |}) in *.
    inversion Hnodup as [|? ? Hfresh Hnodup']; subst.
    assert (Hother : forall e, In e (NotebookStore.words nb) -> e <> w ->
                               In e (NotebookStore.words nb1)).
    { intros e He Hne. rewrite Hnb in He. rewrite Hnb1.
      apply in_app_or in He as [He|[He|He]].
      - apply in_or_app. left. exact He.
      - congruence.
      - apply in_or_app. right. right. exact He. }
    assert (Hwords1 : map Notebook.word (NotebookStore.words nb1) =
                      map Notebook.word (NotebookStore.words nb)).
    { rewrite Hnb, Hnb1, !map_app. reflexivity. }
    assert (Hd1 : NotebookStore.distinctWords (NotebookStore.words nb1)).
    { unfold NotebookStore.distinctWords in *.
      rewrite Hnb in Hd. rewrite Hnb1. rewrite map_app in *. exact Hd. }
    assert (Hincl1 : incl ws (NotebookStore.words nb1)).
    { intros e He. apply Hother; [apply Hincl; right; exact He|].
      intros ->. exact (Hfresh He). }
    destruct (IH nb1 Hd1 Hincl1 Hnodup') as (nb' & Hrun & Hwords & Hall & Hframe).
    exists nb'. rewrite Hrun.
    split; [reflexivity|]. split; [congruence|]. split; [constructor; [|exact Hall]|].
    + exists next. split; [exact Hnext|].
      apply Hframe.
      * rewrite Hnb1. apply in_or_app. right. left. reflexivity.
      * intros Hin1.
        assert (w1 = w) as Heq.
        { apply (distinct_same (NotebookStore.words nb)); try assumption.
          - apply Hincl. right. exact Hin1.
          - apply StoreFacts.sameWord_refl. }
        apply Hfresh. rewrite <- Heq. exact Hin1.
    + intros e He Hout. apply Hframe.
      * apply Hother; [exact He|]. intros ->. apply Hout. left. reflexivity.
      * intros Hin'. apply Hout. right. exact Hin'.
Qed.

(** *** Any run: the stored states stay complete *)








(** *** Any run: what reaches the file *)










End DrillFacts.

(** X23: a whole drill, in a notebook that has no two entries for one word.
    From the menu, s starts a session on the selected words (entries of the
    notebook, none twice); then Enter, a grade from 1 to 4 and the timer,
    for every word in turn, end at the summary with the session complete:
    every selected word has been graded exactly once, in order and after its
    card was revealed, the notebook holds for each of them the state that
    calculateNextReview returned for its grade from the state it had, and
    the other entries, the words and their order are as before (provided every
    card can be displayed and no review raises). *)
Theorem X23_drill_grades_every_word (st : REPL.State) (ws : list Notebook.Entry)
    (cards : list REPL.Card) (now : float) (writable shown : bool) :
  REPL.pendingSelection st = Session.LEARN_MENU ->
  REPL.selectionData st = Some ws ->
  ws <> [] ->
  REPL.timers st = 0%nat ->
  NotebookStore.distinctWords (NotebookStore.words (REPL.notebook st)) ->
  incl ws (NotebookStore.words (REPL.notebook st)) ->
  List.NoDup ws ->
  Forall2 (fun w c => 1 <= REPL.cardGrade c <= 4 /\ REPL.cardReview w c <> None)
    ws cards ->
  exists nb',
    REPL.run (REPL.Line now writable shown "s" :: REPL.drill cards) st =
    REPL.Returns
      {| REPL.notebook := nb';
         REPL.pendingSelection := Session.SESSION_COMPLETE;
         REPL.selectionData := Some ws;
         REPL.learningSession :=
           Some {| Session.words := ws; Session.currentIndex := length ws;
                   Session.results := zip_with REPL.cardResult ws cards;
                   Session.revealed := false |};
         REPL.timers := 0 |} /\
    map Notebook.word (NotebookStore.words nb') =
      map Notebook.word (NotebookStore.words (REPL.notebook st)) /\
    Forall2 (fun w c =>
               exists next,
                 REPL.cardReview w c = Some next /\
                 In {| Notebook.word := Notebook.word w;
                       Notebook.learning := Some (toObject next) |}
                    (NotebookStore.words nb')) ws cards /\
    (forall e, In e (NotebookStore.words (REPL.notebook st)) -> ~ In e ws ->
               In e (NotebookStore.words nb')).
Proof.
  intros Hp Hdata Hne Htimers Hd Hincl Hnodup Hcards.
  assert (Hreviews : Forall2 (fun w c => REPL.cardReview w c <> None) ws cards).
  { clear -Hcards. induction Hcards as [|w c ws cards [_ H] _ IH]; constructor; assumption. }
  assert (Hgrades : Forall (fun c => 1 <= REPL.cardGrade c <= 4) cards).
  { clear -Hcards. induction Hcards as [|w c ws cards [H _] _ IH]; constructor; assumption. }
  assert (Hlen : length cards = length ws).
  { clear -Hcards. induction Hcards; simpl; congruence. }
  destruct (DrillFacts.gradeCards_spec ws cards Hreviews (REPL.notebook st) Hd Hincl Hnodup)
    as (nb' & Hrun & Hwords & Hall & Hframe).
  exists nb'. split; [|split; [exact Hwords|split; [exact Hall|exact Hframe]]].
  cbn [REPL.run]. unfold REPL.step, REPL.handleInput, REPL.handleSelection. rewrite Hp.
  change (toLowerCase (trim "s")) with "s"%string.
  change (startsWith "/" "s") with false. cbv iota.
  unfold REPL.handleLearnMenuSelection. cbn [String.eqb Ascii.eqb Bool.eqb andb].
  rewrite Hdata.
  destruct ws as [|w ws]; [congruence|]. cbn [length Nat.eqb].
  unfold REPL.showCurrentFlashcard. cbn [REPL.learningSession REPL.setLearningSession].
  change (Session.showCurrentFlashcard (Session.create (w :: ws)))
    with Session.FLASHCARD_FRONT.
  rewrite (DrillFacts.drill_run (w :: ws) cards [] [] _ nb'
             (zip_with REPL.cardResult (w :: ws) cards)); try assumption.
  - cbn [REPL.selectionData REPL.setPendingSelection REPL.setLearningSession app].
    rewrite Hdata. reflexivity.
  - reflexivity.
  - reflexivity.
Qed.

Lemma X23_drill_grades_every_word_witness :
  let nb := {| NotebookStore.words := [saved "bread" dueState; saved "apple" DEFAULT_LEARNING];
               NotebookStore.file := NotebookStore.Missing |} in
  let st := REPL.setSelectionData (Some (NotebookStore.words nb))
              (REPL.setPendingSelection Session.LEARN_MENU (REPL.start sampleNow nb)) in
  let cards := [{| REPL.cardNow := sampleNow; REPL.cardWritable := true;
                   REPL.cardGrade := 3 |};
                {| REPL.cardNow := sampleNow; REPL.cardWritable := true;
                   REPL.cardGrade := 1 |}] in
  exists nb',
    REPL.run (REPL.Line sampleNow true true "s" :: REPL.drill cards) st =
    REPL.Returns
      {| REPL.notebook := nb';
         REPL.pendingSelection := Session.SESSION_COMPLETE;
         REPL.selectionData := Some (NotebookStore.words nb);
         REPL.learningSession :=
           Some {| Session.words := NotebookStore.words nb; Session.currentIndex := 2;
                   Session.results := zip_with REPL.cardResult (NotebookStore.words nb) cards;
                   Session.revealed := false |};
         REPL.timers := 0 |} /\
    map Notebook.word (NotebookStore.words nb') = ["bread"; "apple"]%string.
Proof.
  intros nb st cards.
  assert (Hbread : In (saved "bread" dueState) (NotebookStore.words nb))
    by (left; reflexivity).
  assert (Happle : In (saved "apple" DEFAULT_LEARNING) (NotebookStore.words nb))
    by (right; left; reflexivity).
  destruct (X23_drill_grades_every_word st (NotebookStore.words nb) cards sampleNow true true)
    as (nb' & Hrun & Hwords & _); try reflexivity.
  - discriminate.
  - unfold NotebookStore.distinctWords. simpl.
    repeat (apply NoDup_cons_2; [rewrite !list_elem_of_In; simpl; intuition discriminate|]).
    apply NoDup_nil_2.
  - intros e He. exact He.
  - repeat constructor; simpl; intuition discriminate.
  - repeat constructor; simpl; try lia; vm_compute; discriminate.
  - exists nb'. split; [exact Hrun|exact Hwords].
Defined.



(** ** Examples of a dictionary entry *)

Module ExampleFacts.
Section Examples.
Context {Example : Type}.
Lemma countExamples_from (definitions : list (@Api.WordDefinition Example)) (total : nat) :
  fold_left (fun total def => (total + length (default [] (Api.examples def)))%nat)
    definitions total =
  (total + list_sum (map (fun d => length (default [] (Api.examples d))) definitions))%nat.
Proof.
  revert total. induction definitions as [|d ds IH]; intros total; simpl; [lia|].
  rewrite IH. lia.
Qed.

Lemma mergeInto_merged (examplesByPos : list (@Api.Group Example))
    (d : @Api.WordDefinition Example) :
  Api.merged examplesByPos d (Api.mergeInto examplesByPos d) /\
  (Api.withoutExamples d = false ->
   Api.withoutExamples (Api.mergeInto examplesByPos d) = false).
Proof.
  unfold Api.merged, Api.mergeInto. cbn [Api.partOfSpeech Api.examples].
  destruct (List.find _ examplesByPos) as [e|] eqn:Hfind.
  - apply find_some in Hfind as [Hin _].
    unfold Api.withoutExamples at 1 4. cbn [Api.examples].
    unfold Api.withoutExamples.
    destruct (Api.examples d) as [[|x l]|]; cbn [default length Nat.eqb Api.examples
                                                   Api.partOfSpeech].
    + split; [split; [reflexivity|]|discriminate].
      eexists. split; [reflexivity|]. split; [rewrite length_firstn; lia|].
      right. exists e, 5%nat. split; [exact Hin|reflexivity].
    + split; [split; reflexivity|reflexivity].
    + split; [split; [reflexivity|]|discriminate].
      eexists. split; [reflexivity|]. split; [rewrite length_firstn; lia|].
      right. exists e, 5%nat. split; [exact Hin|reflexivity].
  - unfold Api.withoutExamples. cbn [Api.examples Api.partOfSpeech].
    destruct (Api.examples d) as [[|x l]|]; cbn [default length Nat.eqb].
    + split; [split; [reflexivity|]|discriminate].
      exists []. split; [reflexivity|]. split; [simpl; lia|left; reflexivity].
    + split; [split; reflexivity|reflexivity].
    + split; [split; [reflexivity|]|discriminate].
      exists []. split; [reflexivity|]. split; [simpl; lia|left; reflexivity].
Qed.

Lemma merged_count (examplesByPos : list (@Api.Group Example))
    (d d' : @Api.WordDefinition Example) :
  Api.merged examplesByPos d d' ->
  (length (default [] (Api.examples d)) <= length (default [] (Api.examples d')))%nat.
Proof.
  unfold Api.merged, Api.withoutExamples. intros [_ H].
  destruct (Api.examples d) as [[|x l]|]; simpl in *;
    try (rewrite H; simpl; lia); lia.
Qed.

End Examples.
End ExampleFacts.

(** X25: mergeExamples keeps every definition, in order and with its part
    of speech; a definition that already has examples keeps exactly those; a
    definition without examples ends with none, or with the first examples of
    one of the groups it was given, never more than five.  So the number of
    examples that countExamples counts never goes down. *)
Theorem X25_mergeExamples_keeps {Example : Type}
    (definitions : list (@Api.WordDefinition Example))
    (examplesByPos : list (@Api.Group Example)) :
  Forall2 (Api.merged examplesByPos) definitions
    (Api.mergeExamples definitions examplesByPos) /\
  (Api.countExamples definitions <=
   Api.countExamples (Api.mergeExamples definitions examplesByPos))%nat.
Proof.
  assert (Hfirst : Forall2 (fun d d' => Api.merged examplesByPos d d' /\
                                        (Api.withoutExamples d = false ->
                                         Api.withoutExamples d' = false))
                     definitions (map (Api.mergeInto examplesByPos) definitions)).
  { induction definitions as [|d ds IH]; simpl; constructor; [|exact IH].
    apply ExampleFacts.mergeInto_merged. }
  assert (Hmerged : Forall2 (Api.merged examplesByPos) definitions
                      (Api.mergeExamples definitions examplesByPos)).
  { unfold Api.mergeExamples.
    destruct (List.find _ examplesByPos) as [general|] eqn:Hgeneral;
      [|eapply Forall2_impl; [exact Hfirst|]; intros ? ? [H _]; exact H].
    apply find_some in Hgeneral as [Hin _].
    pose proof (StoreFacts.findIndex_first Api.withoutExamples
                  (map (Api.mergeInto examplesByPos) definitions)) as Hfi.
    destruct (findIndex _ _) as [i|];
      [|eapply Forall2_impl; [exact Hfirst|]; intros ? ? [H _]; exact H].
    destruct Hfi as (l1 & x & l2 & Hsplit & <- & Hx & _).
    rewrite Hsplit in *. rewrite StoreFacts.alter_middle.
    apply Forall2_app_inv_r in Hfirst as (d1 & d2 & H1 & H2 & ->).
    inversion H2 as [|d ? ds ? [Hd Hkeep] H3]; subst.
    apply Forall2_app.
    - eapply Forall2_impl; [exact H1|]. intros ? ? [H _]. exact H.
    - constructor; [|eapply Forall2_impl; [exact H3|]; intros ? ? [H _]; exact H].
      destruct Hd as [Hpos _]. split; [exact Hpos|].
      destruct (Api.withoutExamples d) eqn:Hd; [|rewrite (Hkeep eq_refl) in Hx; discriminate].
      eexists. split; [reflexivity|]. split; [rewrite length_firstn; lia|].
      right. exists general, 3%nat. split; [exact Hin|reflexivity]. }
  split; [exact Hmerged|].
  unfold Api.countExamples. rewrite !ExampleFacts.countExamples_from, !Nat.add_0_l.
  clear Hfirst. unfold list_sum.
  induction Hmerged as [|d d' ds ds' Hd _ IH]; [reflexivity|].
  cbn [map fold_right]. pose proof (ExampleFacts.merged_count _ _ _ Hd) as Hle.
  cbv beta in Hle. lia.
Qed.
